(** * PharmaGEN: the dialogue sequencer, translation adapter, report
      assembler and export renderer of [app.py], and the runner [run.py]

    A shallow embedding of the parts of [app.py] that carry a contract:
    [gemini_translate], [get_gemini_response], [generate_pdf_report],
    [initialize_chat_state] and [process_chat], with the helpers around
    them.

    Modelling conventions.
    - A Python [str] is the list of its code points ([pystr]).  A string
      literal of this file is read as UTF-8, so a literal denotes the
      [str] one reads in it.  Whitespace, case mapping and the matching
      of [re.IGNORECASE] are those of CPython 3.11, whose tables (Unicode
      14.0) are written out below.
    - The session dict is a [gmap pystr value]; a value is [None], a
      [str], or the list of turns kept under [gemini_chat_history_manual].
      A missing key raises [KeyError] on [state[k]] and yields the
      default on [state.get(k, d)].
    - The hosted completion service is an oracle indexed by the number of
      requests made so far, so two requests with one prompt may be answered
      differently.  A reply is a text or a raised exception.
    - [process_chat] mutates [history] and [state] in place and may raise
      in the middle: its body runs in a state-and-exception monad whose
      store survives a raise, and the [except] handler reads that store.
    - Console output ([print]) is not modelled. *)

From Stdlib Require Import NArith List Lia Bool Arith.
From Stdlib.Strings Require Import Byte.
From stdpp Require Import base option gmap list fin_maps.
Import ListNotations.

(** ** Texts *)

(** A [str]: its code points, in order. *)
Abbreviation pystr := (list N).

(** String literals: the UTF-8 bytes of a literal are decoded to code
    points when it is read, and encoded again when it is printed. *)
Module Literal.

Inductive lit : Set :=
| lnil
| lcons (c : N) (l : lit).

Fixpoint of_list (l : list N) : lit :=
  match l with
  | [] => lnil
  | c :: l' => lcons c (of_list l')
  end.

Fixpoint to_list (l : lit) : list N :=
  match l with
  | lnil => []
  | lcons c l' => c :: to_list l'
  end.

(** The type that string literals are read into. *)
Definition target : Type := list N.

Definition continuation (b : N) : bool := ((128 <=? b) && (b <? 192))%N.

Fixpoint decode (bytes : list N) : option (list N) :=
  match bytes with
  | [] => Some []
  | b :: rest =>
      if (b <? 128)%N then cons b <$> decode rest
      else if (b <? 224)%N then
        match rest with
        | b1 :: rest1 =>
            if continuation b1
            then cons ((b - 192) * 64 + (b1 - 128))%N <$> decode rest1
            else None
        | _ => None
        end
      else if (b <? 240)%N then
        match rest with
        | b1 :: b2 :: rest2 =>
            if continuation b1 && continuation b2
            then cons ((b - 224) * 4096 + (b1 - 128) * 64 + (b2 - 128))%N
                   <$> decode rest2
            else None
        | _ => None
        end
      else
        match rest with
        | b1 :: b2 :: b3 :: rest3 =>
            if continuation b1 && continuation b2 && continuation b3
            then cons ((b - 240) * 262144 + (b1 - 128) * 4096
                       + (b2 - 128) * 64 + (b3 - 128))%N
                   <$> decode rest3
            else None
        | _ => None
        end
  end.

Definition encode_one (c : N) : list N :=
  if (c <? 128)%N then [c]
  else if (c <? 2048)%N then [192 + c / 64; 128 + c mod 64]%N
  else if (c <? 65536)%N
  then [224 + c / 4096; 128 + (c / 64) mod 64; 128 + c mod 64]%N
  else [240 + c / 262144; 128 + (c / 4096) mod 64; 128 + (c / 64) mod 64;
        128 + c mod 64]%N.

Definition parse (bytes : list Byte.byte) : option lit :=
  of_list <$> decode (map Byte.to_N bytes).

Fixpoint bytes_of (l : list N) : option (list Byte.byte) :=
  match l with
  | [] => Some []
  | b :: l' =>
      match Byte.of_N b, bytes_of l' with
      | Some x, Some xs => Some (x :: xs)
      | _, _ => None
      end
  end.

Definition print (l : lit) : option (list Byte.byte) :=
  bytes_of (flat_map encode_one (to_list l)).

End Literal.

Declare Scope pystr_scope.
Delimit Scope pystr_scope with pystr.
#[warnings="-via-type-remapping,-via-type-mismatch"]
String Notation Literal.target Literal.parse Literal.print
  (via Literal.lit mapping [[nil] => Literal.lnil, [cons] => Literal.lcons])
  : pystr_scope.
Open Scope pystr_scope.

(** ** Characters *)

Module PyChar.

(** [c] lies in one of the closed ranges [rs]. *)
Definition in_ranges (rs : list (N * N)) (c : N) : bool :=
  existsb (fun r => (fst r <=? c) && (c <=? snd r))%N rs.

(** A table of runs [(lo, hi, step, image)]: the code points [lo],
    [lo + step], ... up to [hi] are mapped to [image], [image + step],
    ...  The image of [c], if a run holds it. *)
Definition run_image (runs : list (N * N * N * N)) (c : N) : option N :=
  match
    find (fun r =>
            match r with
            | (lo, hi, step, _) =>
                (lo <=? c) && (c <=? hi) && ((c - lo) mod step =? 0)
            end)%N runs
  with
  | Some (lo, _, _, image) => Some (image + (c - lo))%N
  | None => None
  end.

(** A table of code points with a longer image. *)
Definition special_image (table : list (N * list N)) (c : N)
  : option (list N) :=
  snd <$> find (fun r => fst r =? c)%N table.

Definition SPACE_RANGES : list (N * N) :=
  [(9, 13); (28, 32); (133, 133); (160, 160); (5760, 5760); (8192, 8202);
   (8232, 8233); (8239, 8239); (8287, 8287); (12288, 12288)]%N.

Definition LOWER_RUNS : list (N * N * N * N) :=
  [(65, 90, 1, 97); (192, 214, 1, 224); (216, 222, 1, 248);
   (256, 302, 2, 257); (306, 310, 2, 307); (313, 327, 2, 314);
   (330, 374, 2, 331); (376, 376, 1, 255); (377, 381, 2, 378);
   (385, 385, 1, 595); (386, 388, 2, 387); (390, 390, 1, 596);
   (391, 391, 1, 392); (393, 394, 1, 598); (395, 395, 1, 396);
   (398, 398, 1, 477); (399, 399, 1, 601); (400, 400, 1, 603);
   (401, 401, 1, 402); (403, 403, 1, 608); (404, 404, 1, 611);
   (406, 406, 1, 617); (407, 407, 1, 616); (408, 408, 1, 409);
   (412, 412, 1, 623); (413, 413, 1, 626); (415, 415, 1, 629);
   (416, 420, 2, 417); (422, 422, 1, 640); (423, 423, 1, 424);
   (425, 425, 1, 643); (428, 428, 1, 429); (430, 430, 1, 648);
   (431, 431, 1, 432); (433, 434, 1, 650); (435, 437, 2, 436);
   (439, 439, 1, 658); (440, 440, 1, 441); (444, 444, 1, 445);
   (452, 452, 1, 454); (453, 453, 1, 454); (455, 455, 1, 457);
   (456, 456, 1, 457); (458, 458, 1, 460); (459, 475, 2, 460);
   (478, 494, 2, 479); (497, 497, 1, 499); (498, 500, 2, 499);
   (502, 502, 1, 405); (503, 503, 1, 447); (504, 542, 2, 505);
   (544, 544, 1, 414); (546, 562, 2, 547); (570, 570, 1, 11365);
   (571, 571, 1, 572); (573, 573, 1, 410); (574, 574, 1, 11366);
   (577, 577, 1, 578); (579, 579, 1, 384); (580, 580, 1, 649);
   (581, 581, 1, 652); (582, 590, 2, 583); (880, 882, 2, 881);
   (886, 886, 1, 887); (895, 895, 1, 1011); (902, 902, 1, 940);
   (904, 906, 1, 941); (908, 908, 1, 972); (910, 911, 1, 973);
   (913, 929, 1, 945); (932, 939, 1, 964); (975, 975, 1, 983);
   (984, 1006, 2, 985); (1012, 1012, 1, 952); (1015, 1015, 1, 1016);
   (1017, 1017, 1, 1010); (1018, 1018, 1, 1019); (1021, 1023, 1, 891);
   (1024, 1039, 1, 1104); (1040, 1071, 1, 1072); (1120, 1152, 2, 1121);
   (1162, 1214, 2, 1163); (1216, 1216, 1, 1231); (1217, 1229, 2, 1218);
   (1232, 1326, 2, 1233); (1329, 1366, 1, 1377); (4256, 4293, 1, 11520);
   (4295, 4295, 1, 11559); (4301, 4301, 1, 11565); (5024, 5103, 1, 43888);
   (5104, 5109, 1, 5112); (7312, 7354, 1, 4304); (7357, 7359, 1, 4349);
   (7680, 7828, 2, 7681); (7838, 7838, 1, 223); (7840, 7934, 2, 7841);
   (7944, 7951, 1, 7936); (7960, 7965, 1, 7952); (7976, 7983, 1, 7968);
   (7992, 7999, 1, 7984); (8008, 8013, 1, 8000); (8025, 8031, 2, 8017);
   (8040, 8047, 1, 8032); (8072, 8079, 1, 8064); (8088, 8095, 1, 8080);
   (8104, 8111, 1, 8096); (8120, 8121, 1, 8112); (8122, 8123, 1, 8048);
   (8124, 8124, 1, 8115); (8136, 8139, 1, 8050); (8140, 8140, 1, 8131);
   (8152, 8153, 1, 8144); (8154, 8155, 1, 8054); (8168, 8169, 1, 8160);
   (8170, 8171, 1, 8058); (8172, 8172, 1, 8165); (8184, 8185, 1, 8056);
   (8186, 8187, 1, 8060); (8188, 8188, 1, 8179); (8486, 8486, 1, 969);
   (8490, 8490, 1, 107); (8491, 8491, 1, 229); (8498, 8498, 1, 8526);
   (8544, 8559, 1, 8560); (8579, 8579, 1, 8580); (9398, 9423, 1, 9424);
   (11264, 11311, 1, 11312); (11360, 11360, 1, 11361);
   (11362, 11362, 1, 619); (11363, 11363, 1, 7549); (11364, 11364, 1, 637);
   (11367, 11371, 2, 11368); (11373, 11373, 1, 593); (11374, 11374, 1, 625);
   (11375, 11375, 1, 592); (11376, 11376, 1, 594); (11378, 11378, 1, 11379);
   (11381, 11381, 1, 11382); (11390, 11391, 1, 575);
   (11392, 11490, 2, 11393); (11499, 11501, 2, 11500);
   (11506, 11506, 1, 11507); (42560, 42604, 2, 42561);
   (42624, 42650, 2, 42625); (42786, 42798, 2, 42787);
   (42802, 42862, 2, 42803); (42873, 42875, 2, 42874);
   (42877, 42877, 1, 7545); (42878, 42886, 2, 42879);
   (42891, 42891, 1, 42892); (42893, 42893, 1, 613);
   (42896, 42898, 2, 42897); (42902, 42920, 2, 42903);
   (42922, 42922, 1, 614); (42923, 42923, 1, 604); (42924, 42924, 1, 609);
   (42925, 42925, 1, 620); (42926, 42926, 1, 618); (42928, 42928, 1, 670);
   (42929, 42929, 1, 647); (42930, 42930, 1, 669); (42931, 42931, 1, 43859);
   (42932, 42946, 2, 42933); (42948, 42948, 1, 42900);
   (42949, 42949, 1, 642); (42950, 42950, 1, 7566); (42951, 42953, 2, 42952);
   (42960, 42960, 1, 42961); (42966, 42968, 2, 42967);
   (42997, 42997, 1, 42998); (65313, 65338, 1, 65345);
   (66560, 66599, 1, 66600); (66736, 66771, 1, 66776);
   (66928, 66938, 1, 66967); (66940, 66954, 1, 66979);
   (66956, 66962, 1, 66995); (66964, 66965, 1, 67003);
   (68736, 68786, 1, 68800); (71840, 71871, 1, 71872);
   (93760, 93791, 1, 93792); (125184, 125217, 1, 125218)]%N.

Definition LOWER_SPECIAL : list (N * list N) :=
  [(304, [105; 775])]%N.

Definition TITLE_RUNS : list (N * N * N * N) :=
  [(97, 122, 1, 65); (181, 181, 1, 924); (224, 246, 1, 192);
   (248, 254, 1, 216); (255, 255, 1, 376); (257, 303, 2, 256);
   (305, 305, 1, 73); (307, 311, 2, 306); (314, 328, 2, 313);
   (331, 375, 2, 330); (378, 382, 2, 377); (383, 383, 1, 83);
   (384, 384, 1, 579); (387, 389, 2, 386); (392, 392, 1, 391);
   (396, 396, 1, 395); (402, 402, 1, 401); (405, 405, 1, 502);
   (409, 409, 1, 408); (410, 410, 1, 573); (414, 414, 1, 544);
   (417, 421, 2, 416); (424, 424, 1, 423); (429, 429, 1, 428);
   (432, 432, 1, 431); (436, 438, 2, 435); (441, 441, 1, 440);
   (445, 445, 1, 444); (447, 447, 1, 503); (452, 452, 1, 453);
   (454, 454, 1, 453); (455, 455, 1, 456); (457, 457, 1, 456);
   (458, 458, 1, 459); (460, 476, 2, 459); (477, 477, 1, 398);
   (479, 495, 2, 478); (497, 497, 1, 498); (499, 501, 2, 498);
   (505, 543, 2, 504); (547, 563, 2, 546); (572, 572, 1, 571);
   (575, 576, 1, 11390); (578, 578, 1, 577); (583, 591, 2, 582);
   (592, 592, 1, 11375); (593, 593, 1, 11373); (594, 594, 1, 11376);
   (595, 595, 1, 385); (596, 596, 1, 390); (598, 599, 1, 393);
   (601, 601, 1, 399); (603, 603, 1, 400); (604, 604, 1, 42923);
   (608, 608, 1, 403); (609, 609, 1, 42924); (611, 611, 1, 404);
   (613, 613, 1, 42893); (614, 614, 1, 42922); (616, 616, 1, 407);
   (617, 617, 1, 406); (618, 618, 1, 42926); (619, 619, 1, 11362);
   (620, 620, 1, 42925); (623, 623, 1, 412); (625, 625, 1, 11374);
   (626, 626, 1, 413); (629, 629, 1, 415); (637, 637, 1, 11364);
   (640, 640, 1, 422); (642, 642, 1, 42949); (643, 643, 1, 425);
   (647, 647, 1, 42929); (648, 648, 1, 430); (649, 649, 1, 580);
   (650, 651, 1, 433); (652, 652, 1, 581); (658, 658, 1, 439);
   (669, 669, 1, 42930); (670, 670, 1, 42928); (837, 837, 1, 921);
   (881, 883, 2, 880); (887, 887, 1, 886); (891, 893, 1, 1021);
   (940, 940, 1, 902); (941, 943, 1, 904); (945, 961, 1, 913);
   (962, 962, 1, 931); (963, 971, 1, 931); (972, 972, 1, 908);
   (973, 974, 1, 910); (976, 976, 1, 914); (977, 977, 1, 920);
   (981, 981, 1, 934); (982, 982, 1, 928); (983, 983, 1, 975);
   (985, 1007, 2, 984); (1008, 1008, 1, 922); (1009, 1009, 1, 929);
   (1010, 1010, 1, 1017); (1011, 1011, 1, 895); (1013, 1013, 1, 917);
   (1016, 1016, 1, 1015); (1019, 1019, 1, 1018); (1072, 1103, 1, 1040);
   (1104, 1119, 1, 1024); (1121, 1153, 2, 1120); (1163, 1215, 2, 1162);
   (1218, 1230, 2, 1217); (1231, 1231, 1, 1216); (1233, 1327, 2, 1232);
   (1377, 1414, 1, 1329); (5112, 5117, 1, 5104); (7296, 7296, 1, 1042);
   (7297, 7297, 1, 1044); (7298, 7298, 1, 1054); (7299, 7300, 1, 1057);
   (7301, 7301, 1, 1058); (7302, 7302, 1, 1066); (7303, 7303, 1, 1122);
   (7304, 7304, 1, 42570); (7545, 7545, 1, 42877); (7549, 7549, 1, 11363);
   (7566, 7566, 1, 42950); (7681, 7829, 2, 7680); (7835, 7835, 1, 7776);
   (7841, 7935, 2, 7840); (7936, 7943, 1, 7944); (7952, 7957, 1, 7960);
   (7968, 7975, 1, 7976); (7984, 7991, 1, 7992); (8000, 8005, 1, 8008);
   (8017, 8023, 2, 8025); (8032, 8039, 1, 8040); (8048, 8049, 1, 8122);
   (8050, 8053, 1, 8136); (8054, 8055, 1, 8154); (8056, 8057, 1, 8184);
   (8058, 8059, 1, 8170); (8060, 8061, 1, 8186); (8064, 8071, 1, 8072);
   (8080, 8087, 1, 8088); (8096, 8103, 1, 8104); (8112, 8113, 1, 8120);
   (8115, 8115, 1, 8124); (8126, 8126, 1, 921); (8131, 8131, 1, 8140);
   (8144, 8145, 1, 8152); (8160, 8161, 1, 8168); (8165, 8165, 1, 8172);
   (8179, 8179, 1, 8188); (8526, 8526, 1, 8498); (8560, 8575, 1, 8544);
   (8580, 8580, 1, 8579); (9424, 9449, 1, 9398); (11312, 11359, 1, 11264);
   (11361, 11361, 1, 11360); (11365, 11365, 1, 570); (11366, 11366, 1, 574);
   (11368, 11372, 2, 11367); (11379, 11379, 1, 11378);
   (11382, 11382, 1, 11381); (11393, 11491, 2, 11392);
   (11500, 11502, 2, 11499); (11507, 11507, 1, 11506);
   (11520, 11557, 1, 4256); (11559, 11559, 1, 4295); (11565, 11565, 1, 4301);
   (42561, 42605, 2, 42560); (42625, 42651, 2, 42624);
   (42787, 42799, 2, 42786); (42803, 42863, 2, 42802);
   (42874, 42876, 2, 42873); (42879, 42887, 2, 42878);
   (42892, 42892, 1, 42891); (42897, 42899, 2, 42896);
   (42900, 42900, 1, 42948); (42903, 42921, 2, 42902);
   (42933, 42947, 2, 42932); (42952, 42954, 2, 42951);
   (42961, 42961, 1, 42960); (42967, 42969, 2, 42966);
   (42998, 42998, 1, 42997); (43859, 43859, 1, 42931);
   (43888, 43967, 1, 5024); (65345, 65370, 1, 65313);
   (66600, 66639, 1, 66560); (66776, 66811, 1, 66736);
   (66967, 66977, 1, 66928); (66979, 66993, 1, 66940);
   (66995, 67001, 1, 66956); (67003, 67004, 1, 66964);
   (68800, 68850, 1, 68736); (71872, 71903, 1, 71840);
   (93792, 93823, 1, 93760); (125218, 125251, 1, 125184)]%N.

Definition TITLE_SPECIAL : list (N * list N) :=
  [(223, [83; 115]); (329, [700; 78]); (496, [74; 780]);
   (912, [921; 776; 769]); (944, [933; 776; 769]); (1415, [1333; 1410]);
   (7830, [72; 817]); (7831, [84; 776]); (7832, [87; 778]);
   (7833, [89; 778]); (7834, [65; 702]); (8016, [933; 787]);
   (8018, [933; 787; 768]); (8020, [933; 787; 769]); (8022, [933; 787; 834]);
   (8114, [8122; 837]); (8116, [902; 837]); (8118, [913; 834]);
   (8119, [913; 834; 837]); (8130, [8138; 837]); (8132, [905; 837]);
   (8134, [919; 834]); (8135, [919; 834; 837]); (8146, [921; 776; 768]);
   (8147, [921; 776; 769]); (8150, [921; 834]); (8151, [921; 776; 834]);
   (8162, [933; 776; 768]); (8163, [933; 776; 769]); (8164, [929; 787]);
   (8166, [933; 834]); (8167, [933; 776; 834]); (8178, [8186; 837]);
   (8180, [911; 837]); (8182, [937; 834]); (8183, [937; 834; 837]);
   (64256, [70; 102]); (64257, [70; 105]); (64258, [70; 108]);
   (64259, [70; 102; 105]); (64260, [70; 102; 108]); (64261, [83; 116]);
   (64262, [83; 116]); (64275, [1348; 1398]); (64276, [1348; 1381]);
   (64277, [1348; 1387]); (64278, [1358; 1398]); (64279, [1348; 1389])]%N.

Definition CASED_RANGES : list (N * N) :=
  [(65, 90); (97, 122); (170, 170); (181, 181); (186, 186); (192, 214);
   (216, 246); (248, 442); (444, 447); (452, 659); (661, 696); (704, 705);
   (736, 740); (837, 837); (880, 883); (886, 887); (890, 893); (895, 895);
   (902, 902); (904, 906); (908, 908); (910, 929); (931, 1013); (1015, 1153);
   (1162, 1327); (1329, 1366); (1376, 1416); (4256, 4293); (4295, 4295);
   (4301, 4301); (4304, 4346); (4349, 4351); (5024, 5109); (5112, 5117);
   (7296, 7304); (7312, 7354); (7357, 7359); (7424, 7615); (7680, 7957);
   (7960, 7965); (7968, 8005); (8008, 8013); (8016, 8023); (8025, 8025);
   (8027, 8027); (8029, 8029); (8031, 8061); (8064, 8116); (8118, 8124);
   (8126, 8126); (8130, 8132); (8134, 8140); (8144, 8147); (8150, 8155);
   (8160, 8172); (8178, 8180); (8182, 8188); (8305, 8305); (8319, 8319);
   (8336, 8348); (8450, 8450); (8455, 8455); (8458, 8467); (8469, 8469);
   (8473, 8477); (8484, 8484); (8486, 8486); (8488, 8488); (8490, 8493);
   (8495, 8500); (8505, 8505); (8508, 8511); (8517, 8521); (8526, 8526);
   (8544, 8575); (8579, 8580); (9398, 9449); (11264, 11492); (11499, 11502);
   (11506, 11507); (11520, 11557); (11559, 11559); (11565, 11565);
   (42560, 42605); (42624, 42653); (42786, 42887); (42891, 42894);
   (42896, 42954); (42960, 42961); (42963, 42963); (42965, 42969);
   (42997, 42998); (43000, 43002); (43824, 43866); (43868, 43880);
   (43888, 43967); (64256, 64262); (64275, 64279); (65313, 65338);
   (65345, 65370); (66560, 66639); (66736, 66771); (66776, 66811);
   (66928, 66938); (66940, 66954); (66956, 66962); (66964, 66965);
   (66967, 66977); (66979, 66993); (66995, 67001); (67003, 67004);
   (67456, 67456); (67459, 67461); (67463, 67504); (67506, 67514);
   (68736, 68786); (68800, 68850); (71840, 71903); (93760, 93823);
   (119808, 119892); (119894, 119964); (119966, 119967); (119970, 119970);
   (119973, 119974); (119977, 119980); (119982, 119993); (119995, 119995);
   (119997, 120003); (120005, 120069); (120071, 120074); (120077, 120084);
   (120086, 120092); (120094, 120121); (120123, 120126); (120128, 120132);
   (120134, 120134); (120138, 120144); (120146, 120485); (120488, 120512);
   (120514, 120538); (120540, 120570); (120572, 120596); (120598, 120628);
   (120630, 120654); (120656, 120686); (120688, 120712); (120714, 120744);
   (120746, 120770); (120772, 120779); (122624, 122633); (122635, 122654);
   (125184, 125251); (127280, 127305); (127312, 127337); (127344, 127369)]%N.

Definition CASE_IGNORABLE_RANGES : list (N * N) :=
  [(39, 39); (46, 46); (58, 58); (94, 94); (96, 96); (168, 168); (173, 173);
   (175, 175); (180, 180); (183, 184); (688, 879); (884, 885); (890, 890);
   (900, 901); (903, 903); (1155, 1161); (1369, 1369); (1375, 1375);
   (1425, 1469); (1471, 1471); (1473, 1474); (1476, 1477); (1479, 1479);
   (1524, 1524); (1536, 1541); (1552, 1562); (1564, 1564); (1600, 1600);
   (1611, 1631); (1648, 1648); (1750, 1757); (1759, 1768); (1770, 1773);
   (1807, 1807); (1809, 1809); (1840, 1866); (1958, 1968); (2027, 2037);
   (2042, 2042); (2045, 2045); (2070, 2093); (2137, 2139); (2184, 2184);
   (2192, 2193); (2200, 2207); (2249, 2306); (2362, 2362); (2364, 2364);
   (2369, 2376); (2381, 2381); (2385, 2391); (2402, 2403); (2417, 2417);
   (2433, 2433); (2492, 2492); (2497, 2500); (2509, 2509); (2530, 2531);
   (2558, 2558); (2561, 2562); (2620, 2620); (2625, 2626); (2631, 2632);
   (2635, 2637); (2641, 2641); (2672, 2673); (2677, 2677); (2689, 2690);
   (2748, 2748); (2753, 2757); (2759, 2760); (2765, 2765); (2786, 2787);
   (2810, 2815); (2817, 2817); (2876, 2876); (2879, 2879); (2881, 2884);
   (2893, 2893); (2901, 2902); (2914, 2915); (2946, 2946); (3008, 3008);
   (3021, 3021); (3072, 3072); (3076, 3076); (3132, 3132); (3134, 3136);
   (3142, 3144); (3146, 3149); (3157, 3158); (3170, 3171); (3201, 3201);
   (3260, 3260); (3263, 3263); (3270, 3270); (3276, 3277); (3298, 3299);
   (3328, 3329); (3387, 3388); (3393, 3396); (3405, 3405); (3426, 3427);
   (3457, 3457); (3530, 3530); (3538, 3540); (3542, 3542); (3633, 3633);
   (3636, 3642); (3654, 3662); (3761, 3761); (3764, 3772); (3782, 3782);
   (3784, 3789); (3864, 3865); (3893, 3893); (3895, 3895); (3897, 3897);
   (3953, 3966); (3968, 3972); (3974, 3975); (3981, 3991); (3993, 4028);
   (4038, 4038); (4141, 4144); (4146, 4151); (4153, 4154); (4157, 4158);
   (4184, 4185); (4190, 4192); (4209, 4212); (4226, 4226); (4229, 4230);
   (4237, 4237); (4253, 4253); (4348, 4348); (4957, 4959); (5906, 5908);
   (5938, 5939); (5970, 5971); (6002, 6003); (6068, 6069); (6071, 6077);
   (6086, 6086); (6089, 6099); (6103, 6103); (6109, 6109); (6155, 6159);
   (6211, 6211); (6277, 6278); (6313, 6313); (6432, 6434); (6439, 6440);
   (6450, 6450); (6457, 6459); (6679, 6680); (6683, 6683); (6742, 6742);
   (6744, 6750); (6752, 6752); (6754, 6754); (6757, 6764); (6771, 6780);
   (6783, 6783); (6823, 6823); (6832, 6862); (6912, 6915); (6964, 6964);
   (6966, 6970); (6972, 6972); (6978, 6978); (7019, 7027); (7040, 7041);
   (7074, 7077); (7080, 7081); (7083, 7085); (7142, 7142); (7144, 7145);
   (7149, 7149); (7151, 7153); (7212, 7219); (7222, 7223); (7288, 7293);
   (7376, 7378); (7380, 7392); (7394, 7400); (7405, 7405); (7412, 7412);
   (7416, 7417); (7468, 7530); (7544, 7544); (7579, 7679); (8125, 8125);
   (8127, 8129); (8141, 8143); (8157, 8159); (8173, 8175); (8189, 8190);
   (8203, 8207); (8216, 8217); (8228, 8228); (8231, 8231); (8234, 8238);
   (8288, 8292); (8294, 8303); (8305, 8305); (8319, 8319); (8336, 8348);
   (8400, 8432); (11388, 11389); (11503, 11505); (11631, 11631);
   (11647, 11647); (11744, 11775); (11823, 11823); (12293, 12293);
   (12330, 12333); (12337, 12341); (12347, 12347); (12441, 12446);
   (12540, 12542); (40981, 40981); (42232, 42237); (42508, 42508);
   (42607, 42610); (42612, 42621); (42623, 42623); (42652, 42655);
   (42736, 42737); (42752, 42785); (42864, 42864); (42888, 42890);
   (42994, 42996); (43000, 43001); (43010, 43010); (43014, 43014);
   (43019, 43019); (43045, 43046); (43052, 43052); (43204, 43205);
   (43232, 43249); (43263, 43263); (43302, 43309); (43335, 43345);
   (43392, 43394); (43443, 43443); (43446, 43449); (43452, 43453);
   (43471, 43471); (43493, 43494); (43561, 43566); (43569, 43570);
   (43573, 43574); (43587, 43587); (43596, 43596); (43632, 43632);
   (43644, 43644); (43696, 43696); (43698, 43700); (43703, 43704);
   (43710, 43711); (43713, 43713); (43741, 43741); (43756, 43757);
   (43763, 43764); (43766, 43766); (43867, 43871); (43881, 43883);
   (44005, 44005); (44008, 44008); (44013, 44013); (64286, 64286);
   (64434, 64450); (65024, 65039); (65043, 65043); (65056, 65071);
   (65106, 65106); (65109, 65109); (65279, 65279); (65287, 65287);
   (65294, 65294); (65306, 65306); (65342, 65342); (65344, 65344);
   (65392, 65392); (65438, 65439); (65507, 65507); (65529, 65531);
   (66045, 66045); (66272, 66272); (66422, 66426); (67456, 67461);
   (67463, 67504); (67506, 67514); (68097, 68099); (68101, 68102);
   (68108, 68111); (68152, 68154); (68159, 68159); (68325, 68326);
   (68900, 68903); (69291, 69292); (69446, 69456); (69506, 69509);
   (69633, 69633); (69688, 69702); (69744, 69744); (69747, 69748);
   (69759, 69761); (69811, 69814); (69817, 69818); (69821, 69821);
   (69826, 69826); (69837, 69837); (69888, 69890); (69927, 69931);
   (69933, 69940); (70003, 70003); (70016, 70017); (70070, 70078);
   (70089, 70092); (70095, 70095); (70191, 70193); (70196, 70196);
   (70198, 70199); (70206, 70206); (70367, 70367); (70371, 70378);
   (70400, 70401); (70459, 70460); (70464, 70464); (70502, 70508);
   (70512, 70516); (70712, 70719); (70722, 70724); (70726, 70726);
   (70750, 70750); (70835, 70840); (70842, 70842); (70847, 70848);
   (70850, 70851); (71090, 71093); (71100, 71101); (71103, 71104);
   (71132, 71133); (71219, 71226); (71229, 71229); (71231, 71232);
   (71339, 71339); (71341, 71341); (71344, 71349); (71351, 71351);
   (71453, 71455); (71458, 71461); (71463, 71467); (71727, 71735);
   (71737, 71738); (71995, 71996); (71998, 71998); (72003, 72003);
   (72148, 72151); (72154, 72155); (72160, 72160); (72193, 72202);
   (72243, 72248); (72251, 72254); (72263, 72263); (72273, 72278);
   (72281, 72283); (72330, 72342); (72344, 72345); (72752, 72758);
   (72760, 72765); (72767, 72767); (72850, 72871); (72874, 72880);
   (72882, 72883); (72885, 72886); (73009, 73014); (73018, 73018);
   (73020, 73021); (73023, 73029); (73031, 73031); (73104, 73105);
   (73109, 73109); (73111, 73111); (73459, 73460); (78896, 78904);
   (92912, 92916); (92976, 92982); (92992, 92995); (94031, 94031);
   (94095, 94111); (94176, 94177); (94179, 94180); (110576, 110579);
   (110581, 110587); (110589, 110590); (113821, 113822); (113824, 113827);
   (118528, 118573); (118576, 118598); (119143, 119145); (119155, 119170);
   (119173, 119179); (119210, 119213); (119362, 119364); (121344, 121398);
   (121403, 121452); (121461, 121461); (121476, 121476); (121499, 121503);
   (121505, 121519); (122880, 122886); (122888, 122904); (122907, 122913);
   (122915, 122916); (122918, 122922); (123184, 123197); (123566, 123566);
   (123628, 123631); (125136, 125142); (125252, 125259); (127995, 127999);
   (917505, 917505); (917536, 917631); (917760, 917999)]%N.

Definition SRE_CASED_RANGES : list (N * N) :=
  [(65, 90); (97, 122); (181, 181); (192, 214); (216, 246); (248, 311);
   (313, 396); (398, 410); (412, 425); (428, 441); (444, 445); (447, 447);
   (452, 544); (546, 563); (570, 596); (598, 599); (601, 601); (603, 604);
   (608, 609); (611, 611); (613, 614); (616, 620); (623, 623); (625, 626);
   (629, 629); (637, 637); (640, 640); (642, 643); (647, 652); (658, 658);
   (669, 670); (837, 837); (880, 883); (886, 887); (891, 893); (895, 895);
   (902, 902); (904, 906); (908, 908); (910, 929); (931, 977); (981, 1013);
   (1015, 1019); (1021, 1153); (1162, 1327); (1329, 1366); (1377, 1415);
   (4256, 4293); (4295, 4295); (4301, 4301); (4304, 4346); (4349, 4351);
   (5024, 5109); (5112, 5117); (7296, 7304); (7312, 7354); (7357, 7359);
   (7545, 7545); (7549, 7549); (7566, 7566); (7680, 7835); (7838, 7838);
   (7840, 7957); (7960, 7965); (7968, 8005); (8008, 8013); (8016, 8023);
   (8025, 8025); (8027, 8027); (8029, 8029); (8031, 8061); (8064, 8116);
   (8118, 8124); (8126, 8126); (8130, 8132); (8134, 8140); (8144, 8147);
   (8150, 8155); (8160, 8172); (8178, 8180); (8182, 8188); (8486, 8486);
   (8490, 8491); (8498, 8498); (8526, 8526); (8544, 8575); (8579, 8580);
   (9398, 9449); (11264, 11376); (11378, 11379); (11381, 11382);
   (11390, 11491); (11499, 11502); (11506, 11507); (11520, 11557);
   (11559, 11559); (11565, 11565); (42560, 42605); (42624, 42651);
   (42786, 42799); (42802, 42863); (42873, 42887); (42891, 42893);
   (42896, 42900); (42902, 42926); (42928, 42954); (42960, 42961);
   (42966, 42969); (42997, 42998); (43859, 43859); (43888, 43967);
   (64256, 64262); (64275, 64279); (65313, 65338); (65345, 65370);
   (66560, 66639); (66736, 66771); (66776, 66811); (66928, 66938);
   (66940, 66954); (66956, 66962); (66964, 66965); (66967, 66977);
   (66979, 66993); (66995, 67001); (67003, 67004); (68736, 68786);
   (68800, 68850); (71840, 71903); (93760, 93823); (125184, 125251)]%N.

Definition SRE_EXTRA_CASES : list (N * list N) :=
  [(105, [305]); (115, [383]); (181, [956]); (305, [105]); (383, [115]);
   (837, [953; 8126]); (912, [8147]); (944, [8163]); (946, [976]);
   (949, [1013]); (952, [977]); (953, [837; 8126]); (954, [1008]);
   (956, [181]); (960, [982]); (961, [1009]); (962, [963]); (963, [962]);
   (966, [981]); (976, [946]); (977, [952]); (981, [966]); (982, [960]);
   (1008, [954]); (1009, [961]); (1013, [949]); (1074, [7296]);
   (1076, [7297]); (1086, [7298]); (1089, [7299]); (1090, [7300; 7301]);
   (1098, [7302]); (1123, [7303]); (7296, [1074]); (7297, [1076]);
   (7298, [1086]); (7299, [1089]); (7300, [1090; 7301]);
   (7301, [1090; 7300]); (7302, [1098]); (7303, [1123]); (7304, [42571]);
   (7777, [7835]); (7835, [7777]); (8126, [837; 953]); (8147, [912]);
   (8163, [944]); (42571, [7304]); (64261, [64262]); (64262, [64261])]%N.
(** [c.isspace()], which is also what [str.strip] removes. *)
Definition is_space (c : N) : bool := in_ranges SPACE_RANGES c.

(** The properties Cased and Case_Ignorable. *)
Definition is_cased (c : N) : bool := in_ranges CASED_RANGES c.

Definition is_case_ignorable (c : N) : bool :=
  in_ranges CASE_IGNORABLE_RANGES c.

Definition CAPITAL_SIGMA : N := 931.
Definition SMALL_SIGMA : N := 963.
Definition SMALL_FINAL_SIGMA : N := 962.

(** The lower-case form of one character other than the capital sigma,
    and the title-case form of one character. *)
Definition to_lower_full (c : N) : list N :=
  match special_image LOWER_SPECIAL c with
  | Some image => image
  | None => [default c (run_image LOWER_RUNS c)]
  end.

Definition to_title_full (c : N) : list N :=
  match special_image TITLE_SPECIAL c with
  | Some image => image
  | None => [default c (run_image TITLE_RUNS c)]
  end.

(** The case mapping of the [re] module: one character to one
    character. *)
Definition sre_lower (c : N) : N :=
  if (c =? 304)%N then 105%N
  else if (c =? CAPITAL_SIGMA)%N then SMALL_SIGMA
  else default c (run_image LOWER_RUNS c).

Definition sre_is_cased (c : N) : bool := in_ranges SRE_CASED_RANGES c.

(** One pattern character [p] against one text character [c] under
    [re.IGNORECASE]: a pattern character without case matches itself;
    any other matches the characters whose lower-case form is its own or
    one of the extra cases of its own. *)
Definition eqb_ci (p c : N) : bool :=
  if sre_is_cased p then
    let lo := sre_lower p in
    let lc := sre_lower c in
    (lc =? lo)%N
    || existsb (N.eqb lc) (default [] (special_image SRE_EXTRA_CASES lo))
  else (c =? p)%N.

End PyChar.

(** ** The [str] methods used by [app.py] and [run.py] *)

Module PyStr.

Definition nl : pystr := [10%N].

(** Truth value of a [str]. *)
Definition truthy (s : pystr) : bool :=
  match s with [] => false | _ => true end.

(** [s == t] *)
Fixpoint eqb (s t : pystr) : bool :=
  match s, t with
  | [], [] => true
  | c :: s', d :: t' => (c =? d)%N && eqb s' t'
  | _, _ => false
  end.

(** [s <= t]: the order of [sorted], by code points. *)
Fixpoint leb (s t : pystr) : bool :=
  match s, t with
  | [], _ => true
  | _ :: _, [] => false
  | c :: s', d :: t' => (c <? d)%N || ((c =? d)%N && leb s' t')
  end.

(** The capital sigma at the end of a word becomes the final sigma:
    [follows_cased] says that the last character before it that is not
    case-ignorable is cased; [ends_word rest] that the first such
    character after it, if any, is not cased. *)
Fixpoint ends_word (rest : pystr) : bool :=
  match rest with
  | [] => true
  | c :: rest' =>
      if PyChar.is_case_ignorable c then ends_word rest'
      else negb (PyChar.is_cased c)
  end.

Definition lower_one (follows_cased : bool) (c : N) (rest : pystr) : pystr :=
  if (c =? PyChar.CAPITAL_SIGMA)%N then
    [if follows_cased && ends_word rest
     then PyChar.SMALL_FINAL_SIGMA else PyChar.SMALL_SIGMA]
  else PyChar.to_lower_full c.

Definition follows_cased_after (follows_cased : bool) (c : N) : bool :=
  if PyChar.is_case_ignorable c then follows_cased else PyChar.is_cased c.

Fixpoint lower_from (follows_cased : bool) (s : pystr) : pystr :=
  match s with
  | [] => []
  | c :: s' =>
      lower_one follows_cased c s'
        ++ lower_from (follows_cased_after follows_cased c) s'
  end.

(** [s.lower()] *)
Definition lower (s : pystr) : pystr := lower_from false s.

Fixpoint lstrip (s : pystr) : pystr :=
  match s with
  | [] => []
  | c :: s' => if PyChar.is_space c then lstrip s' else s
  end.

Fixpoint rstrip (s : pystr) : pystr :=
  match s with
  | [] => []
  | c :: s' =>
      match rstrip s' with
      | [] => if PyChar.is_space c then [] else [c]
      | r => c :: r
      end
  end.

(** [s.strip()] *)
Definition strip (s : pystr) : pystr := lstrip (rstrip s).

(** [s.title()]: a character that follows a cased character is
    lower-cased, any other character is title-cased. *)
Fixpoint title_from (previous_is_cased follows_cased : bool) (s : pystr)
  : pystr :=
  match s with
  | [] => []
  | c :: s' =>
      (if previous_is_cased then lower_one follows_cased c s'
       else PyChar.to_title_full c)
        ++ title_from (PyChar.is_cased c)
                      (follows_cased_after follows_cased c) s'
  end.

Definition title (s : pystr) : pystr := title_from false false s.

(** [s.startswith(p)], and the rest of [s] after [p]. *)
Fixpoint strip_prefix (p s : pystr) : option pystr :=
  match p, s with
  | [], _ => Some s
  | a :: p', b :: s' => if (a =? b)%N then strip_prefix p' s' else None
  | _ :: _, [] => None
  end.

(** [sub in s] *)
Fixpoint contains (sub s : pystr) : bool :=
  match strip_prefix sub s with
  | Some _ => true
  | None => match s with
            | [] => false
            | _ :: s' => contains sub s'
            end
  end.

(** [sep.join(l)] *)
Fixpoint join (sep : pystr) (l : list pystr) : pystr :=
  match l with
  | [] => []
  | [x] => x
  | x :: l' => x ++ sep ++ join sep l'
  end.

(** [s.split(sep)] for a non-empty [sep]: the text is cut at each
    occurrence of [sep], found from left to right without overlap.
    [skip] counts the characters of a separator still to be passed;
    [cur] is the chunk being read, reversed. *)
Fixpoint split_go (sep : pystr) (skip : nat) (cur : list N) (s : pystr)
  : list pystr :=
  match s with
  | [] => [rev cur]
  | c :: s' =>
      match skip with
      | S k => split_go sep k cur s'
      | O =>
          match strip_prefix sep s with
          | Some _ => rev cur :: split_go sep (length sep - 1) [] s'
          | None => split_go sep 0 (c :: cur) s'
          end
      end
  end.

Definition split (sep s : pystr) : list pystr := split_go sep 0 [] s.

(** [s.split(sep, 1)]: cut at the first occurrence only. *)
Fixpoint split_once_go (sep : pystr) (cur : list N) (s : pystr)
  : list pystr :=
  match strip_prefix sep s with
  | Some rest => [rev cur; rest]
  | None =>
      match s with
      | [] => [rev cur]
      | c :: s' => split_once_go sep (c :: cur) s'
      end
  end.

Definition split_once (sep s : pystr) : list pystr :=
  match sep with
  | [] => [s]
  | _ => split_once_go sep [] s
  end.

(** The slices [s[:n]] and [s[n:]]. *)
Fixpoint take (n : nat) (s : pystr) : pystr :=
  match n, s with
  | S n', c :: s' => c :: take n' s'
  | _, _ => []
  end.

Fixpoint drop (n : nat) (s : pystr) : pystr :=
  match n, s with
  | S n', _ :: s' => drop n' s'
  | _, _ => s
  end.

(** [sorted(l)] on strings: insertion into an ordered list. *)
Fixpoint insert_sorted (x : pystr) (l : list pystr) : list pystr :=
  match l with
  | [] => [x]
  | y :: l' => if leb x y then x :: l else y :: insert_sorted x l'
  end.

Definition sorted (l : list pystr) : list pystr :=
  fold_right insert_sorted [] l.

End PyStr.
(** ** The regular expressions of the report assembler

    Every pattern of [process_chat] is a header literal, then group 1,
    which is either a lazy dot-star closed by a non-capturing group of
    alternatives (later headers and the dollar anchor) or a greedy
    dot-star that ends the pattern; all are searched with
    [re.DOTALL | re.IGNORECASE].  The matcher below follows the
    backtracking search for that shape: try each start position from the
    left; at a start, match the header literally (ignoring case), then
    grow group 1 one character at a time until the rest of the pattern
    matches. *)

Module Re.

(** A literal under [re.IGNORECASE] at the start of [s]; the result is
    the text after it. *)
Fixpoint match_literal (lit s : pystr) : option pystr :=
  match lit, s with
  | "", _ => Some s
  | p :: lit', c :: s' =>
      if PyChar.eqb_ci p c then match_literal lit' s' else None
  | _ :: _, "" => None
  end.

(** One branch of the closing non-capturing group. *)
Inductive alternative : Type :=
| Literal (lit : pystr)
| EndOfText.

(** The dollar anchor without [re.MULTILINE]: at the end of the text,
    or just before a newline that ends the text. *)
Definition at_end (s : pystr) : bool :=
  match s with
  | "" => true
  | [c] => (c =? 10)%N
  | _ => false
  end.

Definition alternative_matches (s : pystr) (a : alternative) : bool :=
  match a with
  | Literal lit => bool_decide (is_Some (match_literal lit s))
  | EndOfText => at_end s
  end.

(** Lazy dot-star closed by [alts], under [re.DOTALL]: group 1 is the
    shortest prefix of [s] after which one of [alts] matches. *)
Fixpoint lazy_group (alts : list alternative) (s : pystr) : option pystr :=
  if existsb (alternative_matches s) alts then Some ""
  else match s with
       | "" => None
       | c :: s' => cons c <$> lazy_group alts s'
       end.

(** Greedy dot-star at the end of a pattern, under [re.DOTALL]:
    group 1 is all of [s]. *)
Definition greedy_group (s : pystr) : option pystr := Some s.

(** [re.search(header + tail, s)]: the leftmost start at which the
    header and then the tail match; the result is group 1. *)
Fixpoint search (header : pystr) (tail : pystr -> option pystr)
    (s : pystr) : option pystr :=
  let later :=
    match s with
    | "" => None
    | _ :: s' => search header tail s'
    end in
  match match_literal header s with
  | Some rest =>
      match tail rest with
      | Some group1 => Some group1
      | None => later
      end
  | None => later
  end.

End Re.

(** ** Report assembler: the four labelled fields

    Lines 433-445 of [process_chat] (the same code as lines 273-285). *)

Definition DIAGNOSIS_HEADER : pystr := "Diagnosis:".
Definition DRUG_HEADER : pystr := "Proposed New Drug:".
Definition DOSAGE_HEADER : pystr := "Hypothetical Dosage/Instructions:".
Definition SAFETY_HEADER : pystr := "Allergy/Safety Note:".

Record fields : Type := {
  diagnosis : pystr;
  drug_concept : pystr;
  dosage : pystr;
  safety : pystr
}.

Definition NOT_FOUND : pystr := "Not found".

(** [m.group(1).strip() if m else "Not found"] *)
Definition group1_or_not_found (m : option pystr) : pystr :=
  match m with
  | Some group1 => PyStr.strip group1
  | None => NOT_FOUND
  end.

Definition diagnosis_match (text : pystr) : option pystr :=
  Re.search DIAGNOSIS_HEADER
    (Re.lazy_group [Re.Literal DRUG_HEADER; Re.Literal DOSAGE_HEADER;
                    Re.Literal SAFETY_HEADER; Re.EndOfText]) text.

Definition drug_match (text : pystr) : option pystr :=
  Re.search DRUG_HEADER
    (Re.lazy_group [Re.Literal DOSAGE_HEADER; Re.Literal SAFETY_HEADER;
                    Re.EndOfText]) text.

Definition dosage_match (text : pystr) : option pystr :=
  Re.search DOSAGE_HEADER
    (Re.lazy_group [Re.Literal SAFETY_HEADER; Re.EndOfText]) text.

Definition safety_match (text : pystr) : option pystr :=
  Re.search SAFETY_HEADER Re.greedy_group text.

Definition extract_fields (text : pystr) : fields :=
  {| diagnosis := group1_or_not_found (diagnosis_match text);
     drug_concept := group1_or_not_found (drug_match text);
     dosage := group1_or_not_found (dosage_match text);
     safety := group1_or_not_found (safety_match text) |}.

(** ** Configuration *)

(** [LANG_CODES], in the order of the dict literal. *)
Definition LANG_CODES : list (pystr * pystr) :=
  [("English", "en"); ("Arabic", "ar"); ("German", "de"); ("Spanish", "es");
   ("French", "fr"); ("Hindi", "hi"); ("Italian", "it"); ("Japanese", "ja");
   ("Korean", "ko"); ("Portuguese", "pt"); ("Russian", "ru");
   ("Chinese", "zh"); ("Bengali", "bn"); ("Tamil", "ta"); ("Telugu", "te");
   ("Thai", "th"); ("Ukrainian", "uk"); ("Turkish", "tr");
   ("Vietnamese", "vi"); ("Kannada", "kn")].

(** [LANG_CODES[name]] when [name in LANG_CODES]. *)
Fixpoint assoc (k : pystr) (l : list (pystr * pystr)) : option pystr :=
  match l with
  | [] => None
  | (k', v) :: l' => if PyStr.eqb k k' then Some v else assoc k l'
  end.

(** [code in LANG_CODES.values()] *)
Definition is_lang_code (code : pystr) : bool :=
  existsb (fun kv => PyStr.eqb (snd kv) code) LANG_CODES.

(** [next((name for name, code in LANG_CODES.items() if code == c), c)] *)
Definition language_name (c : pystr) : pystr :=
  match find (fun kv => PyStr.eqb (snd kv) c) LANG_CODES with
  | Some (name, _) => name
  | None => c
  end.

(** ** Values held by the session dict *)

(** One entry of [gemini_chat_history_manual]:
    [{"role": r, "parts": [{"text": t}]}]. *)
Record turn : Type := { role : pystr; parts_text : pystr }.

Inductive value : Type :=
| VNone
| VStr (s : pystr)
| VList (l : list turn).

#[global] Instance turn_eq_dec : EqDecision turn.
Proof. solve_decision. Defined.

#[global] Instance value_eq_dec : EqDecision value.
Proof. solve_decision. Defined.

(** Truth value of a Python object. *)
Definition truthy (v : value) : bool :=
  match v with
  | VNone => false
  | VStr s => PyStr.truthy s
  | VList l => match l with [] => false | _ => true end
  end.

(** The class name shown in an [AttributeError]. *)
Definition type_name (v : value) : pystr :=
  match v with
  | VNone => "NoneType"
  | VStr _ => "str"
  | VList _ => "list"
  end.

(** ** The completion service *)

(** What a request to the service produces: the text of the response,
    or an exception, kept as its [str(e)]. *)
Inductive reply : Type :=
| Text (t : pystr)
| Raised (e : pystr).

(** The client object.  The first argument of each method is the number
    of requests made before this one.  Temperatures are in tenths. *)
Record client : Type := {
  generate_content : nat -> pystr -> N -> reply;
  send_message : nat -> list turn -> pystr -> reply
}.

Definition TRANSLATE_TEMP : N := 1.
Definition RESPONSE_TEMP : N := 7.

(** [code if code in LANG_CODES.values() else default] *)
Definition effective_code (code : value) (default : pystr) : pystr :=
  match code with
  | VStr c => if is_lang_code c then c else default
  | _ => default
  end.

Definition translation_prompt (effective_src effective_tgt text : pystr)
  : pystr :=
  let tgt_lang_name := language_name effective_tgt in
  if negb (PyStr.eqb effective_src "auto") then
    let src_lang_name := language_name effective_src in
    "Translate the following text from " ++ src_lang_name ++ " to "
      ++ tgt_lang_name ++ ":" ++ PyStr.nl ++ PyStr.nl ++ text
  else
    "Translate the following text to " ++ tgt_lang_name ++ ":"
      ++ PyStr.nl ++ PyStr.nl ++ text.

Definition UNAVAILABLE : pystr :=
  "Error: Gemini API not available. Cannot provide medical information.".

(** The message built in the [except] branch of [get_gemini_response]. *)
Definition error_reply (e : pystr) : pystr :=
  let error_detail := PyStr.lower e in
  if PyStr.contains "401" error_detail
     || PyStr.contains "unauthorized" error_detail
  then "Error: Unauthorized. Check your API key. " ++ e
  else if PyStr.contains "429" error_detail
          || PyStr.contains "quota" error_detail
  then "Error: Rate limit exceeded. Try again later. " ++ e
  else "Error communicating with Gemini API: " ++ e.

Section Service.

(** [gemini_client], [None] when the client could not be created. *)
Variable gemini_client : option client.

(** [gemini_translate(text, src_lang_code, tgt_lang_code, temp)], run
    when [n] requests have been made; the result comes with the new
    number of requests. *)
Definition gemini_translate (text : pystr) (src_lang_code tgt_lang_code : value)
    (temp : N) (n : nat) : pystr * nat :=
  match gemini_client with
  | None => (text, n)
  | Some cl =>
      if negb (PyStr.truthy text) || PyStr.eqb (PyStr.strip text) ""
      then ("", n)
      else
        let effective_src_lang_code := effective_code src_lang_code "auto" in
        let effective_tgt_lang_code := effective_code tgt_lang_code "en" in
        if negb (PyStr.eqb effective_src_lang_code "auto")
           && PyStr.eqb effective_src_lang_code effective_tgt_lang_code
        then (text, n)
        else
          let prompt :=
            translation_prompt effective_src_lang_code
                               effective_tgt_lang_code text in
          match generate_content cl n prompt temp with
          | Text t => (PyStr.strip t, S n)
          | Raised _ => (text, S n)
          end
  end.

(** [get_gemini_response(prompt_text, chat_history, temp)]. *)
Definition get_gemini_response (prompt_text : pystr)
    (chat_history : option (list turn)) (temp : N) (n : nat)
  : pystr * nat :=
  match gemini_client with
  | None => (UNAVAILABLE, n)
  | Some cl =>
      let formatted_history :=
        match chat_history with
        | Some h =>
            map (fun t => {| role := role t; parts_text := parts_text t |}) h
        | None => []
        end in
      let response :=
        match formatted_history with
        | _ :: _ => send_message cl n formatted_history prompt_text
        | [] => generate_content cl n prompt_text temp
        end in
      match response with
      | Text t => (t, S n)
      | Raised e => (error_reply e, S n)
      end
  end.

End Service.

(** ** Chat stages and the session dict *)

Definition CHAT_STAGE_ASK_LANGUAGE : pystr := "ask_language".
Definition CHAT_STAGE_ASK_SYMPTOMS : pystr := "ask_symptoms".
Definition CHAT_STAGE_ASK_ALLERGIES : pystr := "ask_allergies".
Definition CHAT_STAGE_GENERATE_RESPONSE : pystr := "generate_response".
Definition CHAT_STAGE_GENERAL_QNA : pystr := "general_qna".

Definition HISTORY_KEY : pystr := "gemini_chat_history_manual".

Definition initialize_chat_state : gmap pystr value :=
  <["stage" := VStr CHAT_STAGE_ASK_LANGUAGE]>
  (<["language" := VNone]>
  (<["lang_code" := VNone]>
  (<["symptoms_user_lang" := VNone]>
  (<["symptoms_en" := VNone]>
  (<["allergies_user_lang" := VNone]>
  (<["allergies_en" := VNone]>
  (<["diagnosis_en" := VNone]>
  (<["drug_concept_full_en" := VNone]>
  (<[HISTORY_KEY := VList []]> ∅))))))))).

(** ** Exceptions and the store of one turn *)

Inductive exn : Type :=
| KeyError (key : pystr)
| TypeError (msg : pystr)
| AttributeError (msg : pystr).

(** [str(e)] *)
Definition exn_str (e : exn) : pystr :=
  match e with
  | KeyError key => "'" ++ key ++ "'"
  | TypeError msg => msg
  | AttributeError msg => msg
  end.

(** The objects a turn mutates: the chat window ([history], a list of
    [[user, bot]] pairs), the session dict, and the number of requests
    made to the service. *)
Record store : Type := {
  s_history : list (pystr * pystr);
  s_state : gmap pystr value;
  s_requests : nat
}.

Inductive outcome (A : Type) : Type :=
| Return (a : A)
| Raise (e : exn).
Arguments Return {A} a.
Arguments Raise {A} e.

Definition M (A : Type) : Type := store -> outcome A * store.

Definition ret {A} (a : A) : M A := fun s => (Return a, s).

Definition bind {A B} (c : M A) (k : A -> M B) : M B :=
  fun s =>
    match c s with
    | (Return a, s') => k a s'
    | (Raise e, s') => (Raise e, s')
    end.

Definition raise {A} (e : exn) : M A := fun s => (Raise e, s).

Declare Scope py_scope.
Delimit Scope py_scope with py.
Notation "x <- c ;; k" := (bind c (fun x => k))
  (at level 100, c at next level, right associativity) : py_scope.
Notation "c ;; k" := (bind c (fun _ => k))
  (at level 100, right associativity) : py_scope.
Local Open Scope py_scope.

(** [state[key]] *)
Definition state_item (key : pystr) : M value :=
  fun s =>
    match s_state s !! key with
    | Some v => (Return v, s)
    | None => (Raise (KeyError key), s)
    end.

(** [state.get(key, dflt)] *)
Definition state_get (key : pystr) (dflt : value) : M value :=
  fun s => (Return (default dflt (s_state s !! key)), s).

(** [state[key] = v] *)
Definition state_set (key : pystr) (v : value) : M unit :=
  fun s =>
    (Return tt,
     {| s_history := s_history s;
        s_state := <[key := v]> (s_state s);
        s_requests := s_requests s |}).

(** [state = initialize_chat_state()] *)
Definition state_reset : M unit :=
  fun s =>
    (Return tt,
     {| s_history := s_history s;
        s_state := initialize_chat_state;
        s_requests := s_requests s |}).

(** [state["gemini_chat_history_manual"].append(t)]: the list held by
    the dict grows in place. *)
Definition history_append (t : turn) : M unit :=
  h <- state_item HISTORY_KEY ;;
  match h with
  | VList l => state_set HISTORY_KEY (VList (l ++ [t])%list)
  | v => raise (AttributeError
                  ("'" ++ type_name v ++ "' object has no attribute 'append'"))
  end.

(** The update of the chat window made three times in [process_chat]:
    [history[-1][1] = reply] when [history] is not empty, else
    [history = [[message, reply]]].  Every entry is a two-element list,
    so the branch for a malformed last entry is never taken. *)
Definition with_last_reply (history : list (pystr * pystr))
    (message reply : pystr) : list (pystr * pystr) :=
  match history with
  | [] => [(message, reply)]
  | _ :: _ =>
      match last history with
      | Some (user, _) => removelast history ++ [(user, reply)]
      | None => history ++ [(message, reply)]
      end%list
  end.

Definition show_reply (message reply : pystr) : M unit :=
  fun s =>
    (Return tt,
     {| s_history := with_last_reply (s_history s) message reply;
        s_state := s_state s;
        s_requests := s_requests s |}).

(** A call of the service wrappers, which never raise. *)
Definition request {A} (call : nat -> A * nat) : M A :=
  fun s =>
    let (a, n) := call (s_requests s) in
    (Return a,
     {| s_history := s_history s;
        s_state := s_state s;
        s_requests := n |}).

(** [str(v)], as an f-string formats a value.  The [repr] of a list is
    left to [repr_list]. *)
Definition py_str (repr_list : list turn -> pystr) (v : value) : pystr :=
  match v with
  | VNone => "None"
  | VStr s => s
  | VList l => repr_list l
  end.

(** The argument check of [re.search]. *)
Definition expect_str (v : value) : M pystr :=
  match v with
  | VStr s => ret s
  | VNone => raise (TypeError "expected string or bytes-like object, got 'NoneType'")
  | VList _ => raise (TypeError "expected string or bytes-like object, got 'list'")
  end.

(** ** The dialogue sequencer *)

Definition DEFAULT_ENGLISH_SUMMARY : pystr :=
  "Report summary will appear here after diagnosis.".
Definition DEFAULT_TRANSLATED_SUMMARY : pystr :=
  "Translated report summary will appear here.".
Definition LANGUAGE_NOT_SET : pystr :=
  "Error: Language not set. Please start over.".

(** What the branches of [process_chat] leave in the local variables
    read after them. *)
Record locals : Type := {
  bot_response_user_lang : pystr;
  english_summary : pystr;
  translated_summary : pystr
}.

Section Sequencer.

Variable gemini_client : option client.
Variable repr_list : list turn -> pystr.

Let str (v : value) : pystr := py_str repr_list v.

Definition translate (text : pystr) (src tgt : value) : M pystr :=
  request (gemini_translate gemini_client text src tgt TRANSLATE_TEMP).

Definition respond (prompt : pystr) : M pystr :=
  request (get_gemini_response gemini_client prompt None RESPONSE_TEMP).

Definition EN : value := VStr "en".

(** Lines 268-306: the summaries rebuilt from the stored response. *)
Definition previous_summary (user_lang_code : value) : M (pystr * pystr) :=
  stored <- state_get "drug_concept_full_en" VNone ;;
  if truthy stored then
    full_response <- expect_str stored ;;
    let f := extract_fields full_response in
    symptoms_en <- state_get "symptoms_en" (VStr "N/A") ;;
    allergies_en <- state_get "allergies_en" (VStr "N/A") ;;
    let english_summary :=
      "**Symptoms:** " ++ str symptoms_en ++ PyStr.nl ++ PyStr.nl
      ++ "**Allergies:** " ++ str allergies_en ++ PyStr.nl ++ PyStr.nl
      ++ "**Diagnosis:** " ++ diagnosis f ++ PyStr.nl ++ PyStr.nl
      ++ "**Drug Concept:** " ++ drug_concept f ++ PyStr.nl ++ PyStr.nl
      ++ "**Dosage:** " ++ dosage f ++ PyStr.nl ++ PyStr.nl
      ++ "**Safety:** " ++ safety f ++ PyStr.nl ++ PyStr.nl in
    translated_diagnosis <- translate (diagnosis f) EN user_lang_code ;;
    translated_drug <- translate (drug_concept f) EN user_lang_code ;;
    translated_dosage <- translate (dosage f) EN user_lang_code ;;
    translated_safety <- translate (safety f) EN user_lang_code ;;
    symptoms_title <- translate "Symptoms" EN user_lang_code ;;
    symptoms_user_lang <- state_get "symptoms_user_lang" (VStr "N/A") ;;
    allergies_title <- translate "Allergies" EN user_lang_code ;;
    allergies_user_lang <- state_get "allergies_user_lang" (VStr "N/A") ;;
    diagnosis_title <- translate "Diagnosis" EN user_lang_code ;;
    drug_title <- translate "Drug Concept" EN user_lang_code ;;
    dosage_title <- translate "Dosage" EN user_lang_code ;;
    safety_title <- translate "Safety" EN user_lang_code ;;
    ret (english_summary,
         "**" ++ symptoms_title ++ ":** " ++ str symptoms_user_lang
           ++ PyStr.nl ++ PyStr.nl
         ++ "**" ++ allergies_title ++ ":** " ++ str allergies_user_lang
           ++ PyStr.nl ++ PyStr.nl
         ++ "**" ++ diagnosis_title ++ ":** " ++ translated_diagnosis
           ++ PyStr.nl ++ PyStr.nl
         ++ "**" ++ drug_title ++ ":** " ++ translated_drug
           ++ PyStr.nl ++ PyStr.nl
         ++ "**" ++ dosage_title ++ ":** " ++ translated_dosage
           ++ PyStr.nl ++ PyStr.nl
         ++ "**" ++ safety_title ++ ":** " ++ translated_safety
           ++ PyStr.nl ++ PyStr.nl)
  else ret (DEFAULT_ENGLISH_SUMMARY, DEFAULT_TRANSLATED_SUMMARY).

(** The reply to an unsupported language (lines 338-342). *)
Definition unsupported_language (message : pystr) : pystr :=
  let available_languages :=
    PyStr.join ", " (PyStr.sorted (map fst LANG_CODES)) in
  "Sorry, '" ++ message
    ++ "' is not a supported language. Please select from: "
    ++ available_languages.

(** Lines 309-342: [current_stage == CHAT_STAGE_ASK_LANGUAGE]. *)
Definition ask_language (message : pystr) : M pystr :=
  let selected_language := PyStr.title (PyStr.strip message) in
  match assoc selected_language LANG_CODES with
  | Some code =>
      state_set "language" (VStr selected_language) ;;
      state_set "lang_code" (VStr code) ;;
      state_set "stage" (VStr CHAT_STAGE_ASK_SYMPTOMS) ;;
      user_lang_code <- state_item "lang_code" ;;
      let welcome_message_en :=
        "Thank you. Your selected language is " ++ selected_language ++ "." in
      let next_prompt_en := "Please describe your symptoms." in
      let bot_response_en :=
        welcome_message_en ++ PyStr.nl ++ PyStr.nl ++ next_prompt_en in
      welcome_message <- translate welcome_message_en EN user_lang_code ;;
      next_prompt <- translate next_prompt_en EN user_lang_code ;;
      history_append
        {| role := "user";
           parts_text := "User selected language: " ++ selected_language |} ;;
      history_append {| role := "model"; parts_text := bot_response_en |} ;;
      ret (welcome_message ++ PyStr.nl ++ PyStr.nl ++ next_prompt)
  | None => ret (unsupported_language message)
  end.

(** Lines 344-368: [current_stage == CHAT_STAGE_ASK_SYMPTOMS]. *)
Definition ask_symptoms (message : pystr) (user_lang_code : value)
    (user_message_en : pystr) : M pystr :=
  if negb (truthy user_lang_code) then
    state_reset ;;
    ret LANGUAGE_NOT_SET
  else if negb (PyStr.truthy (PyStr.strip message)) then
    translate "Please describe your symptoms so I can assist you."
              EN user_lang_code
  else
    state_set "symptoms_user_lang" (VStr (PyStr.strip message)) ;;
    state_set "symptoms_en" (VStr user_message_en) ;;
    state_set "stage" (VStr CHAT_STAGE_ASK_ALLERGIES) ;;
    let bot_response_en :=
      "Thank you for sharing your symptoms. Do you have any known allergies? If none, please say 'None'." in
    bot_response_user_lang <- translate bot_response_en EN user_lang_code ;;
    history_append
      {| role := "user"; parts_text := "Symptoms: " ++ user_message_en |} ;;
    history_append {| role := "model"; parts_text := bot_response_en |} ;;
    ret bot_response_user_lang.

(** The prompt of the diagnosis-generation call (lines 403-417). *)
Definition diagnosis_prompt (symptoms allergies : value) : pystr :=
  let indent := "                " in
  "Based on the following symptoms and allergies, provide:" ++ PyStr.nl
  ++ indent ++ "1. A potential diagnosis" ++ PyStr.nl
  ++ indent ++ "2. A hypothetical new drug concept that could treat this condition" ++ PyStr.nl
  ++ indent ++ "3. Hypothetical dosage instructions" ++ PyStr.nl
  ++ indent ++ "4. Safety considerations related to the patient's allergies" ++ PyStr.nl
  ++ PyStr.nl
  ++ indent ++ "Symptoms: " ++ str symptoms ++ PyStr.nl
  ++ indent ++ "Allergies: " ++ str allergies ++ PyStr.nl
  ++ PyStr.nl
  ++ indent ++ "Format your response with these exact headings:" ++ PyStr.nl
  ++ indent ++ "Diagnosis:" ++ PyStr.nl
  ++ indent ++ "Proposed New Drug:" ++ PyStr.nl
  ++ indent ++ "Hypothetical Dosage/Instructions:" ++ PyStr.nl
  ++ indent ++ "Allergy/Safety Note:" ++ PyStr.nl
  ++ indent.

Definition PROCESSING_ALLERGIES : pystr :=
  "Thank you. I'm analyzing your symptoms and allergies to generate a diagnosis and drug concept. This may take a moment...".

(** Lines 370-488: [current_stage == CHAT_STAGE_ASK_ALLERGIES].  The
    result is the bot reply with the two summaries. *)
Definition ask_allergies (message : pystr) (user_lang_code : value)
    (user_message_en : pystr) (summaries : pystr * pystr) : M locals :=
  if negb (truthy user_lang_code) then
    state_reset ;;
    ret {| bot_response_user_lang := LANGUAGE_NOT_SET;
           english_summary := fst summaries;
           translated_summary := snd summaries |}
  else
    state_set "allergies_user_lang" (VStr (PyStr.strip message)) ;;
    state_set "allergies_en" (VStr user_message_en) ;;
    state_set "stage" (VStr CHAT_STAGE_GENERATE_RESPONSE) ;;
    history_append
      {| role := "user"; parts_text := "Allergies: " ++ user_message_en |} ;;
    processing_message <- translate PROCESSING_ALLERGIES EN user_lang_code ;;
    show_reply message processing_message ;;
    symptoms <- state_item "symptoms_en" ;;
    allergies <- state_item "allergies_en" ;;
    diagnosis_response <- respond (diagnosis_prompt symptoms allergies) ;;
    state_set "drug_concept_full_en" (VStr diagnosis_response) ;;
    state_set "stage" (VStr CHAT_STAGE_GENERAL_QNA) ;;
    let bot_response_en := diagnosis_response in
    bot_response_user_lang <- translate diagnosis_response EN user_lang_code ;;
    history_append {| role := "model"; parts_text := bot_response_en |} ;;
    let f := extract_fields diagnosis_response in
    diagnosis_simplified <-
      respond ("Simplify this medical diagnosis into 2-3 short bullet points: "
               ++ diagnosis f) ;;
    drug_concept_simplified <-
      respond ("Simplify this drug concept into 2-3 short bullet points about what it is and how it works: "
               ++ drug_concept f) ;;
    dosage_simplified <-
      respond ("Simplify this dosage information into 2-3 short bullet points about dosage amount, frequency, and how to take it: "
               ++ dosage f) ;;
    safety_simplified <-
      respond ("Simplify this safety information into 2-3 short bullet points about allergies and side effects: "
               ++ safety f) ;;
    let english_summary :=
      "**Symptoms:** " ++ str symptoms ++ PyStr.nl ++ PyStr.nl
      ++ "**Allergies:** " ++ str allergies ++ PyStr.nl ++ PyStr.nl
      ++ "**Diagnosis:** " ++ diagnosis_simplified ++ PyStr.nl ++ PyStr.nl
      ++ "**Medicine:** " ++ drug_concept_simplified ++ PyStr.nl ++ PyStr.nl
      ++ "**Dosage:** " ++ dosage_simplified ++ PyStr.nl ++ PyStr.nl
      ++ "**Safety Notes:** " ++ safety_simplified ++ PyStr.nl ++ PyStr.nl in
    symptoms_title <- translate "Symptoms" EN user_lang_code ;;
    allergies_title <- translate "Allergies" EN user_lang_code ;;
    diagnosis_title <- translate "Diagnosis" EN user_lang_code ;;
    drug_title <- translate "Medicine" EN user_lang_code ;;
    dosage_title <- translate "Dosage" EN user_lang_code ;;
    safety_title <- translate "Safety Notes" EN user_lang_code ;;
    translated_diagnosis <- translate diagnosis_simplified EN user_lang_code ;;
    translated_drug <- translate drug_concept_simplified EN user_lang_code ;;
    translated_dosage <- translate dosage_simplified EN user_lang_code ;;
    translated_safety <- translate safety_simplified EN user_lang_code ;;
    symptoms_user_lang <- state_item "symptoms_user_lang" ;;
    allergies_user_lang <- state_item "allergies_user_lang" ;;
    let translated_summary :=
      "### " ++ symptoms_title ++ ":" ++ PyStr.nl
        ++ str symptoms_user_lang ++ PyStr.nl ++ PyStr.nl
      ++ "### " ++ allergies_title ++ ":" ++ PyStr.nl
        ++ str allergies_user_lang ++ PyStr.nl ++ PyStr.nl
      ++ "### " ++ diagnosis_title ++ ":" ++ PyStr.nl
        ++ translated_diagnosis ++ PyStr.nl ++ PyStr.nl
      ++ "### " ++ drug_title ++ ":" ++ PyStr.nl
        ++ translated_drug ++ PyStr.nl ++ PyStr.nl
      ++ "### " ++ dosage_title ++ ":" ++ PyStr.nl
        ++ translated_dosage ++ PyStr.nl ++ PyStr.nl
      ++ "### " ++ safety_title ++ ":" ++ PyStr.nl
        ++ translated_safety ++ PyStr.nl ++ PyStr.nl in
    state_set "translated_summary" (VStr translated_summary) ;;
    ret {| bot_response_user_lang := bot_response_user_lang;
           english_summary := english_summary;
           translated_summary := translated_summary |}.

(** The context block of a follow-up question (lines 511-519). *)
Definition qna_context (symptoms_en allergies_en stored : value)
    (user_message_en : pystr) : pystr :=
  let indent := "            " in
  PyStr.nl
  ++ indent ++ "Previous symptoms: " ++ str symptoms_en ++ PyStr.nl
  ++ indent ++ "Previous allergies: " ++ str allergies_en ++ PyStr.nl
  ++ indent ++ "Previous diagnosis and drug concept: " ++ str stored ++ PyStr.nl
  ++ indent ++ PyStr.nl
  ++ indent ++ "User question: " ++ user_message_en ++ PyStr.nl
  ++ indent ++ PyStr.nl
  ++ indent ++ "Respond in a clear, concise way that would be easy to translate to another language." ++ PyStr.nl
  ++ indent.

(** Lines 490-530: [current_stage == CHAT_STAGE_GENERAL_QNA]. *)
Definition general_qna (message : pystr) (user_lang_code : value)
    (user_message_en : pystr) : M pystr :=
  history_append {| role := "user"; parts_text := user_message_en |} ;;
  processing_message <-
    translate "I'm thinking about your question..." EN user_lang_code ;;
  show_reply message processing_message ;;
  symptoms_en <- state_get "symptoms_en" (VStr "None") ;;
  allergies_en <- state_get "allergies_en" (VStr "None") ;;
  stored <- state_get "drug_concept_full_en" (VStr "None") ;;
  qna_response <-
    respond (qna_context symptoms_en allergies_en stored user_message_en) ;;
  let bot_response_en := qna_response in
  bot_response_user_lang <- translate qna_response EN user_lang_code ;;
  history_append {| role := "model"; parts_text := bot_response_en |} ;;
  ret bot_response_user_lang.

(** The branch on [current_stage] (lines 309-530). *)
Definition stage_branch (current_stage : value) (message : pystr)
    (user_lang_code : value) (user_message_en : pystr)
    (summaries : pystr * pystr) : M locals :=
  if bool_decide (current_stage = VStr CHAT_STAGE_ASK_LANGUAGE) then
    reply <- ask_language message ;;
    ret {| bot_response_user_lang := reply;
           english_summary := fst summaries;
           translated_summary := snd summaries |}
  else if bool_decide (current_stage = VStr CHAT_STAGE_ASK_SYMPTOMS) then
    reply <- ask_symptoms message user_lang_code user_message_en ;;
    ret {| bot_response_user_lang := reply;
           english_summary := fst summaries;
           translated_summary := snd summaries |}
  else if bool_decide (current_stage = VStr CHAT_STAGE_ASK_ALLERGIES) then
    ask_allergies message user_lang_code user_message_en summaries
  else if bool_decide (current_stage = VStr CHAT_STAGE_GENERAL_QNA) then
    reply <- general_qna message user_lang_code user_message_en ;;
    ret {| bot_response_user_lang := reply;
           english_summary := fst summaries;
           translated_summary := snd summaries |}
  else
    ret {| bot_response_user_lang := "";
           english_summary := fst summaries;
           translated_summary := snd summaries |}.

(** Lines 256-259: the message in English. *)
Definition message_in_english (message : pystr) (user_lang_code : value)
  : M pystr :=
  if negb (bool_decide (user_lang_code = EN))
     && negb (bool_decide (user_lang_code = VNone))
     && PyStr.truthy (PyStr.strip message)
  then translate message user_lang_code EN
  else ret message.

(** The body of the [try] block of [process_chat] (lines 253-542). *)
Definition process_chat_body (message : pystr) : M (pystr * pystr) :=
  current_stage <- state_item "stage" ;;
  user_lang_code <- state_get "lang_code" EN ;;
  user_message_en <- message_in_english message user_lang_code ;;
  summaries <- previous_summary user_lang_code ;;
  after <- stage_branch current_stage message user_lang_code
                        user_message_en summaries ;;
  show_reply message (bot_response_user_lang after) ;;
  ret (english_summary after, translated_summary after).

(** The message shown when a turn raises (line 546). *)
Definition error_message (e : exn) : pystr :=
  "An error occurred: " ++ exn_str e
    ++ ". Please try again or restart the conversation.".

(** What [process_chat] returns: the chat window, the two summary
    panels and the session dict. *)
Record chat_result : Type := {
  r_history : list (pystr * pystr);
  r_english_summary : pystr;
  r_translated_summary : pystr;
  r_state : gmap pystr value
}.

(** [process_chat(message, history, state)], run when [n] requests have
    been made. *)
Definition process_chat (message : pystr)
    (history : option (list (pystr * pystr)))
    (state : gmap pystr value) (n : nat) : chat_result * nat :=
  let history := default [] history in
  let history := (history ++ [(message, "")])%list in
  match process_chat_body message
          {| s_history := history; s_state := state; s_requests := n |} with
  | (Return (english_summary, translated_summary), s) =>
      ({| r_history := s_history s;
          r_english_summary := english_summary;
          r_translated_summary := translated_summary;
          r_state := s_state s |}, s_requests s)
  | (Raise e, s) =>
      ({| r_history := with_last_reply (s_history s) message (error_message e);
          r_english_summary := "Error: " ++ error_message e;
          r_translated_summary := "Error: " ++ error_message e;
          r_state := initialize_chat_state |}, s_requests s)
  end.

End Sequencer.

(** ** The export renderer *)

(** The calls [generate_pdf_report] makes on the FPDF document, in
    order, with their arguments. *)
Inductive pdf_call : Type :=
| alias_nb_pages
| add_page
| set_font (family style : pystr) (size : N)
| cell (w h : N) (txt : pystr) (border ln : N) (align : pystr)
| multi_cell (w h : N) (txt : pystr)
| ln (h : N)
| output (name : pystr).

(** [PDFReport._sanitize_text]: [encode('latin-1', 'replace')] writes one
    byte for each character, a question mark for a character above
    U+00FF; [decode('latin-1')] reads each byte as the character of that
    code point. *)
Definition QUESTION_MARK : N := 63.

Definition encode_latin1_replace (text : pystr) : list N :=
  map (fun c => if (c <=? 255)%N then c else QUESTION_MARK) text.

Definition decode_latin1 (bytes : list N) : pystr := bytes.

Definition _sanitize_text (text : pystr) : pystr :=
  decode_latin1 (encode_latin1_replace text).

(** The body of the loop over the chunks (lines 182-204). *)
Definition section_calls (section : pystr) : list pdf_call :=
  if negb (PyStr.truthy (PyStr.strip section)) then []
  else
    match PyStr.split_once ":" section with
    | [part0; part1] =>
        let title := PyStr.strip part0 in
        let content := PyStr.strip part1 in
        [set_font "Arial" "B" 12;
         cell 0 10 (_sanitize_text (title ++ ":")) 0 1 "L";
         set_font "Arial" "" 10;
         multi_cell 0 5 (_sanitize_text content);
         ln 5]
    | _ =>
        [set_font "Arial" "" 10;
         multi_cell 0 5 (_sanitize_text section);
         ln 5]
    end.

Definition PDF_OUTPUT_PATH : pystr := "./pharma_gpt_report.pdf".

Definition report_prologue (user_language : pystr) : list pdf_call :=
  [alias_nb_pages; add_page;
   set_font "Arial" "B" 16;
   cell 0 10 "PharmaGPT Medical Report" 0 1 "C";
   ln 5;
   set_font "Arial" "I" 10;
   cell 0 10 ("Report in " ++ user_language) 0 1 "C";
   ln 10].

Definition report_epilogue : list pdf_call :=
  [set_font "Arial" "B" 12;
   cell 0 10 "Disclaimer:" 0 1 "L";
   set_font "Arial" "I" 10;
   multi_cell 0 5 "This is an AI-generated report for conceptual purposes only. Consult a medical professional.";
   output PDF_OUTPUT_PATH].

(** The calls of the [try] block for a [str] summary. *)
Definition report_calls (user_language translated_summary : pystr)
  : list pdf_call :=
  let sections := PyStr.split "###" translated_summary in
  (report_prologue user_language
   ++ flat_map section_calls sections
   ++ report_epilogue)%list.

Section Renderer.

Variable repr_list : list turn -> pystr.

(** The FPDF library: whether it carries out a sequence of calls and
    writes the file without raising. *)
Variable fpdf : list pdf_call -> bool.

(** [generate_pdf_report(chat_state)]: the path of the file, or
    [None]. *)
Definition generate_pdf_report (chat_state : gmap pystr value)
  : option pystr :=
  let state_data := chat_state in
  let user_language := default (VStr "English") (state_data !! "language") in
  let translated_summary :=
    default (VStr "") (state_data !! "translated_summary") in
  if negb (truthy translated_summary) then None
  else
    match translated_summary with
    | VStr summary =>
        if fpdf (report_calls (py_str repr_list user_language) summary)
        then Some PDF_OUTPUT_PATH
        else None
    | _ => None
    end.

End Renderer.

(** ** The user interface events *)

(** What the UI keeps between events: the chat window, the session dict
    ([gr.State]) and, for the oracle, the number of requests made. *)
Record session : Type := {
  ui_history : list (pystr * pystr);
  ui_state : gmap pystr value;
  ui_requests : nat
}.

Inductive event : Type :=
| Send (message : pystr)
| NewConsultation.

Section Interface.

Variable gemini_client : option client.
Variable repr_list : list turn -> pystr.

(** [send_btn.click] and [txt.submit] call [process_chat]; [clear_btn]
    installs an empty window and [initialize_chat_state()]. *)
Definition handle (ev : event) (s : session) : session :=
  match ev with
  | Send message =>
      let (r, n) :=
        process_chat gemini_client repr_list message
                     (Some (ui_history s)) (ui_state s) (ui_requests s) in
      {| ui_history := r_history r; ui_state := r_state r; ui_requests := n |}
  | NewConsultation =>
      {| ui_history := [];
         ui_state := initialize_chat_state;
         ui_requests := ui_requests s |}
  end.

(** The sessions a sequence of events goes through, the first one
    included. *)
Fixpoint trace (evs : list event) (s : session) : list session :=
  match evs with
  | [] => [s]
  | ev :: evs' => s :: trace evs' (handle ev s)
  end.

(** The exception, if any, that the body of a turn raises. *)
Definition turn_exception (message : pystr)
    (history : option (list (pystr * pystr)))
    (state : gmap pystr value) (n : nat) : option exn :=
  match process_chat_body gemini_client repr_list message
          {| s_history := (default [] history ++ [(message, "")])%list;
             s_state := state; s_requests := n |} with
  | (Raise e, _) => Some e
  | (Return _, _) => None
  end.

End Interface.

(** The session at start-up. *)
Definition initial_session (n : nat) : session :=
  {| ui_history := []; ui_state := initialize_chat_state; ui_requests := n |}.

(** ** Stage order and the shape of the session dict *)

(** AskLanguage, AskSymptoms, AskAllergies, GenerateResponse,
    GeneralQnA, in this order. *)
Definition stage_index (stage : option value) : option nat :=
  match stage with
  | Some (VStr s) =>
      if PyStr.eqb s CHAT_STAGE_ASK_LANGUAGE then Some 0
      else if PyStr.eqb s CHAT_STAGE_ASK_SYMPTOMS then Some 1
      else if PyStr.eqb s CHAT_STAGE_ASK_ALLERGIES then Some 2
      else if PyStr.eqb s CHAT_STAGE_GENERATE_RESPONSE then Some 3
      else if PyStr.eqb s CHAT_STAGE_GENERAL_QNA then Some 4
      else None
  | _ => None
  end.

(** Over one turn the stage stays, or moves to the next stage, or moves
    from AskAllergies through GenerateResponse to GeneralQnA. *)
Definition stage_forward (st st' : gmap pystr value) : Prop :=
  st' !! "stage" = st !! "stage"
  \/ exists i j, stage_index (st !! "stage") = Some i
                 /\ stage_index (st' !! "stage") = Some j
                 /\ (j = S i \/ (i = 2 /\ j = 4)).

(** A property of every two consecutive elements of a list. *)
Fixpoint all_adjacent {A} (R : A -> A -> Prop) (l : list A) : Prop :=
  match l with
  | a :: (b :: _) as l' => R a b /\ all_adjacent R l'
  | _ => True
  end.

(** The dict has the keys of [initialize_chat_state], the text fields
    hold [None] or a [str], and the turn history holds a list. *)
Definition text_or_none (v : option value) : bool :=
  match v with
  | Some VNone | Some (VStr _) => true
  | _ => false
  end.

Definition TEXT_KEYS : list pystr :=
  ["language"; "lang_code"; "symptoms_user_lang"; "symptoms_en";
   "allergies_user_lang"; "allergies_en"; "diagnosis_en";
   "drug_concept_full_en"].

Definition well_formed (st : gmap pystr value) : bool :=
  match st !! "stage" with Some (VStr _) => true | _ => false end
  && forallb (fun k => text_or_none (st !! k)) TEXT_KEYS
  && match st !! HISTORY_KEY with Some (VList _) => true | _ => false end.

(** What a turn that does not raise does to the session dict and what
    it answers, by stage and message: the step relation of the
    sequencer.  [turn_effect message st st' reply]. *)
Inductive turn_effect (message : pystr) (st : gmap pystr value)
  : gmap pystr value -> pystr -> Prop :=
| effect_unsupported_language :
    st !! "stage" = Some (VStr CHAT_STAGE_ASK_LANGUAGE) ->
    assoc (PyStr.title (PyStr.strip message)) LANG_CODES = None ->
    turn_effect message st st (unsupported_language message)
| effect_language code l u m reply :
    st !! "stage" = Some (VStr CHAT_STAGE_ASK_LANGUAGE) ->
    assoc (PyStr.title (PyStr.strip message)) LANG_CODES = Some code ->
    st !! HISTORY_KEY = Some (VList l) ->
    turn_effect message st
      (<[HISTORY_KEY := VList ((l ++ [u]) ++ [m])%list]>
       (<[HISTORY_KEY := VList (l ++ [u])%list]>
        (<["stage" := VStr CHAT_STAGE_ASK_SYMPTOMS]>
         (<["lang_code" := VStr code]>
          (<["language" := VStr (PyStr.title (PyStr.strip message))]> st)))))
      reply
| effect_language_not_set :
    st !! "stage" = Some (VStr CHAT_STAGE_ASK_SYMPTOMS)
    \/ st !! "stage" = Some (VStr CHAT_STAGE_ASK_ALLERGIES) ->
    truthy (default EN (st !! "lang_code")) = false ->
    turn_effect message st initialize_chat_state LANGUAGE_NOT_SET
| effect_no_symptoms reply :
    st !! "stage" = Some (VStr CHAT_STAGE_ASK_SYMPTOMS) ->
    truthy (default EN (st !! "lang_code")) = true ->
    PyStr.truthy (PyStr.strip message) = false ->
    turn_effect message st st reply
| effect_symptoms en l u m reply :
    st !! "stage" = Some (VStr CHAT_STAGE_ASK_SYMPTOMS) ->
    truthy (default EN (st !! "lang_code")) = true ->
    PyStr.truthy (PyStr.strip message) = true ->
    st !! HISTORY_KEY = Some (VList l) ->
    turn_effect message st
      (<[HISTORY_KEY := VList ((l ++ [u]) ++ [m])%list]>
       (<[HISTORY_KEY := VList (l ++ [u])%list]>
        (<["stage" := VStr CHAT_STAGE_ASK_ALLERGIES]>
         (<["symptoms_en" := VStr en]>
          (<["symptoms_user_lang" := VStr (PyStr.strip message)]> st)))))
      reply
| effect_allergies en l u response m summary reply :
    st !! "stage" = Some (VStr CHAT_STAGE_ASK_ALLERGIES) ->
    truthy (default EN (st !! "lang_code")) = true ->
    st !! HISTORY_KEY = Some (VList l) ->
    turn_effect message st
      (<["translated_summary" := VStr summary]>
       (<[HISTORY_KEY := VList ((l ++ [u]) ++ [m])%list]>
        (<["stage" := VStr CHAT_STAGE_GENERAL_QNA]>
         (<["drug_concept_full_en" := VStr response]>
          (<[HISTORY_KEY := VList (l ++ [u])%list]>
           (<["stage" := VStr CHAT_STAGE_GENERATE_RESPONSE]>
            (<["allergies_en" := VStr en]>
             (<["allergies_user_lang" := VStr (PyStr.strip message)]>
              st))))))))
      reply
| effect_qna l question answer reply :
    st !! "stage" = Some (VStr CHAT_STAGE_GENERAL_QNA) ->
    st !! HISTORY_KEY = Some (VList l) ->
    turn_effect message st
      (<[HISTORY_KEY :=
           VList ((l ++ [{| role := "user"; parts_text := question |}])
                  ++ [{| role := "model"; parts_text := answer |}])%list]>
       (<[HISTORY_KEY :=
            VList (l ++ [{| role := "user"; parts_text := question |}])%list]>
        st))
      reply
| effect_other_stage stage :
    st !! "stage" = Some stage ->
    stage <> VStr CHAT_STAGE_ASK_LANGUAGE ->
    stage <> VStr CHAT_STAGE_ASK_SYMPTOMS ->
    stage <> VStr CHAT_STAGE_ASK_ALLERGIES ->
    stage <> VStr CHAT_STAGE_GENERAL_QNA ->
    turn_effect message st st "".

(** ** Sample collaborators, for concrete runs *)

(** A service that answers every prompt with the prompt. *)
Definition echo_client : client :=
  {| generate_content := fun _ prompt _ => Text prompt;
     send_message := fun _ _ prompt => Text prompt |}.

(** A service whose every request raises [e]. *)
Definition failing_client (e : pystr) : client :=
  {| generate_content := fun _ _ _ => Raised e;
     send_message := fun _ _ _ => Raised e |}.

(** A service whose first request raises [e] and which then answers
    every prompt with the prompt. *)
Definition fails_first_client (e : pystr) : client :=
  {| generate_content :=
       fun n prompt _ => if Nat.eqb n 0 then Raised e else Text prompt;
     send_message :=
       fun n _ prompt => if Nat.eqb n 0 then Raised e else Text prompt |}.

Definition sample_repr : list turn -> pystr := fun _ => "[...]".

(** The session after a sequence of events. *)
Definition replay (gemini_client : option client)
    (repr_list : list turn -> pystr) (evs : list event) (s : session)
  : session :=
  fold_left (fun s ev => handle gemini_client repr_list ev s) evs s.

(** A session that has reached GeneralQnA with an English speaker. *)
Definition sample_qna_session : session :=
  replay (Some echo_client) sample_repr
    [Send "english"; Send "fever and cough"; Send "penicillin"]
    (initial_session 0).


(** ** Weakest preconditions of a turn *)

(** [wp c s Q]: running [c] from [s] ends in an outcome and a store
    that satisfy [Q]. *)
Definition wp {A} (c : M A) (s : store) (Q : outcome A -> store -> Prop)
  : Prop :=
  Q (fst (c s)) (snd (c s)).

(** The chat window [h'] is [h] with another bot text in its last
    entry, which is the entry of [message]. *)
Definition last_entry_of (message : pystr) (h h' : list (pystr * pystr))
  : Prop :=
  exists base r r',
    h = (base ++ [(message, r)])%list /\ h' = (base ++ [(message, r')])%list.

(** ** The field rule of the report assembler, by offsets

    What lines 433-445 compute, said without a regular expression: find
    the first place where the header stands (ignoring case), take the
    text after it up to the first place where a later header stands, or
    up to the end, and trim it. *)

(** [h] stands at the start of [s], ignoring case: each character of
    [s] is one that [re.IGNORECASE] accepts for the character of [h] at
    its place. *)
Fixpoint starts_with_ci (h s : pystr) : bool :=
  match h, s with
  | [], _ => true
  | p :: h', c :: s' => PyChar.eqb_ci p c && starts_with_ci h' s'
  | _ :: _, [] => false
  end.

(** The least [i] such that [P] holds of [s[i:]]. *)
Fixpoint first_offset (P : pystr -> bool) (s : pystr) : option nat :=
  if P s then Some 0
  else match s with
       | "" => None
       | _ :: s' => S <$> first_offset P s'
       end.

Definition header_offset (h text : pystr) : option nat :=
  first_offset (starts_with_ci h) text.

Definition starts_with_any (later : list pystr) (s : pystr) : bool :=
  existsb (fun h => starts_with_ci h s) later.

(** Where the next of the [later] headers starts in [rest]; the length
    of [rest] when none does. *)
Definition next_header_offset (later : list pystr) (rest : pystr) : nat :=
  default (length rest) (first_offset (starts_with_any later) rest).

Definition field_by_rule (h : pystr) (later : list pystr) (text : pystr)
  : pystr :=
  match header_offset h text with
  | None => NOT_FOUND
  | Some i =>
      let rest := PyStr.drop (i + length h) text in
      PyStr.strip (PyStr.take (next_header_offset later rest) rest)
  end.

(** ** Counting requests *)

(** A computation started after [n] requests ends after at most [k]
    more, and after none when there is no client. *)
Definition requests_within (gemini_client : option client) (n k : nat)
    {A} (o : outcome A) (s' : store) : Prop :=
  n <= s_requests s' <= n + k
  /\ (gemini_client = None -> s_requests s' = n).

(** ** The sections of a report, by offsets

    What the loop of [generate_pdf_report] draws, said without
    [str.split(":", 1)]: a chunk is cut at its first colon, when it has
    one. *)

Inductive report_section : Type :=
| Titled (title content : pystr)
| Untitled (body : pystr).

Definition starts_with_colon (s : pystr) : bool :=
  match s with
  | c :: _ => (c =? 58)%N
  | "" => false
  end.

Definition colon_offset (chunk : pystr) : option nat :=
  first_offset starts_with_colon chunk.

Definition section_of_chunk (chunk : pystr) : report_section :=
  match colon_offset chunk with
  | Some i =>
      Titled (PyStr.strip (PyStr.take i chunk))
             (PyStr.strip (PyStr.drop (S i) chunk))
  | None => Untitled chunk
  end.

Definition is_blank (s : pystr) : bool :=
  PyStr.eqb (PyStr.strip s) "".

Definition sections_of_summary (summary : pystr) : list report_section :=
  map section_of_chunk
      (filter (fun chunk => negb (is_blank chunk))
              (PyStr.split "###" summary)).

Definition draw_section (s : report_section) : list pdf_call :=
  match s with
  | Titled title content =>
      [set_font "Arial" "B" 12;
       cell 0 10 (_sanitize_text (title ++ ":")) 0 1 "L";
       set_font "Arial" "" 10;
       multi_cell 0 5 (_sanitize_text content);
       ln 5]
  | Untitled body =>
      [set_font "Arial" "" 10; multi_cell 0 5 (_sanitize_text body); ln 5]
  end.

(** ** When a report can be exported *)

(** A summary is stored exactly in the GeneralQnA stage, and it starts
    with a heading marker. *)
Definition summary_ready (st : gmap pystr value) : Prop :=
  (st !! "stage" = Some (VStr CHAT_STAGE_GENERAL_QNA)
   /\ exists rest, st !! "translated_summary" = Some (VStr ("### " ++ rest)))
  \/ (st !! "stage" <> Some (VStr CHAT_STAGE_GENERAL_QNA)
      /\ st !! "translated_summary" = None).

(** ** The language of a session *)

(** In the AskLanguage stage no language is stored; in any other stage
    the dict holds a name of [LANG_CODES] with its code. *)
Definition language_chosen (st : gmap pystr value) : Prop :=
  (st !! "stage" = Some (VStr CHAT_STAGE_ASK_LANGUAGE)
   /\ st !! "language" = Some VNone /\ st !! "lang_code" = Some VNone)
  \/ (st !! "stage" <> Some (VStr CHAT_STAGE_ASK_LANGUAGE)
      /\ exists name code,
          In (name, code) LANG_CODES
          /\ st !! "language" = Some (VStr name)
          /\ st !! "lang_code" = Some (VStr code)).

(** ** The download helper of the Colab interface *)

Definition DOWNLOADED : pystr := "PDF downloaded in Colab".

(** [download_pdf_in_colab(pdf_path)] (lines 17-21).  [path_exists] is
    [os.path.exists]; the result comes with the list of the files handed
    to [files.download]. *)
Definition download_pdf_in_colab (IN_COLAB : bool)
    (path_exists : pystr -> bool) (pdf_path : option pystr)
  : option pystr * list pystr :=
  match pdf_path with
  | Some p =>
      if IN_COLAB && PyStr.truthy p && path_exists p
      then (Some DOWNLOADED, [p])
      else (pdf_path, [])
  | None => (None, [])
  end.

(** The click on the download button in Colab: [generate_pdf_report],
    then [download_pdf_in_colab] on its result. *)
Definition colab_download_click (repr_list : list turn -> pystr)
    (fpdf : list pdf_call -> bool) (path_exists : pystr -> bool)
    (chat_state : gmap pystr value) : option pystr * list pystr :=
  download_pdf_in_colab true path_exists
    (generate_pdf_report repr_list fpdf chat_state).

(** ** The runner script [run.py] *)








(** ** A completion service that is down *)

(** Every completion request fails, and [get_gemini_response] answers
    [failure]: there is no client, or each request at the temperature of
    the completion calls raises one and the same exception. *)
Definition completion_fails (gemini_client : option client)
    (failure : pystr) : Prop :=
  match gemini_client with
  | None => failure = UNAVAILABLE
  | Some cl =>
      exists e,
        failure = error_reply e
        /\ forall m prompt, generate_content cl m prompt RESPONSE_TEMP = Raised e
  end.

(** The English summary of a diagnosis turn whose four simplified
    fields are [d], [m], [g] and [s]. *)
Definition english_summary_of (symptoms allergies d m g s : pystr) : pystr :=
  "**Symptoms:** " ++ symptoms ++ PyStr.nl ++ PyStr.nl
  ++ "**Allergies:** " ++ allergies ++ PyStr.nl ++ PyStr.nl
  ++ "**Diagnosis:** " ++ d ++ PyStr.nl ++ PyStr.nl
  ++ "**Medicine:** " ++ m ++ PyStr.nl ++ PyStr.nl
  ++ "**Dosage:** " ++ g ++ PyStr.nl ++ PyStr.nl
  ++ "**Safety Notes:** " ++ s ++ PyStr.nl ++ PyStr.nl.

(** ** The English panel outside the diagnosis turn *)

(** Lines 288-293: the English summary rebuilt from the dict and the
    stored response [full]. *)
Definition rebuilt_english_summary (repr_list : list turn -> pystr)
    (st : gmap pystr value) (full : pystr) : pystr :=
  let f := extract_fields full in
  "**Symptoms:** "
    ++ py_str repr_list (default (VStr "N/A") (st !! "symptoms_en"))
    ++ PyStr.nl ++ PyStr.nl
  ++ "**Allergies:** "
    ++ py_str repr_list (default (VStr "N/A") (st !! "allergies_en"))
    ++ PyStr.nl ++ PyStr.nl
  ++ "**Diagnosis:** " ++ diagnosis f ++ PyStr.nl ++ PyStr.nl
  ++ "**Drug Concept:** " ++ drug_concept f ++ PyStr.nl ++ PyStr.nl
  ++ "**Dosage:** " ++ dosage f ++ PyStr.nl ++ PyStr.nl
  ++ "**Safety:** " ++ safety f ++ PyStr.nl ++ PyStr.nl.

(** The English panel of a turn that is not the diagnosis turn. *)
Definition english_panel (repr_list : list turn -> pystr)
    (st : gmap pystr value) : pystr :=
  match st !! "drug_concept_full_en" with
  | Some (VStr (c :: full)) =>
      rebuilt_english_summary repr_list st (c :: full)
  | _ => DEFAULT_ENGLISH_SUMMARY
  end.

(** * Properties *)

(** ** Equality of texts *)

Lemma pystr_eqb_eq s t : PyStr.eqb s t = true <-> s = t.
Proof.
  revert t. induction s as [|c s IH]; intros [|d t]; cbn [PyStr.eqb];
    try (split; [discriminate || done | discriminate || done]).
  rewrite andb_true_iff, N.eqb_eq, IH. split.
  - by intros [-> ->].
  - by intros [= -> ->].
Qed.

Lemma pystr_eqb_refl s : PyStr.eqb s s = true.
Proof. by apply pystr_eqb_eq. Qed.

Lemma pystr_eqb_neq s t : PyStr.eqb s t = false <-> s <> t.
Proof.
  rewrite <- pystr_eqb_eq. destruct (PyStr.eqb s t); split; congruence.
Qed.

(** ** Reasoning about a turn: weakest preconditions *)

Section WP.

Context {A : Type}.

Lemma wp_ret (a : A) s Q : Q (Return a) s -> wp (ret a) s Q.
Proof. exact id. Qed.

Lemma wp_raise e s (Q : outcome A -> store -> Prop) :
  Q (Raise e) s -> wp (raise e) s Q.
Proof. exact id. Qed.

Lemma wp_mono (c : M A) s (Q Q' : outcome A -> store -> Prop) :
  wp c s Q -> (forall o s', Q o s' -> Q' o s') -> wp c s Q'.
Proof. unfold wp. auto. Qed.

Lemma wp_request (call : nat -> A * nat) s Q :
  (forall a n,
      Q (Return a) {| s_history := s_history s; s_state := s_state s;
                      s_requests := n |}) ->
  wp (request call) s Q.
Proof. unfold wp, request. intros H. destruct (call _). apply H. Qed.

Lemma wp_request_exact (call : nat -> A * nat) s Q :
  Q (Return (fst (call (s_requests s))))
    {| s_history := s_history s; s_state := s_state s;
       s_requests := snd (call (s_requests s)) |} ->
  wp (request call) s Q.
Proof. unfold wp, request. destruct (call _). exact id. Qed.

End WP.

Lemma wp_bind {A B} (c : M A) (k : A -> M B) s Q :
  wp c s (fun o s' =>
            match o with
            | Return a => wp (k a) s' Q
            | Raise e => Q (Raise e) s'
            end) ->
  wp (bind c k) s Q.
Proof.
  unfold wp, bind. destruct (c s) as [[a|e] s']; exact id.
Qed.

Lemma wp_state_item key s Q :
  (forall v, s_state s !! key = Some v -> Q (Return v) s) ->
  (s_state s !! key = None -> Q (Raise (KeyError key)) s) ->
  wp (state_item key) s Q.
Proof.
  unfold wp, state_item. intros Hsome Hnone.
  destruct (s_state s !! key) as [v|]; [by apply Hsome | by apply Hnone].
Qed.

Lemma wp_state_get key dflt s Q :
  Q (Return (default dflt (s_state s !! key))) s ->
  wp (state_get key dflt) s Q.
Proof. exact id. Qed.

Lemma wp_state_set key v s Q :
  Q (Return tt) {| s_history := s_history s;
                   s_state := <[key := v]> (s_state s);
                   s_requests := s_requests s |} ->
  wp (state_set key v) s Q.
Proof. exact id. Qed.

Lemma wp_state_reset s Q :
  Q (Return tt) {| s_history := s_history s;
                   s_state := initialize_chat_state;
                   s_requests := s_requests s |} ->
  wp state_reset s Q.
Proof. exact id. Qed.

Lemma wp_show_reply message reply s Q :
  Q (Return tt) {| s_history := with_last_reply (s_history s) message reply;
                   s_state := s_state s;
                   s_requests := s_requests s |} ->
  wp (show_reply message reply) s Q.
Proof. exact id. Qed.

Lemma wp_history_append t s Q :
  (forall l, s_state s !! HISTORY_KEY = Some (VList l) ->
             Q (Return tt)
               {| s_history := s_history s;
                  s_state := <[HISTORY_KEY := VList (l ++ [t])%list]> (s_state s);
                  s_requests := s_requests s |}) ->
  (forall e, (forall l, s_state s !! HISTORY_KEY <> Some (VList l)) ->
             Q (Raise e) s) ->
  wp (history_append t) s Q.
Proof.
  intros Hok Hraise. unfold history_append.
  apply wp_bind, wp_state_item.
  - intros [| |l] Hv.
    + apply wp_raise, Hraise. congruence.
    + apply wp_raise, Hraise. congruence.
    + apply wp_state_set. by apply Hok.
  - intros Hnone. apply Hraise. congruence.
Qed.

Ltac wp_step :=
  lazymatch goal with
  | |- wp (bind _ _) _ _ => apply wp_bind
  | |- wp (ret _) _ _ => apply wp_ret
  | |- wp (raise _) _ _ => apply wp_raise
  | |- wp (state_item _) _ _ => apply wp_state_item; [intros ? ? | intros ?]
  | |- wp (state_get _ _) _ _ => apply wp_state_get
  | |- wp (state_set _ _) _ _ => apply wp_state_set
  | |- wp state_reset _ _ => apply wp_state_reset
  | |- wp (show_reply _ _) _ _ => apply wp_show_reply
  | |- wp (translate _ _ _ _) _ _ => apply wp_request; intros ? ?
  | |- wp (respond _ _) _ _ => apply wp_request; intros ? ?
  | |- wp (history_append _) _ _ =>
      apply wp_history_append; [intros ? ? | intros ? ?]
  | |- wp (expect_str _) _ _ => unfold expect_str
  | |- wp (if ?b then _ else _) _ _ => destruct b eqn:?
  | |- wp (match ?x with _ => _ end) _ _ => destruct x eqn:?
  end;
  cbv beta iota; cbn [s_state s_history s_requests] in *.

Ltac wp_run := repeat wp_step.

Section Step.

Variable gemini_client : option client.
Variable repr_list : list turn -> pystr.

Lemma store_eta s :
  s = {| s_history := s_history s; s_state := s_state s;
         s_requests := s_requests s |}.
Proof. by destruct s. Qed.

(** The summaries block reads the dict and calls the service; it
    changes neither the dict nor the chat window, and raises only on a
    stored response that is a list. *)
Lemma wp_previous_summary user_lang_code s Q :
  (forall x n,
      Q (Return x) {| s_history := s_history s; s_state := s_state s;
                      s_requests := n |}) ->
  (forall e n l,
      s_state s !! "drug_concept_full_en" = Some (VList l) ->
      Q (Raise e) {| s_history := s_history s; s_state := s_state s;
                     s_requests := n |}) ->
  wp (previous_summary gemini_client repr_list user_lang_code) s Q.
Proof.
  intros Hret Hraise. unfold previous_summary.
  wp_step. wp_step.
  destruct (s_state s !! "drug_concept_full_en") as [[| |l]|] eqn:E;
    cbn [default from_option id truthy]; wp_run;
    try apply Hret; rewrite (store_eta s);
    try apply Hret; try discriminate.
  by eapply Hraise.
Qed.

Lemma wp_message_in_english message user_lang_code s Q :
  (forall x n,
      Q (Return x) {| s_history := s_history s; s_state := s_state s;
                      s_requests := n |}) ->
  wp (message_in_english gemini_client message user_lang_code) s Q.
Proof.
  intros Hret. unfold message_in_english.
  wp_run; try apply Hret. rewrite (store_eta s). apply Hret.
Qed.

(** The body of a turn: what can happen before the branch on the
    stage, and then the branch. *)
Lemma wp_process_chat_body message s Q :
  (s_state s !! "stage" = None -> Q (Raise (KeyError "stage")) s) ->
  (forall e n l,
      s_state s !! "drug_concept_full_en" = Some (VList l) ->
      Q (Raise e) {| s_history := s_history s; s_state := s_state s;
                     s_requests := n |}) ->
  (forall stage user_message_en summaries n,
      s_state s !! "stage" = Some stage ->
      wp (after <- stage_branch gemini_client repr_list stage message
                     (default EN (s_state s !! "lang_code"))
                     user_message_en summaries ;;
          show_reply message (bot_response_user_lang after) ;;
          ret (english_summary after, translated_summary after))
         {| s_history := s_history s; s_state := s_state s;
            s_requests := n |} Q) ->
  wp (process_chat_body gemini_client repr_list message) s Q.
Proof.
  intros Hkey Hsum Hbranch. unfold process_chat_body.
  wp_step. wp_step; [|by apply Hkey].
  wp_step. wp_step. wp_step.
  apply wp_message_in_english. intros user_message_en n.
  wp_step. apply wp_previous_summary; cbn [s_state s_history].
  - intros summaries n'. by apply Hbranch.
  - intros e n' l Hl. by eapply Hsum.
Qed.

Lemma with_last_reply_snoc base user r message reply :
  with_last_reply (base ++ [(user, r)]) message reply
  = (base ++ [(user, reply)])%list.
Proof.
  unfold with_last_reply.
  destruct (base ++ [(user, r)])%list eqn:E.
  - by destruct base.
  - rewrite <- E, last_snoc, removelast_last. done.
Qed.

(** What a branch does to the chat window and to the dict. *)
Definition branch_post (message : pystr) (h : list (pystr * pystr))
    (st : gmap pystr value) (o : outcome pystr) (s' : store) : Prop :=
  (s_history s' = h \/ exists r, s_history s' = with_last_reply h message r)
  /\ match o with
     | Return reply => turn_effect message st (s_state s') reply
     | Raise _ => True
     end.

Ltac negb_hyps :=
  repeat match goal with
         | Hb : negb _ = true |- _ => rewrite negb_true_iff in Hb
         | Hb : negb _ = false |- _ => rewrite negb_false_iff in Hb
         end.

Lemma ask_language_effect message h st n :
  st !! "stage" = Some (VStr CHAT_STAGE_ASK_LANGUAGE) ->
  wp (ask_language gemini_client message)
     {| s_history := h; s_state := st; s_requests := n |}
     (branch_post message h st).
Proof.
  intros Hstage. unfold ask_language, branch_post.
  wp_run; try (split; [by eauto | done]).
  - unfold HISTORY_KEY in *. simplify_map_eq.
    split; [by left|]. by eapply effect_language.
  - split; [by left|]. by apply effect_unsupported_language.
Qed.

Lemma ask_symptoms_effect message user_message_en h st n :
  st !! "stage" = Some (VStr CHAT_STAGE_ASK_SYMPTOMS) ->
  wp (ask_symptoms gemini_client message (default EN (st !! "lang_code"))
                   user_message_en)
     {| s_history := h; s_state := st; s_requests := n |}
     (branch_post message h st).
Proof.
  intros Hstage. unfold ask_symptoms, branch_post.
  wp_run; try (split; [by eauto | done]); negb_hyps.
  - split; [by left|]. apply effect_language_not_set; auto.
  - split; [by left|]. by apply effect_no_symptoms.
  - unfold HISTORY_KEY in *. simplify_map_eq.
    split; [by left|]. by eapply effect_symptoms.
Qed.

Lemma ask_allergies_effect message user_message_en sums h st n :
  st !! "stage" = Some (VStr CHAT_STAGE_ASK_ALLERGIES) ->
  wp (ask_allergies gemini_client repr_list message
                    (default EN (st !! "lang_code")) user_message_en sums)
     {| s_history := h; s_state := st; s_requests := n |}
     (fun o s' =>
        branch_post message h st
          match o with
          | Return after => Return (bot_response_user_lang after)
          | Raise e => Raise e
          end s').
Proof.
  intros Hstage. unfold ask_allergies, branch_post.
  wp_run; try (split; [by eauto | done]); negb_hyps.
  - split; [by left|]. apply effect_language_not_set; auto.
  - unfold HISTORY_KEY in *. simplify_map_eq.
    split; [by eauto|]. by eapply effect_allergies.
Qed.

Lemma general_qna_effect message user_message_en h st n :
  st !! "stage" = Some (VStr CHAT_STAGE_GENERAL_QNA) ->
  wp (general_qna gemini_client repr_list message
                  (default EN (st !! "lang_code")) user_message_en)
     {| s_history := h; s_state := st; s_requests := n |}
     (branch_post message h st).
Proof.
  intros Hstage. unfold general_qna, branch_post.
  wp_run; try (split; [by eauto | done]).
  unfold HISTORY_KEY in *. simplify_map_eq.
  split; [by eauto|]. by eapply effect_qna.
Qed.

Lemma stage_branch_effect stage message user_message_en sums h st n :
  st !! "stage" = Some stage ->
  wp (stage_branch gemini_client repr_list stage message
                   (default EN (st !! "lang_code")) user_message_en sums)
     {| s_history := h; s_state := st; s_requests := n |}
     (fun o s' =>
        branch_post message h st
          match o with
          | Return after => Return (bot_response_user_lang after)
          | Raise e => Raise e
          end s').
Proof.
  intros Hstage. unfold stage_branch.
  repeat (wp_step;
          [match goal with
           | Hb : bool_decide (_ = _) = true |- _ =>
               apply bool_decide_eq_true in Hb; subst stage
           end; try wp_step|]).
  - eapply wp_mono; [by apply ask_language_effect|].
    intros [reply|e] s' H; [wp_run|]; done.
  - eapply wp_mono; [by apply ask_symptoms_effect|].
    intros [reply|e] s' H; [wp_run|]; done.
  - by apply ask_allergies_effect.
  - eapply wp_mono; [by apply general_qna_effect|].
    intros [reply|e] s' H; [wp_run|]; done.
  - wp_run. split; [by left|].
    repeat match goal with
           | Hb : bool_decide (_ = _) = false |- _ =>
               apply bool_decide_eq_false in Hb
           end.
    by eapply effect_other_stage.
Qed.

(** One turn, when it does not raise, has one of the effects of
    [turn_effect] and shows its reply in the entry just added to the
    chat window; when it raises, it has at most rewritten the bot text
    of that entry. *)
Lemma process_chat_body_effect message base r0 st n :
  wp (process_chat_body gemini_client repr_list message)
     {| s_history := (base ++ [(message, r0)])%list;
        s_state := st; s_requests := n |}
     (fun o s' =>
        match o with
        | Return _ =>
            exists reply,
              s_history s' = (base ++ [(message, reply)])%list
              /\ turn_effect message st (s_state s') reply
        | Raise _ =>
            exists r, s_history s' = (base ++ [(message, r)])%list
        end).
Proof.
  apply wp_process_chat_body; cbn [s_state s_history]; eauto.
  intros stage user_message_en summaries n' Hstage.
  wp_step. eapply wp_mono; [by apply stage_branch_effect|].
  intros [after|e] [h st' m] [Hh Heff]; cbn [s_history s_state] in *.
  - wp_run. exists (bot_response_user_lang after). split; [|exact Heff].
    destruct Hh as [->|[r ->]]; by rewrite !with_last_reply_snoc.
  - destruct Hh as [->|[r ->]]; rewrite ?with_last_reply_snoc; eauto.
Qed.

End Step.

(** ** Whole turns *)

Section Turn.

Variable gemini_client : option client.
Variable repr_list : list turn -> pystr.

Local Abbreviation process := (process_chat gemini_client repr_list).
Local Abbreviation exception := (turn_exception gemini_client repr_list).

(** A turn that raises ends in the handler; a turn that does not has
    the effect given by the step relation. *)
Lemma process_chat_cases message history st n :
  let r := fst (process message history st n) in
  match exception message history st n with
  | Some e =>
      r = {| r_history :=
               (default [] history ++ [(message, error_message e)])%list;
             r_english_summary := "Error: " ++ error_message e;
             r_translated_summary := "Error: " ++ error_message e;
             r_state := initialize_chat_state |}
  | None =>
      exists reply,
        r_history r = (default [] history ++ [(message, reply)])%list
        /\ turn_effect message st (r_state r) reply
  end.
Proof.
  unfold process_chat, turn_exception.
  pose proof (process_chat_body_effect gemini_client repr_list message
                (default [] history) "" st n) as H.
  unfold wp in H.
  destruct (process_chat_body _ _ _ _) as [[[es ts]|e] s'];
    cbn in *.
  - done.
  - destruct H as [r Hh]. by rewrite Hh, with_last_reply_snoc.
Qed.

Lemma process_chat_raises message history st n e :
  exception message history st n = Some e ->
  fst (process message history st n)
  = {| r_history := (default [] history ++ [(message, error_message e)])%list;
       r_english_summary := "Error: " ++ error_message e;
       r_translated_summary := "Error: " ++ error_message e;
       r_state := initialize_chat_state |}.
Proof.
  intros H. pose proof (process_chat_cases message history st n) as Hc.
  by rewrite H in Hc.
Qed.

Lemma process_chat_returns message history st n :
  exception message history st n = None ->
  exists reply,
    r_history (fst (process message history st n))
    = (default [] history ++ [(message, reply)])%list
    /\ turn_effect message st
                   (r_state (fst (process message history st n))) reply.
Proof.
  intros H. pose proof (process_chat_cases message history st n) as Hc.
  by rewrite H in Hc.
Qed.

(** Whatever happens in a turn, the new dict is the initial one or
    comes from the old one by the step relation. *)
Lemma process_chat_effect message history st n :
  r_state (fst (process message history st n)) = initialize_chat_state
  \/ exists reply,
      turn_effect message st
                  (r_state (fst (process message history st n))) reply.
Proof.
  destruct (exception message history st n) as [e|] eqn:E.
  - left. by rewrite (process_chat_raises _ _ _ _ _ E).
  - right. destruct (process_chat_returns _ _ _ _ E) as (reply & _ & H).
    eauto.
Qed.

End Turn.

(** ** Consequences of the step relation *)

Ltac lookup_stage :=
  unfold HISTORY_KEY;
  repeat first [rewrite lookup_insert_eq
               | rewrite lookup_insert_ne by done].

Lemma turn_effect_stage message st st' reply :
  turn_effect message st st' reply ->
  st' = initialize_chat_state \/ stage_forward st st'.
Proof.
  destruct 1 as [ | code l u m r Hs | | | en l u m r Hs
                | en l u resp m sum r Hs | l q a r Hs | ];
    try (by left); try (by right; left); right.
  - right. exists 0, 1. rewrite Hs. lookup_stage. repeat split. by left.
  - right. exists 1, 2. rewrite Hs. lookup_stage. repeat split. by left.
  - right. exists 2, 4. rewrite Hs. lookup_stage. repeat split. by right.
  - left. lookup_stage. done.
Qed.

Lemma turn_effect_other_keys message st st' reply :
  turn_effect message st st' reply ->
  st !! "stage" = Some (VStr CHAT_STAGE_GENERAL_QNA) ->
  forall key, key <> HISTORY_KEY -> st' !! key = st !! key.
Proof.
  intros Heff Hstage.
  destruct Heff as [ Hs | code l u m r Hs | [Hs|Hs] | r Hs | en l u m r Hs
                   | en l u resp m sum r Hs | l q a r Hs | ];
    try done; try (rewrite Hstage in Hs; discriminate).
  intros key Hkey. by rewrite !lookup_insert_ne.
Qed.

Lemma stage_forward_not_backward st st' i j :
  stage_forward st st' ->
  stage_index (st !! "stage") = Some i ->
  stage_index (st' !! "stage") = Some j ->
  i <= j.
Proof.
  intros [Heq|(i' & j' & Hi & Hj & Hij)] Hi0 Hj0.
  - rewrite Heq in Hj0. rewrite Hi0 in Hj0. injection Hj0 as ->. done.
  - rewrite Hi in Hi0. rewrite Hj in Hj0. simplify_eq. lia.
Qed.

Section Traces.

Variable gemini_client : option client.
Variable repr_list : list turn -> pystr.

Lemma handle_effect ev s :
  ui_state (handle gemini_client repr_list ev s) = initialize_chat_state
  \/ exists message reply,
      turn_effect message (ui_state s)
                  (ui_state (handle gemini_client repr_list ev s)) reply.
Proof.
  destruct ev as [message|]; [|by left].
  unfold handle.
  pose proof (process_chat_effect gemini_client repr_list message
                (Some (ui_history s)) (ui_state s) (ui_requests s)) as H.
  destruct (process_chat _ _ _ _ _ _) as [r n]. cbn in *.
  destruct H as [H|[reply H]]; eauto.
Qed.

(** A property of every event holds along every trace. *)
Lemma trace_all_adjacent (R : session -> session -> Prop) :
  (forall ev s, R s (handle gemini_client repr_list ev s)) ->
  forall evs s, all_adjacent R (trace gemini_client repr_list evs s).
Proof.
  intros HR evs. induction evs as [|ev evs IH]; intros s; [done|].
  cbn [trace]. specialize (IH (handle gemini_client repr_list ev s)).
  destruct evs; cbn in *; auto.
Qed.


End Traces.

(** C2. Along every sequence of turns and new-consultation clicks, from
    any session, each event leaves the stage where it is or moves it
    forward (to the next stage, or from AskAllergies through
    GenerateResponse to GeneralQnA), unless it installs the initial dict;
    a new consultation installs the initial dict, whose stage is
    AskLanguage and whose other fields are empty. *)
Theorem stage_moves_forward_or_session_resets
    (gemini_client : option client) (repr_list : list turn -> pystr)
    (evs : list event) (s : session) :
  all_adjacent
    (fun a b =>
       ui_state b = initialize_chat_state
       \/ stage_forward (ui_state a) (ui_state b))
    (trace gemini_client repr_list evs s)
  /\ ui_state (handle gemini_client repr_list NewConsultation s)
     = initialize_chat_state
  /\ initialize_chat_state !! "stage" = Some (VStr CHAT_STAGE_ASK_LANGUAGE)
  /\ Forall (fun key => initialize_chat_state !! key = Some VNone) TEXT_KEYS
  /\ initialize_chat_state !! HISTORY_KEY = Some (VList [])
  /\ initialize_chat_state !! "translated_summary" = None.
Proof.
  split; [|split; [done|split; [done|split; [|done]]]].
  - apply trace_all_adjacent. intros ev s0.
    destruct (handle_effect gemini_client repr_list ev s0) as [H|(m & r & H)];
      [by left|].
    by apply turn_effect_stage in H.
  - unfold TEXT_KEYS. repeat constructor.
Qed.

(** C7. When the body of a turn raises, [process_chat] still returns:
    the bot text of the turn is the generic error string built from the
    exception, both summaries show it, and the session dict returned is
    the initial one, whatever language, symptoms and allergies had been
    collected. *)
Theorem exception_resets_session
    (gemini_client : option client) (repr_list : list turn -> pystr)
    (message : pystr) (history : option (list (pystr * pystr)))
    (state : gmap pystr value) (n : nat) (e : exn) :
  turn_exception gemini_client repr_list message history state n = Some e ->
  let r := fst (process_chat gemini_client repr_list message history state n) in
  r_history r
  = (default [] history
     ++ [(message,
          ("An error occurred: " ++ exn_str e
             ++ ". Please try again or restart the conversation.")%pystr)])%list
  /\ r_state r = initialize_chat_state
  /\ r_english_summary r = "Error: " ++ error_message e
  /\ r_translated_summary r = "Error: " ++ error_message e.
Proof.
  intros H r. subst r. by rewrite (process_chat_raises _ _ _ _ _ _ _ H).
Qed.

(** A dict that lost its turn history in the middle of a consultation. *)
Lemma exception_resets_session_witness :
  let broken := delete HISTORY_KEY (ui_state sample_qna_session) in
  let r := fst (process_chat None sample_repr "is it safe?"
                  (Some [("hello", "hi")]) broken 0) in
  broken !! "language" = Some (VStr "English")
  /\ r_history r
     = [("hello", "hi");
        ("is it safe?",
         "An error occurred: 'gemini_chat_history_manual'. Please try again or restart the conversation.")]
  /\ r_state r = initialize_chat_state.
Proof.
  split; [by vm_compute|].
  pose proof (exception_resets_session None sample_repr "is it safe?"
                (Some [("hello", "hi")])
                (delete HISTORY_KEY (ui_state sample_qna_session)) 0
                (KeyError HISTORY_KEY)) as H.
  destruct H as (Hh & Hs & _); [by vm_compute|].
  split; [exact Hh | exact Hs].
Defined.

(** C10. A follow-up turn that does not raise changes no key of the
    session dict but the turn history, which grows by one user entry
    followed by one model entry; in particular the stored translated
    summary is the one the export reads before and after. *)
Theorem general_qna_only_grows_history
    (gemini_client : option client) (repr_list : list turn -> pystr)
    (message : pystr) (history : option (list (pystr * pystr)))
    (state : gmap pystr value) (n : nat) :
  state !! "stage" = Some (VStr CHAT_STAGE_GENERAL_QNA) ->
  turn_exception gemini_client repr_list message history state n = None ->
  let state' :=
    r_state (fst (process_chat gemini_client repr_list message history state n)) in
  Forall (fun key => state' !! key = state !! key)
         ["stage"; "language"; "lang_code"; "symptoms_user_lang";
          "symptoms_en"; "allergies_user_lang"; "allergies_en";
          "drug_concept_full_en"; "translated_summary"]
  /\ (forall key, key <> HISTORY_KEY -> state' !! key = state !! key)
  /\ exists l question answer,
      state !! HISTORY_KEY = Some (VList l)
      /\ state' !! HISTORY_KEY
         = Some (VList (l ++ [{| role := "user"; parts_text := question |};
                              {| role := "model"; parts_text := answer |}])).
Proof.
  intros Hstage Hok state'.
  destruct (process_chat_returns _ _ _ _ _ _ Hok) as (reply & _ & Heff).
  fold state' in Heff.
  pose proof (turn_effect_other_keys _ _ _ _ Heff Hstage) as Hframe.
  split; [|split; [exact Hframe|]].
  - repeat constructor; by apply Hframe.
  - clearbody state'.
    destruct Heff as [ Hs | code l u m r Hs | [Hs|Hs] | r Hs | en l u m r Hs
                     | en l u resp m sum r Hs | l q a r Hs Hl
                     | stage Hs ? ? ? Hq ];
      try (rewrite Hstage in Hs; discriminate).
    + exists l, q, a. split; [done|].
      rewrite lookup_insert_eq, <- app_assoc. done.
    + rewrite Hstage in Hs. by simplify_eq.
Qed.

Lemma general_qna_only_grows_history_witness :
  let state := ui_state sample_qna_session in
  let state' :=
    r_state (fst (process_chat (Some echo_client) sample_repr "is it safe?"
                    (Some (ui_history sample_qna_session)) state 9)) in
  state' !! "translated_summary" = state !! "translated_summary"
  /\ is_Some (state !! "translated_summary").
Proof.
  pose proof (general_qna_only_grows_history (Some echo_client) sample_repr
                "is it safe?" (Some (ui_history sample_qna_session))
                (ui_state sample_qna_session) 9) as H.
  destruct H as (_ & H & _);
    [vm_compute; reflexivity | vm_compute; reflexivity |].
  split; [by apply H | by vm_compute; eexists].
Defined.

(** ** The language code *)





(** * Further properties of the code *)

(** ** Strings *)

Lemma string_eqb_cons a b s t :
  PyStr.eqb (a :: s) (b :: t) = (a =? b)%N && PyStr.eqb s t.
Proof. reflexivity. Qed.

Lemma drop_empty n : PyStr.drop n "" = "".
Proof. by destruct n. Qed.

Lemma take_empty n : PyStr.take n "" = "".
Proof. by destruct n. Qed.

Lemma drop_drop a b s : PyStr.drop a (PyStr.drop b s) = PyStr.drop (b + a) s.
Proof.
  revert s. induction b as [|b IH]; intros s; [done|].
  destruct s as [|c s]; cbn [PyStr.drop Nat.add].
  - by rewrite !drop_empty.
  - apply IH.
Qed.

Lemma take_length s : PyStr.take (length s) s = s.
Proof. induction s as [|c s IH]; cbn; by rewrite ?IH. Qed.

Lemma rstrip_newline g : PyStr.rstrip (g ++ PyStr.nl) = PyStr.rstrip g.
Proof.
  induction g as [|c g IH]; [reflexivity|].
  change ((c :: g) ++ PyStr.nl) with (c :: (g ++ PyStr.nl)).
  cbn [PyStr.rstrip]. by rewrite IH.
Qed.

Lemma strip_newline g : PyStr.strip (g ++ PyStr.nl) = PyStr.strip g.
Proof. unfold PyStr.strip. by rewrite rstrip_newline. Qed.

Lemma lstrip_is_drop s : exists a, PyStr.lstrip s = PyStr.drop a s.
Proof.
  induction s as [|c s [a IH]]; [by exists 0|].
  cbn [PyStr.lstrip]. destruct (PyChar.is_space c).
  - exists (S a). by rewrite IH.
  - by exists 0.
Qed.

Lemma rstrip_is_take s : exists b, PyStr.rstrip s = PyStr.take b s.
Proof.
  induction s as [|c s [b IH]]; [by exists 0|].
  cbn [PyStr.rstrip]. destruct (PyStr.rstrip s) as [|d r] eqn:E.
  - destruct (PyChar.is_space c); [by exists 0 | by exists 1].
  - exists (S b). cbn [PyStr.take]. by rewrite <- IH.
Qed.

Lemma strip_is_slice s :
  exists a b, PyStr.strip s = PyStr.drop a (PyStr.take b s).
Proof.
  unfold PyStr.strip.
  destruct (rstrip_is_take s) as [b ->].
  destruct (lstrip_is_drop (PyStr.take b s)) as [a ->]. eauto.
Qed.

(** ** The report assembler *)

Lemma starts_with_ci_cons p h c s :
  starts_with_ci (p :: h) (c :: s)
  = PyChar.eqb_ci p c && starts_with_ci h s.
Proof. reflexivity. Qed.

Lemma starts_with_ci_empty_text h :
  h <> "" -> starts_with_ci h "" = false.
Proof. by destruct h. Qed.

(** The literal under [re.IGNORECASE] matches where the header stands,
    and leaves the text after it. *)
Lemma match_literal_starts h s :
  Re.match_literal h s
  = if starts_with_ci h s then Some (PyStr.drop (length h) s) else None.
Proof.
  revert s. induction h as [|p h IH]; intros s.
  - by destruct s.
  - destruct s as [|c s]; [done|].
    cbn [Re.match_literal]. rewrite starts_with_ci_cons, IH.
    by destruct (PyChar.eqb_ci p c).
Qed.

(** [re.search] with a tail that always matches stops at the first
    place where the header stands. *)
Lemma search_at_header_offset h tail s :
  (forall r, is_Some (tail r)) ->
  Re.search h tail s
  = match header_offset h s with
    | Some i => tail (PyStr.drop (i + length h) s)
    | None => None
    end.
Proof.
  intros Htail. unfold header_offset.
  induction s as [|c s IH]; cbn [Re.search first_offset];
    rewrite match_literal_starts.
  - destruct (starts_with_ci h "") eqn:E; [|done].
    destruct (Htail (PyStr.drop (length h) "")) as [g Hg].
    by rewrite Hg.
  - destruct (starts_with_ci h (c :: s)) eqn:E.
    + destruct (Htail (PyStr.drop (length h) (c :: s))) as [g Hg].
      by rewrite Hg.
    + rewrite IH. by destruct (first_offset (starts_with_ci h) s).
Qed.

Lemma alternative_matches_literal s h :
  Re.alternative_matches s (Re.Literal h) = starts_with_ci h s.
Proof.
  unfold Re.alternative_matches. rewrite match_literal_starts.
  destruct (starts_with_ci h s).
  - apply bool_decide_eq_true. eauto.
  - apply bool_decide_eq_false. by intros [? ?].
Qed.

Lemma existsb_alternatives later s :
  existsb (Re.alternative_matches s) (map Re.Literal later ++ [Re.EndOfText])
  = starts_with_any later s || Re.at_end s.
Proof.
  unfold starts_with_any.
  induction later as [|h later IH]; cbn [map app existsb].
  - by rewrite orb_false_r.
  - by rewrite alternative_matches_literal, IH, orb_assoc.
Qed.

(** The lazy group stops where the next header starts; without a next
    header it takes the rest, but for a newline that ends the text. *)
Lemma lazy_group_stops_at_next_header later s :
  exists g,
    Re.lazy_group (map Re.Literal later ++ [Re.EndOfText]) s = Some g
    /\ (PyStr.take (next_header_offset later s) s = g
        \/ PyStr.take (next_header_offset later s) s = g ++ PyStr.nl).
Proof.
  unfold next_header_offset.
  induction s as [|c s (g & Hg & IH)];
    cbn [Re.lazy_group first_offset]; rewrite existsb_alternatives.
  - exists "". split; [by rewrite orb_true_r|].
    left. by destruct (starts_with_any later "").
  - destruct (starts_with_any later (c :: s)) eqn:Eany; cbn [orb].
    { exists "". split; [done|]. by left. }
    destruct (Re.at_end (c :: s)) eqn:Eend.
    + exists "". split; [done|]. right.
      destruct s as [|d s]; [|done].
      cbn in Eend. apply N.eqb_eq in Eend. subst c.
      cbn [first_offset]. by destruct (starts_with_any later "").
    + exists (c :: g). split; [by rewrite Hg|].
      destruct (first_offset (starts_with_any later) s) as [k|];
        cbn [fmap option_fmap option_map default from_option id
             length PyStr.take] in *;
        destruct IH as [->| ->]; auto.
Qed.

Lemma lazy_group_total later r :
  is_Some (Re.lazy_group (map Re.Literal later ++ [Re.EndOfText]) r).
Proof. destruct (lazy_group_stops_at_next_header later r) as (g & -> & _). eauto. Qed.

(** One field with a lazy group is the field of the rule. *)
Lemma lazy_field_by_rule h later text :
  group1_or_not_found
    (Re.search h (Re.lazy_group (map Re.Literal later ++ [Re.EndOfText])) text)
  = field_by_rule h later text.
Proof.
  unfold field_by_rule.
  rewrite search_at_header_offset by apply lazy_group_total.
  destruct (header_offset h text) as [i|]; [|done].
  destruct (lazy_group_stops_at_next_header later
              (PyStr.drop (i + length h) text)) as (g & -> & [->| ->]);
    cbn [group1_or_not_found]; by rewrite ?strip_newline.
Qed.

Lemma first_offset_never s : first_offset (fun _ => false) s = None.
Proof. induction s as [|c s IH]; cbn; by rewrite ?IH. Qed.

(** The last field, with its greedy group. *)
Lemma greedy_field_by_rule h text :
  group1_or_not_found (Re.search h Re.greedy_group text)
  = field_by_rule h [] text.
Proof.
  unfold field_by_rule.
  rewrite search_at_header_offset by (intros r; by eexists).
  destruct (header_offset h text) as [i|]; [|done].
  unfold next_header_offset.
  change (starts_with_any []) with (fun _ : pystr => false).
  rewrite first_offset_never. cbn [default from_option id].
  by rewrite take_length.
Qed.

Lemma extract_fields_rule text :
  extract_fields text
  = {| diagnosis :=
         field_by_rule DIAGNOSIS_HEADER
                       [DRUG_HEADER; DOSAGE_HEADER; SAFETY_HEADER] text;
       drug_concept :=
         field_by_rule DRUG_HEADER [DOSAGE_HEADER; SAFETY_HEADER] text;
       dosage := field_by_rule DOSAGE_HEADER [SAFETY_HEADER] text;
       safety := field_by_rule SAFETY_HEADER [] text |}.
Proof.
  unfold extract_fields, diagnosis_match, drug_match, dosage_match,
    safety_match.
  rewrite <- greedy_field_by_rule.
  rewrite <- (lazy_field_by_rule DIAGNOSIS_HEADER),
    <- (lazy_field_by_rule DRUG_HEADER), <- (lazy_field_by_rule DOSAGE_HEADER).
  reflexivity.
Qed.

(** X1. For every text, each of the four fields is the field of the
    rule: "Not found" when its header stands nowhere in the text
    (ignoring case); otherwise the text after the first place where the
    header stands, up to the first place after it where one of the later
    headers stands, or up to the end of the text, trimmed. *)
Theorem extract_fields_by_rule (text : pystr) :
  extract_fields text
  = {| diagnosis :=
         field_by_rule DIAGNOSIS_HEADER
                       [DRUG_HEADER; DOSAGE_HEADER; SAFETY_HEADER] text;
       drug_concept :=
         field_by_rule DRUG_HEADER [DOSAGE_HEADER; SAFETY_HEADER] text;
       dosage := field_by_rule DOSAGE_HEADER [SAFETY_HEADER] text;
       safety := field_by_rule SAFETY_HEADER [] text |}.
Proof. apply extract_fields_rule. Qed.

Lemma first_offset_none_iff P s :
  first_offset P s = None <-> forall j, P (PyStr.drop j s) = false.
Proof.
  induction s as [|c s IH]; cbn [first_offset].
  - split.
    + intros H j. rewrite drop_empty. by destruct (P "").
    + intros H. pose proof (H 0) as H0. cbn [PyStr.drop] in H0.
      by rewrite H0.
  - split.
    + intros H j. destruct (P (c :: s)) eqn:E; [done|].
      destruct (first_offset P s) eqn:E'; [done|].
      destruct j as [|j]; [done|]. by apply IH.
    + intros H. pose proof (H 0) as H0. cbn [PyStr.drop] in H0.
      rewrite H0.
      assert (first_offset P s = None) as ->; [|done].
      apply IH. intros j. apply (H (S j)).
Qed.

Lemma first_offset_least P s k j :
  first_offset P s = Some k -> j < k -> P (PyStr.drop j s) = false.
Proof.
  revert k j. induction s as [|c s IH]; intros k j; cbn [first_offset].
  - destruct (P ""); [|done]. intros [= <-]. lia.
  - destruct (P (c :: s)) eqn:E; [intros [= <-]; lia|].
    destruct (first_offset P s) as [k'|] eqn:E'; [|done].
    intros [= <-] Hj. destruct j as [|j]; [done|].
    apply (IH k'); [done|lia].
Qed.

Lemma starts_with_ci_take h k s :
  starts_with_ci h (PyStr.take k s) = true -> starts_with_ci h s = true.
Proof.
  revert k s. induction h as [|p h IH]; intros k s; [done|].
  destruct k as [|k], s as [|c s]; try done.
  cbn [PyStr.take]. rewrite !starts_with_ci_cons.
  intros [-> H]%andb_true_iff. by rewrite (IH _ _ H).
Qed.

Lemma starts_with_ci_drop_take h j k s :
  h <> "" ->
  starts_with_ci h (PyStr.drop j (PyStr.take k s)) = true ->
  j < k /\ starts_with_ci h (PyStr.drop j s) = true.
Proof.
  intros Hh. revert j s. induction k as [|k IH]; intros j s.
  - cbn [PyStr.take]. replace (PyStr.take 0 s) with (@nil N) by (by destruct s).
    by rewrite drop_empty, starts_with_ci_empty_text.
  - destruct s as [|c s].
    + by rewrite take_empty, drop_empty, starts_with_ci_empty_text.
    + destruct j as [|j].
      * intros H. split; [lia|].
        by apply (starts_with_ci_take h (S k)).
      * cbn [PyStr.take PyStr.drop]. intros H.
        destruct (IH _ _ H). split; [lia|done].
Qed.

(** A later header that stands nowhere in "Not found" stands nowhere in
    a field either. *)
Lemma field_by_rule_without_later_header h later text l :
  In l later -> l <> "" ->
  header_offset l NOT_FOUND = None ->
  header_offset l (field_by_rule h later text) = None.
Proof.
  intros Hin Hl Hnf. unfold field_by_rule.
  destruct (header_offset h text) as [i|]; [|done].
  set (rest := PyStr.drop (i + length h) text).
  apply first_offset_none_iff. intros j.
  destruct (starts_with_ci l _) eqn:E; [exfalso|done].
  destruct (strip_is_slice (PyStr.take (next_header_offset later rest) rest))
    as (a & b & Hslice).
  rewrite Hslice, drop_drop in E.
  apply starts_with_ci_drop_take in E as [_ E]; [|done].
  apply starts_with_ci_drop_take in E as [Hlt E]; [|done].
  assert (starts_with_any later (PyStr.drop (a + j) rest) = true) as Hany.
  { apply existsb_exists. eauto. }
  unfold next_header_offset in Hlt.
  destruct (first_offset (starts_with_any later) rest) as [k|] eqn:Ek.
  - cbn in Hlt. by rewrite (first_offset_least _ _ _ _ Ek Hlt) in Hany.
  - apply first_offset_none_iff with (j := a + j) in Ek. congruence.
Qed.

(** X2. No field holds the header of a later field: in the diagnosis
    none of the three later headers stands anywhere (ignoring case), in
    the drug concept neither the dosage nor the safety header, in the
    dosage not the safety header. *)
Theorem extract_fields_hold_no_later_header (text : pystr) :
  let f := extract_fields text in
  header_offset DRUG_HEADER (diagnosis f) = None
  /\ header_offset DOSAGE_HEADER (diagnosis f) = None
  /\ header_offset SAFETY_HEADER (diagnosis f) = None
  /\ header_offset DOSAGE_HEADER (drug_concept f) = None
  /\ header_offset SAFETY_HEADER (drug_concept f) = None
  /\ header_offset SAFETY_HEADER (dosage f) = None.
Proof.
  cbv zeta. rewrite extract_fields_rule. cbn [diagnosis drug_concept dosage].
  repeat split;
    apply field_by_rule_without_later_header;
    solve [vm_compute; reflexivity | cbn [In]; tauto | discriminate].
Qed.

(** ** The session dict keeps its shape *)

Lemma wp_state_item_some key v s Q :
  s_state s !! key = Some v ->
  Q (Return v) s ->
  wp (state_item key) s Q.
Proof. intros Hv HQ. unfold wp, state_item. by rewrite Hv. Qed.

Lemma wp_history_append_list t l s Q :
  s_state s !! HISTORY_KEY = Some (VList l) ->
  Q (Return tt)
    {| s_history := s_history s;
       s_state := <[HISTORY_KEY := VList (l ++ [t])%list]> (s_state s);
       s_requests := s_requests s |} ->
  wp (history_append t) s Q.
Proof.
  intros Hl HQ. unfold history_append.
  apply wp_bind. eapply wp_state_item_some; [done|]. by apply wp_state_set.
Qed.

Ltac solve_lookup :=
  cbn [s_state]; unfold HISTORY_KEY;
  repeat first [ rewrite lookup_insert_eq
               | rewrite lookup_insert_ne by done ];
  first [reflexivity | eassumption].

(** Stepping through code whose lookups are known to succeed. *)
Ltac wp_ok_step :=
  lazymatch goal with
  | |- wp (bind _ _) _ _ => apply wp_bind
  | |- wp (ret _) _ _ => apply wp_ret
  | |- wp (state_item _) _ _ => eapply wp_state_item_some; [solve_lookup|]
  | |- wp (state_get _ _) _ _ => apply wp_state_get
  | |- wp (state_set _ _) _ _ => apply wp_state_set
  | |- wp state_reset _ _ => apply wp_state_reset
  | |- wp (show_reply _ _) _ _ => apply wp_show_reply
  | |- wp (translate _ _ _ _) _ _ => apply wp_request; intros ? ?
  | |- wp (respond _ _) _ _ => apply wp_request; intros ? ?
  | |- wp (history_append _) _ _ =>
      eapply wp_history_append_list; [solve_lookup|]
  | |- wp (if ?b then _ else _) _ _ => destruct b eqn:?
  | |- wp (match ?x with _ => _ end) _ _ => destruct x eqn:?
  end;
  cbv beta iota; cbn [s_state s_history s_requests] in *.

Lemma well_formed_lookups st :
  well_formed st = true ->
  (exists s, st !! "stage" = Some (VStr s))
  /\ (exists l, st !! HISTORY_KEY = Some (VList l))
  /\ Forall (fun key => exists v, st !! key = Some v
                                  /\ text_or_none (Some v) = true) TEXT_KEYS.
Proof.
  unfold well_formed.
  intros [[Hs Hk]%andb_true_iff Hh]%andb_true_iff.
  split; [|split].
  - destruct (st !! "stage") as [[| |]|]; try done. eauto.
  - destruct (st !! HISTORY_KEY) as [[| |]|]; try done. eauto.
  - apply Forall_forall. intros key Hkey%list_elem_of_In.
    pose proof (proj1 (List.forallb_forall _ _) Hk key Hkey) as Hv.
    cbv beta in Hv. destruct (st !! key) as [v|]; [eauto|done].
Qed.

Section Shape.

Variable gemini_client : option client.
Variable repr_list : list turn -> pystr.

Lemma stage_branch_never_raises stage message user_lang_code user_message_en
    sums h st n :
  well_formed st = true ->
  wp (stage_branch gemini_client repr_list stage message user_lang_code
                   user_message_en sums)
     {| s_history := h; s_state := st; s_requests := n |}
     (fun o _ => exists after, o = Return after).
Proof.
  intros (_ & [l Hl] & Hkeys)%well_formed_lookups.
  unfold TEXT_KEYS in Hkeys.
  repeat match goal with
         | H : Forall _ (_ :: _) |- _ =>
             apply Forall_cons in H as [(? & ? & _) H]
         end.
  clear Hkeys.
  unfold stage_branch, ask_language, ask_symptoms, ask_allergies, general_qna.
  repeat wp_ok_step; eauto.
Qed.

(** A dict of the shape of [initialize_chat_state] never makes a turn
    raise. *)
Lemma well_formed_never_raises message history st n :
  well_formed st = true ->
  turn_exception gemini_client repr_list message history st n = None.
Proof.
  intros Hwf. unfold turn_exception.
  assert (wp (process_chat_body gemini_client repr_list message)
             {| s_history := (default [] history ++ [(message, "")])%list;
                s_state := st; s_requests := n |}
             (fun o _ => exists x, o = Return x)) as H.
  { destruct (well_formed_lookups _ Hwf) as ([s Hs] & _ & Hkeys).
    apply wp_process_chat_body; cbn [s_state s_history].
    - congruence.
    - intros e' n' l Hl. exfalso.
      apply Forall_forall with (x := "drug_concept_full_en") in Hkeys
        as (v & Hv & Hok); [|unfold TEXT_KEYS; set_solver].
      rewrite Hl in Hv. by simplify_eq.
    - intros stage user_message_en summaries n' Hstage.
      wp_step. eapply wp_mono; [by apply stage_branch_never_raises|].
      intros o s0 [after ->]. wp_run. eauto. }
  unfold wp in H.
  destruct (process_chat_body _ _ _ _) as [[x|e] s']; [done|].
  by destruct H.
Qed.

End Shape.

Ltac split_shape H :=
  unfold well_formed, TEXT_KEYS in H; cbn [forallb] in H;
  repeat match goal with
         | Hx : (_ && _) = true |- _ => apply andb_true_iff in Hx as [? ?]
         end.

Lemma turn_effect_well_formed message st st' reply :
  turn_effect message st st' reply ->
  well_formed st = true -> well_formed st' = true.
Proof.
  destruct 1; try done; intros Hwf; split_shape Hwf;
    unfold well_formed, TEXT_KEYS; cbn [forallb]; lookup_stage;
    cbn [text_or_none];
    repeat (apply andb_true_iff; split); done.
Qed.

Section Reachable.

Variable gemini_client : option client.
Variable repr_list : list turn -> pystr.

Lemma handle_well_formed ev s :
  well_formed (ui_state s) = true ->
  well_formed (ui_state (handle gemini_client repr_list ev s)) = true.
Proof.
  intros Hwf.
  destruct (handle_effect gemini_client repr_list ev s) as [->|(m & r & H)];
    [done|].
  by eapply turn_effect_well_formed.
Qed.

Lemma trace_well_formed evs s :
  well_formed (ui_state s) = true ->
  Forall (fun s' => well_formed (ui_state s') = true)
         (trace gemini_client repr_list evs s).
Proof.
  revert s. induction evs as [|ev evs IH]; intros s Hwf; cbn [trace].
  - by constructor.
  - constructor; [done|]. by apply IH, handle_well_formed.
Qed.

End Reachable.

(** X3. A turn on a session dict that has the shape of the initial one
    (the ten keys present, the stage a string, each text field [None] or
    a string, the turn history a list) does not raise, so the [except]
    handler is not reached, and the dict it returns has that shape
    again. *)
Theorem well_formed_turn_never_raises
    (gemini_client : option client) (repr_list : list turn -> pystr)
    (message : pystr) (history : option (list (pystr * pystr)))
    (state : gmap pystr value) (n : nat) :
  well_formed state = true ->
  turn_exception gemini_client repr_list message history state n = None
  /\ well_formed
       (r_state (fst (process_chat gemini_client repr_list message history
                                   state n))) = true.
Proof.
  intros Hwf.
  pose proof (well_formed_never_raises gemini_client repr_list message
                history state n Hwf) as Hok.
  split; [done|].
  destruct (process_chat_returns _ _ _ _ _ _ Hok) as (reply & _ & Heff).
  by eapply turn_effect_well_formed.
Qed.

Lemma well_formed_turn_never_raises_witness :
  turn_exception (Some (failing_client "503")) sample_repr "penicillin"
    (Some [("english", "ok")])
    (ui_state (replay (Some echo_client) sample_repr
                 [Send "english"; Send "fever"] (initial_session 0))) 0
  = None.
Proof.
  apply (well_formed_turn_never_raises (Some (failing_client "503"))
           sample_repr "penicillin" (Some [("english", "ok")])).
  vm_compute. reflexivity.
Defined.

(** X4. From the start of a session, along every sequence of turns and
    new-consultation clicks, with any service, every session dict has
    the shape of the initial one; so no turn of a session ever reaches
    the [except] handler. *)
Theorem sessions_stay_well_formed
    (gemini_client : option client) (repr_list : list turn -> pystr)
    (evs : list event) (n : nat) :
  Forall (fun s =>
            well_formed (ui_state s) = true
            /\ forall message,
                turn_exception gemini_client repr_list message
                  (Some (ui_history s)) (ui_state s) (ui_requests s) = None)
         (trace gemini_client repr_list evs (initial_session n)).
Proof.
  eapply Forall_impl; [by apply trace_well_formed|].
  intros s Hwf. split; [done|]. intros message.
  by apply well_formed_never_raises.
Qed.

(** ** The chat window and the turn history *)

(** X5. Whatever the message, the dict and the service, and whether the
    turn raises or not, [process_chat] returns the chat window it was
    given (empty for [None]) with exactly one entry added at the end,
    whose user text is the message; no earlier entry is touched. *)
Theorem chat_window_grows_by_one_entry
    (gemini_client : option client) (repr_list : list turn -> pystr)
    (message : pystr) (history : option (list (pystr * pystr)))
    (state : gmap pystr value) (n : nat) :
  exists reply,
    r_history (fst (process_chat gemini_client repr_list message history
                                 state n))
    = (default [] history ++ [(message, reply)])%list.
Proof.
  pose proof (process_chat_cases gemini_client repr_list message history
                state n) as H.
  cbv zeta in H.
  destruct (turn_exception _ _ _ _ _ _) as [e|].
  - rewrite H. eauto.
  - destruct H as (reply & H & _). eauto.
Qed.

Lemma turn_effect_history message st st' reply l :
  turn_effect message st st' reply ->
  st !! HISTORY_KEY = Some (VList l) ->
  st' = initialize_chat_state
  \/ st' !! HISTORY_KEY = Some (VList l)
  \/ exists u m, st' !! HISTORY_KEY = Some (VList (l ++ [u; m])).
Proof.
  destruct 1 as [ | code l' u m r Hs Hc Hl | | | en l' u m r Hs ? ? Hl
                | en l' u resp m sum r Hs ? Hl | l' q a r Hs Hl | ];
    intros Hl0; try (by left); try (by right; left);
    right; right; rewrite Hl in Hl0; injection Hl0 as ->;
    eexists _, _; lookup_stage; by rewrite <- app_assoc.
Qed.

(** X6. A turn never drops or rewrites an entry of the turn history
    kept for the service: unless the turn installs the initial dict, the
    new list is the old one, or the old one followed by two new
    entries. *)
Theorem turn_history_only_grows
    (gemini_client : option client) (repr_list : list turn -> pystr)
    (message : pystr) (history : option (list (pystr * pystr)))
    (state : gmap pystr value) (n : nat) (l : list turn) :
  state !! HISTORY_KEY = Some (VList l) ->
  let state' :=
    r_state (fst (process_chat gemini_client repr_list message history
                               state n)) in
  state' = initialize_chat_state
  \/ state' !! HISTORY_KEY = Some (VList l)
  \/ exists u m, state' !! HISTORY_KEY = Some (VList (l ++ [u; m])).
Proof.
  intros Hl state'. subst state'.
  destruct (process_chat_effect gemini_client repr_list message history
              state n) as [H|[reply H]]; [by left|].
  by eapply turn_effect_history.
Qed.

Lemma turn_history_only_grows_witness :
  let state := ui_state sample_qna_session in
  let l := match state !! HISTORY_KEY with Some (VList l) => l | _ => [] end in
  let state' :=
    r_state (fst (process_chat (Some echo_client) sample_repr "is it safe?"
                               None state 9)) in
  length l = 6
  /\ (state' = initialize_chat_state
      \/ state' !! HISTORY_KEY = Some (VList l)
      \/ exists u m, state' !! HISTORY_KEY = Some (VList (l ++ [u; m]))).
Proof.
  cbv zeta. split; [vm_compute; reflexivity|].
  apply (turn_history_only_grows (Some echo_client) sample_repr
           "is it safe?" None (ui_state sample_qna_session) 9).
  vm_compute. reflexivity.
Defined.

(** ** The translation adapter and the completion wrapper *)

Lemma is_lang_code_of_table name code :
  In (name, code) LANG_CODES -> is_lang_code code = true.
Proof.
  intros Hin. unfold is_lang_code. apply existsb_exists.
  exists (name, code). split; [done|]. apply pystr_eqb_refl.
Qed.

Lemma gemini_translate_requests gemini_client text src tgt temp n :
  n <= snd (gemini_translate gemini_client text src tgt temp n) <= S n.
Proof.
  unfold gemini_translate.
  repeat match goal with
         | |- context [match ?x with _ => _ end] => destruct x
         end; cbn [snd]; lia.
Qed.

Lemma get_gemini_response_requests gemini_client prompt chat temp n :
  n <= snd (get_gemini_response gemini_client prompt chat temp n) <= S n.
Proof.
  unfold get_gemini_response.
  repeat match goal with
         | |- context [match ?x with _ => _ end] => destruct x
         end; cbn [snd]; lia.
Qed.

(** X7. Between one supported language and itself nothing is
    translated: for every code of [LANG_CODES] and every text that is not
    blank, [gemini_translate] returns the text as it is and makes no
    request, with or without a client. *)
Theorem translate_same_language_is_identity
    (gemini_client : option client) (name code text : pystr)
    (temp : N) (n : nat) :
  In (name, code) LANG_CODES ->
  PyStr.strip text <> "" ->
  gemini_translate gemini_client text (VStr code) (VStr code) temp n
  = (text, n).
Proof.
  intros Hin Hblank. unfold gemini_translate.
  destruct gemini_client as [cl|]; [|done].
  assert (PyStr.truthy text = true) as ->.
  { destruct text; [by cbn in Hblank|done]. }
  apply pystr_eqb_neq in Hblank. rewrite Hblank. cbn [negb orb].
  unfold effective_code. rewrite (is_lang_code_of_table _ _ Hin).
  assert (PyStr.eqb code "auto" = false) as ->.
  { apply pystr_eqb_neq. intros ->.
    apply is_lang_code_of_table in Hin. by vm_compute in Hin. }
  by rewrite pystr_eqb_refl.
Qed.

Lemma translate_same_language_is_identity_witness :
  gemini_translate (Some (failing_client "503")) " Fieber " (VStr "de")
                   (VStr "de") TRANSLATE_TEMP 4
  = (" Fieber ", 4).
Proof.
  apply (translate_same_language_is_identity _ "German"); [|by vm_compute].
  unfold LANG_CODES. cbn. tauto.
Defined.

(** X8. [gemini_translate] makes at most one request and returns in
    every case: with no client the text itself; with a client and a blank
    text the empty string, without a request; and when the one request it
    makes raises, the text itself. *)
Theorem translate_falls_back_to_text
    (gemini_client : option client) (text : pystr) (src tgt : value)
    (temp : N) (n : nat) :
  let r := gemini_translate gemini_client text src tgt temp n in
  (snd r = n \/ snd r = S n)
  /\ (gemini_client = None -> r = (text, n))
  /\ (gemini_client <> None -> PyStr.strip text = "" -> r = ("", n))
  /\ (forall cl e,
        gemini_client = Some cl ->
        snd r = S n ->
        generate_content cl n
          (translation_prompt (effective_code src "auto")
                              (effective_code tgt "en") text) temp
        = Raised e ->
        fst r = text).
Proof.
  cbv zeta. split; [|split; [|split]].
  - pose proof (gemini_translate_requests gemini_client text src tgt temp n).
    lia.
  - by intros ->.
  - intros Hcl Hblank. unfold gemini_translate.
    destruct gemini_client as [cl|]; [|done].
    rewrite Hblank. cbn. by rewrite orb_true_r.
  - intros cl e -> Hmade Hraised. revert Hmade. unfold gemini_translate.
    destruct (_ || _); [cbn; lia|].
    destruct (_ && _); [cbn; lia|].
    by rewrite Hraised.
Qed.

Lemma translate_falls_back_to_text_witness :
  fst (gemini_translate (Some (failing_client "quota exceeded"))
         "fever and cough" (VStr "en") (VStr "fr") TRANSLATE_TEMP 0)
  = "fever and cough".
Proof.
  pose proof (translate_falls_back_to_text
                (Some (failing_client "quota exceeded")) "fever and cough"
                (VStr "en") (VStr "fr") TRANSLATE_TEMP 0) as H.
  cbv zeta in H. destruct H as (_ & _ & _ & H).
  apply (H (failing_client "quota exceeded") "quota exceeded");
    vm_compute; reflexivity.
Defined.

(** Lower-casing reads the text around a character only at a capital
    sigma. *)
Lemma lower_one_no_sigma f c rest :
  c <> PyChar.CAPITAL_SIGMA ->
  PyStr.lower_one f c rest = PyChar.to_lower_full c.
Proof.
  intros Hc. unfold PyStr.lower_one.
  destruct (N.eqb_spec c PyChar.CAPITAL_SIGMA); done.
Qed.

Lemma lower_from_app f a b :
  exists x f', PyStr.lower_from f (a ++ b) = x ++ PyStr.lower_from f' b.
Proof.
  revert f. induction a as [|c a IH]; intros f.
  - by exists [], f.
  - change ((c :: a) ++ b) with (c :: (a ++ b)). cbn [PyStr.lower_from].
    destruct (IH (PyStr.follows_cased_after f c)) as (x & f' & ->).
    eexists _, f'. by rewrite app_assoc.
Qed.

Lemma lower_from_app_no_sigma f w post :
  ~ In PyChar.CAPITAL_SIGMA w ->
  exists f',
    PyStr.lower_from f (w ++ post)
    = flat_map PyChar.to_lower_full w ++ PyStr.lower_from f' post.
Proof.
  revert f. induction w as [|c w IH]; intros f Hw.
  - by exists f.
  - change ((c :: w) ++ post) with (c :: (w ++ post)).
    cbn [PyStr.lower_from flat_map].
    rewrite lower_one_no_sigma by (intros ->; apply Hw; by left).
    destruct (IH (PyStr.follows_cased_after f c)) as (f' & ->).
    + intros H. apply Hw. by right.
    + exists f'. by rewrite app_assoc.
Qed.

Lemma lower_no_sigma w :
  ~ In PyChar.CAPITAL_SIGMA w ->
  PyStr.lower w = flat_map PyChar.to_lower_full w.
Proof.
  intros Hw. unfold PyStr.lower.
  destruct (lower_from_app_no_sigma false w [] Hw) as (f' & H).
  rewrite !app_nil_r in H. exact H.
Qed.

Lemma sigma_in_lower f w :
  In PyChar.CAPITAL_SIGMA w ->
  In PyChar.SMALL_SIGMA (PyStr.lower_from f w)
  \/ In PyChar.SMALL_FINAL_SIGMA (PyStr.lower_from f w).
Proof.
  revert f. induction w as [|c w IH]; intros f; [done|].
  cbn [PyStr.lower_from]. intros [->|Hin].
  - unfold PyStr.lower_one. rewrite N.eqb_refl.
    destruct (_ && _); [right | left]; by left.
  - destruct (IH (PyStr.follows_cased_after f c) Hin) as [H|H];
      [left | right]; apply in_or_app; by right.
Qed.

(** A word without a capital sigma is lower-cased in the same way
    wherever it stands. *)
Lemma lower_inside pre w post :
  ~ In PyChar.CAPITAL_SIGMA w ->
  exists x y, PyStr.lower (pre ++ w ++ post) = x ++ PyStr.lower w ++ y.
Proof.
  intros Hw. unfold PyStr.lower at 1.
  destruct (lower_from_app false pre (w ++ post)) as (x & f' & ->).
  destruct (lower_from_app_no_sigma f' w post Hw) as (f'' & ->).
  rewrite (lower_no_sigma w Hw). eauto.
Qed.

Lemma strip_prefix_app p s : PyStr.strip_prefix p (p ++ s) = Some s.
Proof.
  induction p as [|c p IH]; [by destruct s|].
  change ((c :: p) ++ s) with (c :: (p ++ s)).
  cbn [PyStr.strip_prefix]. by rewrite N.eqb_refl.
Qed.

Lemma contains_app sub a b : PyStr.contains sub (a ++ sub ++ b) = true.
Proof.
  induction a as [|c a IH].
  - change ("" ++ sub ++ b) with (sub ++ b).
    destruct (sub ++ b) eqn:E; cbn [PyStr.contains];
      rewrite <- E, strip_prefix_app; done.
  - change ((c :: a) ++ sub ++ b) with (c :: (a ++ sub ++ b)).
    cbn [PyStr.contains]. rewrite IH. by destruct (PyStr.strip_prefix _ _).
Qed.

(** X9. When the request of [get_gemini_response] raises, the caller
    gets a text and no exception: it starts with "Error" and ends with
    the text of the exception.  An exception text that holds "401", or
    "unauthorized" in any letter case, is reported as an authorization
    failure, also when it mentions a quota. *)
Theorem failed_completion_is_reported_as_text
    (cl : client) (prompt : pystr) (temp : N) (n : nat) (e : pystr) :
  generate_content cl n prompt temp = Raised e ->
  let r := get_gemini_response (Some cl) prompt None temp n in
  snd r = S n
  /\ (exists prefix,
        fst r = prefix ++ e /\ PyStr.strip_prefix "Error" prefix <> None)
  /\ (forall pre w post,
        e = pre ++ w ++ post ->
        w = "401" \/ PyStr.lower w = "unauthorized" ->
        fst r = "Error: Unauthorized. Check your API key. " ++ e).
Proof.
  intros Hraised. cbv zeta. unfold get_gemini_response.
  cbn [map]. rewrite Hraised. cbn [fst snd].
  split; [done|]. split.
  - unfold error_reply.
    destruct (_ || _); [by eexists|].
    destruct (_ || _); by eexists.
  - intros pre w post -> Hw. unfold error_reply.
    assert (~ In PyChar.CAPITAL_SIGMA w) as Hsigma.
    { intros Hin. destruct Hw as [->|Hw].
      - vm_compute in Hin. intuition discriminate.
      - destruct (sigma_in_lower false w Hin) as [H|H];
          unfold PyStr.lower in Hw; rewrite Hw in H;
          vm_compute in H; intuition discriminate. }
    destruct (lower_inside pre w post Hsigma) as (x & y & ->).
    destruct Hw as [->| ->]; rewrite contains_app; cbn [orb]; [done|].
    by rewrite orb_true_r.
Qed.

Lemma failed_completion_is_reported_as_text_witness :
  fst (get_gemini_response
         (Some (failing_client "429 Quota exceeded; 401 Unauthorized"))
         "Simplify this" None RESPONSE_TEMP 3)
  = "Error: Unauthorized. Check your API key. 429 Quota exceeded; 401 Unauthorized".
Proof.
  pose proof (failed_completion_is_reported_as_text
                (failing_client "429 Quota exceeded; 401 Unauthorized")
                "Simplify this" RESPONSE_TEMP 3
                "429 Quota exceeded; 401 Unauthorized") as H.
  destruct H as (_ & _ & H); [reflexivity|].
  apply (H "429 Quota exceeded; 401 " "Unauthorized" "");
    [reflexivity | right; reflexivity].
Defined.

(** ** Requests made in a turn *)

Lemma wp_translate_bounded gemini_client text src tgt s Q :
  (forall a m,
      s_requests s <= m <= S (s_requests s) ->
      (gemini_client = None -> m = s_requests s) ->
      Q (Return a) {| s_history := s_history s; s_state := s_state s;
                      s_requests := m |}) ->
  wp (translate gemini_client text src tgt) s Q.
Proof.
  intros H. unfold translate. apply wp_request_exact.
  apply H; [apply gemini_translate_requests|].
  by intros ->.
Qed.

Lemma wp_respond_bounded gemini_client prompt s Q :
  (forall a m,
      s_requests s <= m <= S (s_requests s) ->
      (gemini_client = None -> m = s_requests s) ->
      Q (Return a) {| s_history := s_history s; s_state := s_state s;
                      s_requests := m |}) ->
  wp (respond gemini_client prompt) s Q.
Proof.
  intros H. unfold respond. apply wp_request_exact.
  apply H; [apply get_gemini_response_requests|].
  by intros ->.
Qed.

(** Stepping while counting the requests. *)
Ltac wp_count_step :=
  lazymatch goal with
  | |- wp (bind _ _) _ _ => apply wp_bind
  | |- wp (ret _) _ _ => apply wp_ret
  | |- wp (raise _) _ _ => apply wp_raise
  | |- wp (state_item _) _ _ => apply wp_state_item; [intros ? _ | intros _]
  | |- wp (state_get _ _) _ _ => apply wp_state_get
  | |- wp (state_set _ _) _ _ => apply wp_state_set
  | |- wp state_reset _ _ => apply wp_state_reset
  | |- wp (show_reply _ _) _ _ => apply wp_show_reply
  | |- wp (translate _ _ _ _) _ _ => apply wp_translate_bounded; intros ? ? ? ?
  | |- wp (respond _ _) _ _ => apply wp_respond_bounded; intros ? ? ? ?
  | |- wp (history_append _) _ _ =>
      apply wp_history_append; [intros ? _ | intros ? _]
  | |- wp (expect_str _) _ _ => unfold expect_str
  | |- wp (if ?b then _ else _) _ _ => destruct b
  | |- wp (match ?x with _ => _ end) _ _ => destruct x
  end;
  cbv beta iota; cbn [s_state s_history s_requests] in *.

Section Requests.

Variable gemini_client : option client.
Variable repr_list : list turn -> pystr.

Ltac count_done :=
  unfold requests_within; cbn [s_requests];
  split; [lia | intros Hnone;
                repeat match goal with
                       | H : gemini_client = None -> _ |- _ =>
                           specialize (H Hnone)
                       end; lia].

Lemma message_in_english_requests message user_lang_code h st n :
  wp (message_in_english gemini_client message user_lang_code)
     {| s_history := h; s_state := st; s_requests := n |}
     (fun o s' => s_history s' = h /\ s_state s' = st
                  /\ (exists x, o = Return x)
                  /\ requests_within gemini_client n 1 o s').
Proof.
  unfold message_in_english.
  repeat wp_count_step; (split; [done|split; [done|split; [eauto|]]]);
    count_done.
Qed.

Lemma previous_summary_requests user_lang_code h st n :
  wp (previous_summary gemini_client repr_list user_lang_code)
     {| s_history := h; s_state := st; s_requests := n |}
     (fun o s' => s_history s' = h /\ s_state s' = st
                  /\ requests_within gemini_client n 10 o s').
Proof.
  unfold previous_summary.
  repeat wp_count_step; (split; [done|split; [done|]]); count_done.
Qed.

Lemma stage_branch_requests stage message user_lang_code user_message_en
    sums h st n :
  wp (stage_branch gemini_client repr_list stage message user_lang_code
                   user_message_en sums)
     {| s_history := h; s_state := st; s_requests := n |}
     (requests_within gemini_client n 17).
Proof.
  unfold stage_branch, ask_language, ask_symptoms, ask_allergies, general_qna.
  repeat wp_count_step; count_done.
Qed.

Lemma process_chat_body_requests message h st n :
  wp (process_chat_body gemini_client repr_list message)
     {| s_history := h; s_state := st; s_requests := n |}
     (requests_within gemini_client n 28).
Proof.
  unfold process_chat_body.
  wp_count_step. wp_count_step; [|count_done].
  wp_count_step. wp_count_step. wp_count_step.
  eapply wp_mono; [apply message_in_english_requests|].
  intros o [h1 st1 n1] (Hh & Hst & [x ->] & Hn1 & Hz1).
  cbn [s_history s_state s_requests] in *. subst h1 st1.
  wp_count_step.
  eapply wp_mono; [apply previous_summary_requests|].
  intros [sums|e] [h2 st2 n2] (Hh & Hst & Hn2 & Hz2);
    cbn [s_history s_state s_requests] in *; subst h2 st2;
    [|count_done].
  wp_count_step.
  eapply wp_mono; [apply stage_branch_requests|].
  intros [after|e] [h3 st3 n3] [Hn3 Hz3];
    cbn [s_history s_state s_requests] in *;
    repeat wp_count_step; count_done.
Qed.

End Requests.

(** X10. One call of [process_chat] makes at most 28 requests to the
    service, whatever the stage, the message and the answers; the count
    of requests never goes down. *)
Theorem turn_makes_at_most_28_requests
    (gemini_client : option client) (repr_list : list turn -> pystr)
    (message : pystr) (history : option (list (pystr * pystr)))
    (state : gmap pystr value) (n : nat) :
  n <= snd (process_chat gemini_client repr_list message history state n)
    <= n + 28.
Proof.
  unfold process_chat.
  pose proof (process_chat_body_requests gemini_client repr_list message
                (default [] history ++ [(message, "")])%list state n) as H.
  unfold wp, requests_within in H.
  destruct (process_chat_body _ _ _ _) as [[[es ts]|e] s']; cbn in *; lia.
Qed.

(** X11. Without a client ([gemini_client] is [None]) a call of
    [process_chat] makes no request at all, in any stage. *)
Theorem no_client_no_request
    (repr_list : list turn -> pystr)
    (message : pystr) (history : option (list (pystr * pystr)))
    (state : gmap pystr value) (n : nat) :
  snd (process_chat None repr_list message history state n) = n.
Proof.
  unfold process_chat.
  pose proof (process_chat_body_requests None repr_list message
                (default [] history ++ [(message, "")])%list state n) as H.
  unfold wp, requests_within in H.
  destruct (process_chat_body _ _ _ _) as [[[es ts]|e] s']; cbn in *;
    by apply H.
Qed.

(** ** Choosing the language *)

Lemma assoc_In k v l : assoc k l = Some v -> In (k, v) l.
Proof.
  induction l as [|[k' v'] l IH]; [done|]. cbn [assoc].
  destruct (PyStr.eqb k k') eqn:E.
  - apply pystr_eqb_eq in E as ->. intros [= ->]. by left.
  - intros H. right. by apply IH.
Qed.

(** ** Collecting the symptoms *)

(** X13. In the AskSymptoms stage, on a dict of the initial shape with a
    language code set: a blank message changes nothing in the dict, so
    the stage stays AskSymptoms; any other message stores its trimmed
    text as [symptoms_user_lang], moves the stage to AskAllergies, and
    leaves every key but those two, [symptoms_en] and the turn history as
    it was. *)
Theorem blank_symptoms_are_asked_again
    (gemini_client : option client) (repr_list : list turn -> pystr)
    (message : pystr) (history : option (list (pystr * pystr)))
    (state : gmap pystr value) (n : nat) :
  state !! "stage" = Some (VStr CHAT_STAGE_ASK_SYMPTOMS) ->
  well_formed state = true ->
  truthy (default EN (state !! "lang_code")) = true ->
  let r := fst (process_chat gemini_client repr_list message history state n) in
  (PyStr.strip message = "" -> r_state r = state)
  /\ (PyStr.strip message <> "" ->
      r_state r !! "symptoms_user_lang" = Some (VStr (PyStr.strip message))
      /\ r_state r !! "stage" = Some (VStr CHAT_STAGE_ASK_ALLERGIES)
      /\ forall key,
          key <> "symptoms_user_lang" -> key <> "symptoms_en" ->
          key <> "stage" -> key <> HISTORY_KEY ->
          r_state r !! key = state !! key).
Proof.
  intros Hstage Hwf Hlang r. subst r.
  pose proof (well_formed_never_raises gemini_client repr_list message
                history state n Hwf) as Hok.
  destruct (process_chat_returns _ _ _ _ _ _ Hok) as (reply & Hh & Heff).
  destruct Heff as [ Hs Hnone | code' l u m r Hs Hcode | [Hs|Hs] Hfalse
                   | r Hs _ Hblank | en l u m r Hs _ Hfull
                   | en l u resp m sum r Hs | l q a r Hs
                   | stage Hs Hne ];
    try (rewrite Hstage in Hs; discriminate);
    try congruence.
  - split; [done|]. intros Hne. by destruct (PyStr.strip message).
  - split.
    + intros Hb. by rewrite Hb in Hfull.
    + intros _. split; [by lookup_stage|]. split; [by lookup_stage|].
      intros key ? ? ? ?. by rewrite !lookup_insert_ne.
Qed.

Lemma blank_symptoms_are_asked_again_witness :
  let state :=
    ui_state (replay None sample_repr [Send "hindi"] (initial_session 0)) in
  r_state (fst (process_chat None sample_repr "   " None state 0)) = state.
Proof.
  pose proof (blank_symptoms_are_asked_again None sample_repr "   " None
                (ui_state (replay None sample_repr [Send "hindi"]
                             (initial_session 0))) 0) as H.
  cbv zeta in H.
  destruct H as [H _];
    [vm_compute; reflexivity | vm_compute; reflexivity | reflexivity|].
  by apply H.
Defined.

(** ** The export renderer *)

Lemma append_snoc_cons (a : pystr) c s : (a ++ [c]) ++ s = a ++ (c :: s).
Proof. by rewrite <- app_assoc. Qed.

(** [split(":", 1)] cuts at the first colon. *)
Lemma split_once_go_colon cur s :
  PyStr.split_once_go ":" cur s
  = match colon_offset s with
    | Some i => [rev cur ++ PyStr.take i s; PyStr.drop (S i) s]
    | None => [rev cur ++ s]
    end.
Proof.
  unfold colon_offset. revert cur.
  induction s as [|c s IH]; intros cur.
  - cbn. by rewrite app_nil_r.
  - cbn [PyStr.split_once_go PyStr.strip_prefix first_offset starts_with_colon].
    rewrite (N.eqb_sym 58 c).
    destruct (c =? 58)%N eqn:E.
    + cbn. by rewrite app_nil_r.
    + rewrite IH. cbn [rev].
      destruct (first_offset starts_with_colon s) as [i|]; cbn;
        by rewrite append_snoc_cons.
Qed.

Lemma section_calls_draw chunk :
  section_calls chunk
  = if is_blank chunk then [] else draw_section (section_of_chunk chunk).
Proof.
  unfold section_calls, is_blank, section_of_chunk, _sanitize_text.
  destruct (PyStr.strip chunk) eqn:E; [done|].
  cbn [PyStr.truthy negb PyStr.eqb].
  unfold PyStr.split_once. rewrite split_once_go_colon.
  by destruct (colon_offset chunk).
Qed.

Lemma flat_map_section_calls chunks :
  flat_map section_calls chunks
  = flat_map draw_section
      (map section_of_chunk
           (filter (fun chunk => negb (is_blank chunk)) chunks)).
Proof.
  induction chunks as [|chunk chunks IH]; [done|].
  cbn [flat_map]. rewrite IH, section_calls_draw.
  rewrite filter_cons. destruct (is_blank chunk); cbn; done.
Qed.

(** X14. For a stored summary that is a non-empty string,
    [generate_pdf_report] makes these calls on the document: the title
    and the language line; then, for each chunk between "###" markers
    that is not blank, in order, a bold title line and a body when the
    chunk has a colon (the title is the trimmed text before the first
    colon, with the colon put back; the body the trimmed text after it),
    else the chunk itself as a body; then the disclaimer and the output.
    It returns the fixed path when FPDF carries them out, else
    [None]. *)
Theorem report_is_drawn_section_by_section
    (repr_list : list turn -> pystr) (fpdf : list pdf_call -> bool)
    (state : gmap pystr value) (summary : pystr) :
  state !! "translated_summary" = Some (VStr summary) ->
  summary <> "" ->
  generate_pdf_report repr_list fpdf state
  = if fpdf (report_prologue
               (py_str repr_list
                       (default (VStr "English") (state !! "language")))
             ++ flat_map draw_section (sections_of_summary summary)
             ++ report_epilogue)%list
    then Some PDF_OUTPUT_PATH
    else None.
Proof.
  intros Hsum Hne. unfold generate_pdf_report. rewrite Hsum.
  cbn [default from_option id truthy].
  destruct summary; [done|]. cbn [PyStr.truthy negb].
  unfold report_calls, sections_of_summary.
  by rewrite flat_map_section_calls.
Qed.

Lemma report_is_drawn_section_by_section_witness :
  let summary :=
    "### Symptoms:" ++ PyStr.nl ++ "fever" ++ PyStr.nl ++ PyStr.nl
    ++ "### Diagnosis: flu: mild" ++ PyStr.nl in
  generate_pdf_report sample_repr (fun _ => true)
    (<["translated_summary" := VStr summary]> initialize_chat_state)
  = Some PDF_OUTPUT_PATH
  /\ flat_map draw_section (sections_of_summary summary)
     = [set_font "Arial" "B" 12; cell 0 10 "Symptoms:" 0 1 "L";
        set_font "Arial" "" 10; multi_cell 0 5 "fever"; ln 5;
        set_font "Arial" "B" 12; cell 0 10 "Diagnosis:" 0 1 "L";
        set_font "Arial" "" 10; multi_cell 0 5 "flu: mild"; ln 5].
Proof.
  cbv zeta. split; [|vm_compute; reflexivity].
  rewrite (report_is_drawn_section_by_section sample_repr (fun _ => true) _
             ("### Symptoms:" ++ PyStr.nl ++ "fever" ++ PyStr.nl ++ PyStr.nl
              ++ "### Diagnosis: flu: mild" ++ PyStr.nl));
    [reflexivity | reflexivity | discriminate].
Defined.

(** X15. [generate_pdf_report] returns [None] whenever the dict holds no
    summary text: the key is absent, or holds [None], the empty string or
    a list (on which [split] raises inside the [try]); and whatever the
    dict and FPDF do, it returns [None] or the one fixed path. *)
Theorem no_summary_no_report
    (repr_list : list turn -> pystr) (fpdf : list pdf_call -> bool)
    (state : gmap pystr value) :
  ((forall s, state !! "translated_summary" = Some (VStr s) -> s = "") ->
   generate_pdf_report repr_list fpdf state = None)
  /\ (generate_pdf_report repr_list fpdf state = None
      \/ generate_pdf_report repr_list fpdf state = Some PDF_OUTPUT_PATH).
Proof.
  unfold generate_pdf_report. split.
  - intros H. destruct (state !! "translated_summary") as [[|s|l]|];
      cbn [default from_option id truthy]; try done.
    + by rewrite (H s eq_refl).
    + by destruct l.
  - destruct (negb _); [by left|].
    destruct (default _ _); try (by left).
    destruct (fpdf _); eauto.
Qed.

Lemma no_summary_no_report_witness :
  generate_pdf_report sample_repr (fun _ => true) initialize_chat_state = None.
Proof.
  apply (no_summary_no_report sample_repr (fun _ => true)
           initialize_chat_state).
  intros s H. vm_compute in H. discriminate.
Defined.

(** ** From the diagnosis to the report *)

Section Summary.

Variable gemini_client : option client.
Variable repr_list : list turn -> pystr.

(** A turn leaves the stored summary alone or stores one that starts
    with a heading marker. *)
Lemma stage_branch_summary stage message user_lang_code user_message_en
    sums h st n :
  wp (stage_branch gemini_client repr_list stage message user_lang_code
                   user_message_en sums)
     {| s_history := h; s_state := st; s_requests := n |}
     (fun o s' =>
        match o with
        | Return _ =>
            s_state s' = initialize_chat_state
            \/ s_state s' !! "translated_summary" = st !! "translated_summary"
            \/ exists rest,
                s_state s' !! "translated_summary"
                = Some (VStr ("### " ++ rest))
        | Raise _ => True
        end).
Proof.
  unfold stage_branch, ask_language, ask_symptoms, ask_allergies, general_qna.
  wp_run; try done;
    first [ by left
          | right; left; by lookup_stage
          | right; right; eexists; by lookup_stage ].
Qed.

Lemma process_chat_summary message history st n :
  let st' :=
    r_state (fst (process_chat gemini_client repr_list message history st n)) in
  st' = initialize_chat_state
  \/ st' !! "translated_summary" = st !! "translated_summary"
  \/ exists rest, st' !! "translated_summary" = Some (VStr ("### " ++ rest)).
Proof.
  cbv zeta. unfold process_chat.
  assert (wp (process_chat_body gemini_client repr_list message)
             {| s_history := (default [] history ++ [(message, "")])%list;
                s_state := st; s_requests := n |}
             (fun o s' =>
                match o with
                | Return _ =>
                    s_state s' = initialize_chat_state
                    \/ s_state s' !! "translated_summary"
                       = st !! "translated_summary"
                    \/ exists rest,
                        s_state s' !! "translated_summary"
                        = Some (VStr ("### " ++ rest))
                | Raise _ => True
                end)) as H.
  { apply wp_process_chat_body; cbn [s_state s_history]; try done.
    intros stage user_message_en summaries n' Hstage.
    wp_step. eapply wp_mono; [by apply stage_branch_summary|].
    intros [after|e] s' H; [|done]. by wp_run. }
  unfold wp in H.
  destruct (process_chat_body _ _ _ _) as [[[es ts]|e] s']; cbn in *;
    [done | by left].
Qed.

Lemma turn_effect_summary_ready message st st' reply :
  turn_effect message st st' reply ->
  (st' = initialize_chat_state
   \/ st' !! "translated_summary" = st !! "translated_summary"
   \/ exists rest, st' !! "translated_summary" = Some (VStr ("### " ++ rest))) ->
  summary_ready st -> summary_ready st'.
Proof.
  unfold summary_ready.
  intros Heff Hsum Hready.
  destruct Hsum as [->|Hsum]; [by right|].
  destruct Heff as [ Hs Hnone | code' l u m r Hs Hcode | [Hs|Hs] Hfalse
                   | r Hs _ Hblank | en l u m r Hs _ Hfull
                   | en l u resp m sum r Hs | l q a r Hs
                   | stage Hs Hne ];
    try done; try (by right).
  all: revert Hsum; lookup_stage; intros Hsum.
  - right. split; [done|].
    destruct Hready as [[Hq _]|[_ Hnone]]; [|done].
    rewrite Hs in Hq. discriminate.
  - right. split; [done|].
    destruct Hready as [[Hq _]|[_ Hnone]]; [|done].
    rewrite Hs in Hq. discriminate.
  - left. split; [done|].
    destruct Hsum as [Hsum|Hsum]; [|done].
    destruct Hready as [[Hq _]|[_ Hnone]].
    + rewrite Hs in Hq. discriminate.
    + rewrite Hnone in Hsum. discriminate.
  - exact Hready.
Qed.

Lemma handle_summary_ready ev s :
  summary_ready (ui_state s) ->
  summary_ready (ui_state (handle gemini_client repr_list ev s)).
Proof.
  intros Hready. destruct ev as [message|]; [|by right].
  unfold handle.
  pose proof (process_chat_effect gemini_client repr_list message
                (Some (ui_history s)) (ui_state s) (ui_requests s)) as Heff.
  pose proof (process_chat_summary message (Some (ui_history s)) (ui_state s)
                (ui_requests s)) as Hsum.
  cbv zeta in Hsum.
  destruct (process_chat _ _ _ _ _ _) as [r n]. cbn [fst ui_state] in *.
  destruct Heff as [->|[reply Heff]]; [by right|].
  by eapply turn_effect_summary_ready.
Qed.

End Summary.

Lemma trace_Forall gemini_client repr_list (I : session -> Prop) :
  (forall ev s, I s -> I (handle gemini_client repr_list ev s)) ->
  forall evs s, I s -> Forall I (trace gemini_client repr_list evs s).
Proof.
  intros HI evs. induction evs as [|ev evs IH]; intros s Hs; cbn [trace].
  - by constructor.
  - constructor; [done|]. by apply IH, HI.
Qed.

(** X16. From the start of a session, along every sequence of turns and
    new-consultation clicks, with any service: as long as the stage is
    not GeneralQnA the dict holds no summary and [generate_pdf_report]
    returns [None]; once the stage is GeneralQnA the dict holds a summary
    that starts with a heading marker, and [generate_pdf_report] returns
    the path of the file whenever FPDF does not fail. *)
Theorem report_is_available_from_general_qna
    (gemini_client : option client) (repr_list : list turn -> pystr)
    (evs : list event) (n : nat) :
  Forall
    (fun s =>
       (ui_state s !! "stage" <> Some (VStr CHAT_STAGE_GENERAL_QNA) ->
        ui_state s !! "translated_summary" = None
        /\ forall fpdf, generate_pdf_report repr_list fpdf (ui_state s) = None)
       /\ (ui_state s !! "stage" = Some (VStr CHAT_STAGE_GENERAL_QNA) ->
           (exists rest,
               ui_state s !! "translated_summary"
               = Some (VStr ("### " ++ rest)))
           /\ forall fpdf,
               (forall calls, fpdf calls = true) ->
               generate_pdf_report repr_list fpdf (ui_state s)
               = Some PDF_OUTPUT_PATH))
    (trace gemini_client repr_list evs (initial_session n)).
Proof.
  eapply Forall_impl.
  - apply trace_Forall with (I := fun s => summary_ready (ui_state s)).
    + apply handle_summary_ready.
    + by right.
  - intros s [[Hq [rest Hrest]]|[Hq Hnone]]; cbv beta; split; try done.
    + intros _. split; [eauto|]. intros fpdf Hfpdf.
      unfold generate_pdf_report. rewrite Hrest. cbn. by rewrite Hfpdf.
    + intros _. split; [done|]. intros fpdf.
      unfold generate_pdf_report. by rewrite Hnone.
Qed.

(** ** The language of a session *)

Lemma turn_effect_language_chosen message st st' reply :
  turn_effect message st st' reply ->
  language_chosen st -> language_chosen st'.
Proof.
  unfold language_chosen. intros Heff Hinv.
  destruct Heff as [ Hs Hnone | code' l u m r Hs Hcode | [Hs|Hs] Hfalse
                   | r Hs _ Hblank | en l u m r Hs _ Hfull
                   | en l u resp m sum r Hs | l q a r Hs
                   | stage Hs Hne ];
    try done; try (by left); lookup_stage.
  - right. split; [done|]. apply assoc_In in Hcode. eauto.
  - right. split; [done|].
    destruct Hinv as [[Hl _]|[_ Hinv]]; [|done].
    rewrite Hs in Hl. discriminate.
  - right. split; [done|].
    destruct Hinv as [[Hl _]|[_ Hinv]]; [|done].
    rewrite Hs in Hl. discriminate.
  - exact Hinv.
Qed.

(** X17. From the start of a session, along every sequence of turns
    and new-consultation clicks, with any service: in the AskLanguage
    stage [language] and [lang_code] are [None]; in every other stage
    they hold a name of [LANG_CODES] and the code of that name.  So the
    "Language not set" branches of AskSymptoms and AskAllergies are never
    taken in a session. *)
Theorem language_is_a_table_entry_after_ask_language
    (gemini_client : option client) (repr_list : list turn -> pystr)
    (evs : list event) (n : nat) :
  Forall
    (fun s =>
       language_chosen (ui_state s)
       /\ (ui_state s !! "stage" <> Some (VStr CHAT_STAGE_ASK_LANGUAGE) ->
           truthy (default EN (ui_state s !! "lang_code")) = true))
    (trace gemini_client repr_list evs (initial_session n)).
Proof.
  eapply Forall_impl.
  - apply trace_Forall with (I := fun s => language_chosen (ui_state s)).
    + intros ev s Hs.
      destruct (handle_effect gemini_client repr_list ev s)
        as [->|(m & r & H)]; [by left|].
      by eapply turn_effect_language_chosen.
    + by left.
  - intros s Hs. split; [done|]. intros Hstage.
    destruct Hs as [[Hl _]|(_ & name & code & Hin & _ & ->)]; [done|].
    cbn. destruct code; [|done].
    apply is_lang_code_of_table in Hin. by vm_compute in Hin.
Qed.

(** ** Collecting the allergies *)

(** X18. In the AskAllergies stage, on a dict of the initial shape with
    a language code set, every message is taken as the allergy statement,
    a blank one too: its trimmed text is stored as
    [allergies_user_lang], the full response is stored as a string, a
    summary is stored, and the stage is GeneralQnA when the turn ends. *)
Theorem any_allergy_statement_is_accepted
    (gemini_client : option client) (repr_list : list turn -> pystr)
    (message : pystr) (history : option (list (pystr * pystr)))
    (state : gmap pystr value) (n : nat) :
  state !! "stage" = Some (VStr CHAT_STAGE_ASK_ALLERGIES) ->
  well_formed state = true ->
  truthy (default EN (state !! "lang_code")) = true ->
  let r := fst (process_chat gemini_client repr_list message history state n) in
  r_state r !! "stage" = Some (VStr CHAT_STAGE_GENERAL_QNA)
  /\ r_state r !! "allergies_user_lang" = Some (VStr (PyStr.strip message))
  /\ (exists response,
        r_state r !! "drug_concept_full_en" = Some (VStr response))
  /\ (exists summary,
        r_state r !! "translated_summary" = Some (VStr summary))
  /\ r_state r !! "language" = state !! "language"
  /\ r_state r !! "lang_code" = state !! "lang_code"
  /\ r_state r !! "symptoms_user_lang" = state !! "symptoms_user_lang"
  /\ r_state r !! "symptoms_en" = state !! "symptoms_en".
Proof.
  intros Hstage Hwf Hlang r. subst r.
  pose proof (well_formed_never_raises gemini_client repr_list message
                history state n Hwf) as Hok.
  destruct (process_chat_returns _ _ _ _ _ _ Hok) as (reply & Hh & Heff).
  destruct Heff as [ Hs Hnone | code' l u m r Hs Hcode | [Hs|Hs] Hfalse
                   | r Hs _ Hblank | en l u m r Hs _ Hfull
                   | en l u resp m sum r Hs | l q a r Hs
                   | stage Hs Hne ];
    try (rewrite Hstage in Hs; discriminate);
    try congruence.
  lookup_stage. repeat split; eauto.
Qed.

Lemma any_allergy_statement_is_accepted_witness :
  let state :=
    ui_state (replay None sample_repr [Send "hindi"; Send "bukhar"]
                     (initial_session 0)) in
  let r := fst (process_chat None sample_repr "   " None state 0) in
  r_state r !! "stage" = Some (VStr CHAT_STAGE_GENERAL_QNA)
  /\ r_state r !! "allergies_user_lang" = Some (VStr "").
Proof.
  pose proof (any_allergy_statement_is_accepted None sample_repr "   " None
                (ui_state (replay None sample_repr
                             [Send "hindi"; Send "bukhar"]
                             (initial_session 0))) 0) as H.
  cbv zeta in H.
  destruct H as (H1 & H2 & _);
    [vm_compute; reflexivity | vm_compute; reflexivity | reflexivity|].
  split; [exact H1 | exact H2].
Defined.

(** ** The download helper *)

(** X20. The click on the download button in Colab hands at most one
    file to the browser, and only the report just written, when it is
    there; it hands nothing over and returns [None] when the dict holds
    no summary text.  Outside Colab [download_pdf_in_colab] downloads
    nothing and returns its argument. *)
Theorem colab_downloads_only_a_written_report
    (repr_list : list turn -> pystr) (fpdf : list pdf_call -> bool)
    (path_exists : pystr -> bool) (state : gmap pystr value)
    (pdf_path : option pystr) :
  (colab_download_click repr_list fpdf path_exists state
   = (generate_pdf_report repr_list fpdf state, [])
   \/ (colab_download_click repr_list fpdf path_exists state
       = (Some DOWNLOADED, [PDF_OUTPUT_PATH])
       /\ path_exists PDF_OUTPUT_PATH = true
       /\ generate_pdf_report repr_list fpdf state = Some PDF_OUTPUT_PATH))
  /\ ((forall s, state !! "translated_summary" = Some (VStr s) -> s = "") ->
      colab_download_click repr_list fpdf path_exists state = (None, []))
  /\ download_pdf_in_colab false path_exists pdf_path = (pdf_path, []).
Proof.
  unfold colab_download_click. split; [|split].
  - unfold generate_pdf_report.
    destruct (negb _); [by left|].
    destruct (default _ _); try (by left).
    destruct (fpdf _); [|by left].
    unfold download_pdf_in_colab. cbn [andb PyStr.truthy PDF_OUTPUT_PATH].
    destruct (path_exists _) eqn:E; [by right | by left].
  - intros H. unfold generate_pdf_report.
    destruct (state !! "translated_summary") as [[|s|l]|];
      cbn [default from_option id truthy]; try done.
    + by rewrite (H s eq_refl).
    + by destruct l.
  - by destruct pdf_path.
Qed.

(** ** Reading the case tables backwards *)







(** ** The runner script *)





(** ** An English-speaking session *)





Section English.

Variable gemini_client : option client.
Variable repr_list : list turn -> pystr.




End English.



(** ** A diagnosis turn with the completion service down *)

Lemma respond_fails gemini_client failure prompt n :
  completion_fails gemini_client failure ->
  fst (get_gemini_response gemini_client prompt None RESPONSE_TEMP n) = failure.
Proof.
  unfold completion_fails, get_gemini_response.
  destruct gemini_client as [cl|]; [|by intros ->].
  intros (e & -> & H). cbn [map]. by rewrite H.
Qed.

Lemma wp_respond_fails gemini_client failure prompt s Q :
  completion_fails gemini_client failure ->
  (forall m, Q (Return failure)
               {| s_history := s_history s; s_state := s_state s;
                  s_requests := m |}) ->
  wp (respond gemini_client prompt) s Q.
Proof.
  intros Hfail H. unfold respond. apply wp_request_exact.
  rewrite (respond_fails _ _ _ _ Hfail). apply H.
Qed.

(** Stepping with the exact results of the translations. *)
Ltac wp_exact_step Hfail :=
  lazymatch goal with
  | |- wp (bind _ _) _ _ => apply wp_bind
  | |- wp (ret _) _ _ => apply wp_ret
  | |- wp (state_item _) _ _ => eapply wp_state_item_some; [solve_lookup|]
  | |- wp (state_get _ _) _ _ => apply wp_state_get
  | |- wp (state_set _ _) _ _ => apply wp_state_set
  | |- wp (show_reply _ _) _ _ => apply wp_show_reply
  | |- wp (translate _ _ _ _) _ _ => apply wp_request_exact
  | |- wp (respond _ _) _ _ =>
      eapply wp_respond_fails; [exact Hfail | intros ?]
  | |- wp (history_append _) _ _ =>
      eapply wp_history_append_list; [solve_lookup|]
  end;
  cbv beta iota; cbn [s_state s_history s_requests] in *.

Lemma headers_absent_not_found text :
  header_offset DIAGNOSIS_HEADER text = None ->
  header_offset DRUG_HEADER text = None ->
  header_offset DOSAGE_HEADER text = None ->
  header_offset SAFETY_HEADER text = None ->
  extract_fields text
  = {| diagnosis := NOT_FOUND; drug_concept := NOT_FOUND;
       dosage := NOT_FOUND; safety := NOT_FOUND |}.
Proof.
  intros H1 H2 H3 H4. rewrite extract_fields_rule. unfold field_by_rule.
  by rewrite H1, H2, H3, H4.
Qed.

Section Down.

Variable gemini_client : option client.
Variable repr_list : list turn -> pystr.

Lemma ask_allergies_with_service_down failure message user_lang_code
    user_message_en sums base r0 st n symptoms :
  completion_fails gemini_client failure ->
  well_formed st = true ->
  st !! "symptoms_en" = Some symptoms ->
  truthy user_lang_code = true ->
  wp (ask_allergies gemini_client repr_list message user_lang_code
                    user_message_en sums)
     {| s_history := (base ++ [(message, r0)])%list; s_state := st;
        s_requests := n |}
     (fun o s' =>
        exists after m r,
          o = Return after
          /\ s_history s' = (base ++ [(message, r)])%list
          /\ bot_response_user_lang after
             = fst (gemini_translate gemini_client failure EN user_lang_code
                                     TRANSLATE_TEMP m)
          /\ english_summary after
             = english_summary_of (py_str repr_list symptoms) user_message_en
                                  failure failure failure failure
          /\ s_state s' !! "drug_concept_full_en" = Some (VStr failure)
          /\ s_state s' !! "stage" = Some (VStr CHAT_STAGE_GENERAL_QNA)).
Proof.
  intros Hfail (_ & [l Hl] & Hkeys)%well_formed_lookups Hsym Hlang.
  unfold TEXT_KEYS in Hkeys.
  repeat match goal with
         | H : Forall _ (_ :: _) |- _ =>
             apply Forall_cons in H as [(? & ? & _) H]
         end.
  clear Hkeys.
  unfold ask_allergies. rewrite Hlang. cbn [negb].
  repeat wp_exact_step Hfail.
  rewrite with_last_reply_snoc.
  eexists _, _, _. split; [reflexivity|]. split; [reflexivity|].
  cbn [bot_response_user_lang english_summary].
  split; [reflexivity|]. split; [reflexivity|].
  split; by lookup_stage.
Qed.

End Down.

(** X24. A diagnosis turn with the completion service down (no client,
    or every completion request raising one exception) is not aborted:
    the failure text that [get_gemini_response] returns is stored as the
    full response and shown, translated, as the bot reply; the stage
    becomes GeneralQnA; and each of the four fields of the English
    summary is that failure text, which comes from its own failed
    simplification call.  The four fields extracted from a failure text
    that holds no header are all "Not found". *)
Theorem diagnosis_turn_survives_service_failure
    (gemini_client : option client) (repr_list : list turn -> pystr)
    (failure message : pystr) (history : option (list (pystr * pystr)))
    (state : gmap pystr value) (n : nat) :
  completion_fails gemini_client failure ->
  state !! "stage" = Some (VStr CHAT_STAGE_ASK_ALLERGIES) ->
  well_formed state = true ->
  truthy (default EN (state !! "lang_code")) = true ->
  let r := fst (process_chat gemini_client repr_list message history state n) in
  r_state r !! "drug_concept_full_en" = Some (VStr failure)
  /\ r_state r !! "stage" = Some (VStr CHAT_STAGE_GENERAL_QNA)
  /\ (exists m,
        r_history r
        = (default [] history
           ++ [(message,
                fst (gemini_translate gemini_client failure EN
                       (default EN (state !! "lang_code"))
                       TRANSLATE_TEMP m))])%list)
  /\ (exists symptoms allergies,
        r_english_summary r
        = english_summary_of symptoms allergies
                             failure failure failure failure)
  /\ (header_offset DIAGNOSIS_HEADER failure = None ->
      header_offset DRUG_HEADER failure = None ->
      header_offset DOSAGE_HEADER failure = None ->
      header_offset SAFETY_HEADER failure = None ->
      extract_fields failure
      = {| diagnosis := NOT_FOUND; drug_concept := NOT_FOUND;
           dosage := NOT_FOUND; safety := NOT_FOUND |}).
Proof.
  intros Hfail Hstage Hwf Hlang r. subst r.
  assert (wp (process_chat_body gemini_client repr_list message)
             {| s_history := (default [] history ++ [(message, "")])%list;
                s_state := state; s_requests := n |}
             (fun o s' =>
                exists es ts m symptoms allergies,
                  o = Return (es, ts)
                  /\ s_history s'
                     = (default [] history
                        ++ [(message,
                             fst (gemini_translate gemini_client failure EN
                                    (default EN (state !! "lang_code"))
                                    TRANSLATE_TEMP m))])%list
                  /\ es = english_summary_of symptoms allergies
                                             failure failure failure failure
                  /\ s_state s' !! "drug_concept_full_en"
                     = Some (VStr failure)
                  /\ s_state s' !! "stage"
                     = Some (VStr CHAT_STAGE_GENERAL_QNA))) as H.
  { pose proof (well_formed_lookups _ Hwf) as (_ & _ & Hkeys).
    apply wp_process_chat_body; cbn [s_state s_history].
    - congruence.
    - intros e' n' l Hl. exfalso.
      apply Forall_forall with (x := "drug_concept_full_en") in Hkeys
        as (v & Hv & Hok); [|unfold TEXT_KEYS; set_solver].
      rewrite Hl in Hv. by simplify_eq.
    - intros stage user_message_en summaries n' Hstage'.
      rewrite Hstage in Hstage'. injection Hstage' as <-.
      apply Forall_forall with (x := "symptoms_en") in Hkeys
        as (symptoms & Hsym & _); [|unfold TEXT_KEYS; set_solver].
      unfold stage_branch.
      rewrite !bool_decide_eq_false_2 by done.
      rewrite bool_decide_eq_true_2 by done.
      wp_step.
      eapply wp_mono;
        [by eapply ask_allergies_with_service_down|].
      intros o s' (after & m & r & -> & Hh & Hreply & Hes & Hdrug & Hst).
      wp_run. rewrite Hh, with_last_reply_snoc, Hreply, Hes.
      by eexists _, _, _, _, _. }
  unfold process_chat. unfold wp in H.
  destruct (process_chat_body _ _ _ _) as [o s']. cbn [fst snd] in H.
  destruct H as (es & ts & m & symptoms & allergies
                 & -> & Hh & -> & Hdrug & Hst).
  cbn [fst snd r_state r_history r_english_summary].
  split; [done|]. split; [done|]. split; [eauto|]. split; [eauto|].
  apply headers_absent_not_found.
Qed.

Lemma diagnosis_turn_survives_service_failure_witness :
  let state :=
    ui_state (replay None sample_repr [Send "english"; Send "fever"]
                     (initial_session 0)) in
  let r := fst (process_chat None sample_repr "penicillin" None state 0) in
  r_state r !! "drug_concept_full_en" = Some (VStr UNAVAILABLE)
  /\ extract_fields UNAVAILABLE
     = {| diagnosis := NOT_FOUND; drug_concept := NOT_FOUND;
          dosage := NOT_FOUND; safety := NOT_FOUND |}.
Proof.
  pose proof (diagnosis_turn_survives_service_failure None sample_repr
                UNAVAILABLE "penicillin" None
                (ui_state (replay None sample_repr
                             [Send "english"; Send "fever"]
                             (initial_session 0))) 0) as H.
  cbv zeta in H.
  destruct H as (H1 & _ & _ & _ & H5);
    [reflexivity | vm_compute; reflexivity | vm_compute; reflexivity
    | reflexivity |].
  split; [exact H1|]. apply H5; vm_compute; reflexivity.
Defined.

(** ** The English panel *)

Section Panel.

Variable gemini_client : option client.
Variable repr_list : list turn -> pystr.

Lemma previous_summary_english_panel user_lang_code h st n :
  wp (previous_summary gemini_client repr_list user_lang_code)
     {| s_history := h; s_state := st; s_requests := n |}
     (fun o s' =>
        s_history s' = h /\ s_state s' = st
        /\ match o with
           | Return sums => fst sums = english_panel repr_list st
           | Raise _ => True
           end).
Proof.
  unfold previous_summary, english_panel, rebuilt_english_summary.
  wp_step. wp_step. cbn [s_state].
  destruct (st !! "drug_concept_full_en") as [[|[|c full]|[|t l]]|];
    cbn [default from_option id truthy PyStr.truthy];
    repeat wp_count_step; done.
Qed.

Lemma stage_branch_keeps_panel stage message user_lang_code user_message_en
    sums h st n :
  stage <> VStr CHAT_STAGE_ASK_ALLERGIES ->
  wp (stage_branch gemini_client repr_list stage message user_lang_code
                   user_message_en sums)
     {| s_history := h; s_state := st; s_requests := n |}
     (fun o _ =>
        match o with
        | Return after => english_summary after = fst sums
        | Raise _ => True
        end).
Proof.
  intros Hstage. unfold stage_branch.
  rewrite (bool_decide_eq_false_2 (stage = VStr CHAT_STAGE_ASK_ALLERGIES))
    by done.
  unfold ask_language, ask_symptoms, general_qna.
  repeat wp_count_step; done.
Qed.

Lemma process_chat_body_panel message h st n :
  st !! "stage" <> Some (VStr CHAT_STAGE_ASK_ALLERGIES) ->
  wp (process_chat_body gemini_client repr_list message)
     {| s_history := h; s_state := st; s_requests := n |}
     (fun o _ =>
        match o with
        | Return (es, _) => es = english_panel repr_list st
        | Raise _ => True
        end).
Proof.
  intros Hstage. unfold process_chat_body.
  wp_step. wp_step; [|done].
  wp_step. wp_step. wp_step.
  eapply wp_mono; [apply message_in_english_requests|].
  intros o [h1 st1 n1] (Hh & Hst & [x ->] & _).
  cbn [s_history s_state s_requests] in *. subst h1 st1.
  wp_step.
  eapply wp_mono; [apply previous_summary_english_panel|].
  intros [sums|e] [h2 st2 n2] (Hh & Hst & Hes);
    cbn [s_history s_state s_requests] in *; subst h2 st2; [|done].
  wp_step.
  eapply wp_mono; [apply stage_branch_keeps_panel; congruence|].
  intros [after|e] s3 Hafter; [|done].
  wp_run. congruence.
Qed.

End Panel.

(** X25. In every turn that does not raise and does not start in the
    AskAllergies stage, the English panel is a function of the dict the
    turn was given: the placeholder text while no full response is
    stored, and otherwise the stored symptoms and allergies followed by
    the four fields extracted from the stored full response, whatever the
    service answers in this turn. *)
Theorem english_panel_shows_the_stored_fields
    (gemini_client : option client) (repr_list : list turn -> pystr)
    (message : pystr) (history : option (list (pystr * pystr)))
    (state : gmap pystr value) (n : nat) :
  turn_exception gemini_client repr_list message history state n = None ->
  state !! "stage" <> Some (VStr CHAT_STAGE_ASK_ALLERGIES) ->
  r_english_summary
    (fst (process_chat gemini_client repr_list message history state n))
  = english_panel repr_list state.
Proof.
  unfold turn_exception, process_chat. intros Hok Hstage.
  pose proof (process_chat_body_panel gemini_client repr_list message
                (default [] history ++ [(message, "")])%list state n Hstage)
    as H.
  unfold wp in H.
  destruct (process_chat_body _ _ _ _) as [[[es ts]|e] s']; [|done].
  exact H.
Qed.

Lemma english_panel_shows_the_stored_fields_witness :
  r_english_summary
    (fst (process_chat (Some (failing_client "503")) sample_repr
            "is it safe?" None
            (<["drug_concept_full_en" :=
                 VStr "Diagnosis: flu Proposed New Drug: Fluzap Allergy/Safety Note: none"]>
               (ui_state sample_qna_session)) 0))
  = "**Symptoms:** fever and cough" ++ PyStr.nl ++ PyStr.nl
    ++ "**Allergies:** penicillin" ++ PyStr.nl ++ PyStr.nl
    ++ "**Diagnosis:** flu" ++ PyStr.nl ++ PyStr.nl
    ++ "**Drug Concept:** Fluzap" ++ PyStr.nl ++ PyStr.nl
    ++ "**Dosage:** Not found" ++ PyStr.nl ++ PyStr.nl
    ++ "**Safety:** none" ++ PyStr.nl ++ PyStr.nl.
Proof.
  rewrite (english_panel_shows_the_stored_fields
             (Some (failing_client "503")) sample_repr "is it safe?" None);
    vm_compute; first [reflexivity | discriminate].
Defined.
